(** * folder_lock.py: a password-gated folder lock

    A shallow embedding of [src/folder_lock.py] (class [FolderLock]) and the
    properties of its credential hashing, its lock registry and its
    lock / unlock / unlock-all transitions.

    Layout of the development:
    - [Bytes], [Sha256], [Hmac], [Pbkdf2]: the library functions the script
      calls ([str.encode], [bytes.hex], [hashlib.pbkdf2_hmac]);
    - [Fs]: the file tree the script works on ([pathlib], [shutil.move]);
    - [Py]: results, exceptions and the state monad of one command run;
    - [FolderLock]: the methods of the class, in source order;
    - the theorems. *)

From Stdlib Require Import ZArith List String Ascii Bool Lia Permutation.
Import ListNotations.
Local Open Scope Z_scope.
Set Warnings "-register-all".

(* ------------------------------------------------------------------ *)
(** ** Byte strings and Python [str] *)

Module Bytes.

(** A byte string ([bytes]) is a list of integers in [0, 255]. *)
Definition bytes := list Z.

(** A Python [str] is a sequence of Unicode code points. *)
Definition str := list Z.

Definition byte_range (b : Z) : Prop := 0 <= b < 256.

(** [len(s)] for a [str]. *)
Definition len (s : str) : Z := Z.of_nat (List.length s).

Fixpoint str_eqb (a b : str) : bool :=
  match a, b with
  | [], [] => true
  | x :: a', y :: b' => (x =? y) && str_eqb a' b'
  | _, _ => false
  end.

(** An ASCII literal read as a [str]. *)
Fixpoint str_of_string (s : string) : str :=
  match s with
  | EmptyString => []
  | String c s' => Z.of_N (N_of_ascii c) :: str_of_string s'
  end.

(** [str.encode('utf-8')] of one code point; lone surrogates (and values that
    are no code point at all) raise [UnicodeEncodeError], here [None]. *)
Definition encode_cp (cp : Z) : option bytes :=
  if cp <? 0 then None
  else if cp <? 0x80 then Some [cp]
  else if cp <? 0x800 then
    Some [Z.lor 0xC0 (Z.shiftr cp 6); Z.lor 0x80 (Z.land cp 0x3F)]
  else if cp <? 0x10000 then
    if (0xD800 <=? cp) && (cp <=? 0xDFFF) then None
    else Some [Z.lor 0xE0 (Z.shiftr cp 12);
               Z.lor 0x80 (Z.land (Z.shiftr cp 6) 0x3F);
               Z.lor 0x80 (Z.land cp 0x3F)]
  else if cp <? 0x110000 then
    Some [Z.lor 0xF0 (Z.shiftr cp 18);
          Z.lor 0x80 (Z.land (Z.shiftr cp 12) 0x3F);
          Z.lor 0x80 (Z.land (Z.shiftr cp 6) 0x3F);
          Z.lor 0x80 (Z.land cp 0x3F)]
  else None.

Fixpoint encode_utf8 (s : str) : option bytes :=
  match s with
  | [] => Some []
  | cp :: s' =>
      match encode_cp cp, encode_utf8 s' with
      | Some b, Some bs => Some (b ++ bs)
      | _, _ => None
      end
  end.

(** One lowercase hexadecimal digit, as a code point. *)
Definition hex_digit (d : Z) : Z :=
  if d <? 10 then 48 + d else 87 + d.

(** [bytes.hex()]. *)
Fixpoint hex (bs : bytes) : str :=
  match bs with
  | [] => []
  | b :: bs' => hex_digit (Z.shiftr b 4) :: hex_digit (Z.land b 15) :: hex bs'
  end.

Definition xor_bytes (a b : bytes) : bytes :=
  map (fun p => Z.lxor (fst p) (snd p)) (combine a b).

End Bytes.
Import Bytes.

(* ------------------------------------------------------------------ *)
(** ** SHA-256 (FIPS 180-4), the digest behind [hashlib.pbkdf2_hmac('sha256', ...)] *)

Module Sha256.

Definition w32 (x : Z) : Z := Z.land x 0xFFFFFFFF.
Definition add32 (x y : Z) : Z := w32 (x + y).
Definition rotr (n x : Z) : Z :=
  Z.lor (Z.shiftr x n) (w32 (Z.shiftl x (32 - n))).

Definition Ch (x y z : Z) : Z :=
  Z.lxor (Z.land x y) (Z.land (w32 (Z.lnot x)) z).
Definition Maj (x y z : Z) : Z :=
  Z.lxor (Z.lxor (Z.land x y) (Z.land x z)) (Z.land y z).
Definition Sigma0 (x : Z) : Z := Z.lxor (Z.lxor (rotr 2 x) (rotr 13 x)) (rotr 22 x).
Definition Sigma1 (x : Z) : Z := Z.lxor (Z.lxor (rotr 6 x) (rotr 11 x)) (rotr 25 x).
Definition sigma0 (x : Z) : Z := Z.lxor (Z.lxor (rotr 7 x) (rotr 18 x)) (Z.shiftr x 3).
Definition sigma1 (x : Z) : Z := Z.lxor (Z.lxor (rotr 17 x) (rotr 19 x)) (Z.shiftr x 10).

(** The constants are the first 32 bits of the fractional parts of the
    cube roots ([K]) and of the square roots ([H0]) of the first primes. *)
Definition is_prime (n : Z) : bool :=
  (1 <? n) &&
  forallb (fun d => negb (n mod d =? 0))
          (map (fun i => Z.of_nat i + 2) (seq 0 (Z.to_nat (Z.sqrt n) - 1))).

Definition primes_below (bound : nat) : list Z :=
  filter is_prime (map Z.of_nat (seq 0 bound)).

(** The integer cube root, one bit at a time from bit [bits - 1] down. *)
Definition cube_root (bits : nat) (n : Z) : Z :=
  fold_left
    (fun r i => let r' := r + Z.shiftl 1 (Z.of_nat i) in
                if r' * r' * r' <=? n then r' else r)
    (rev (seq 0 bits)) 0.

Definition K : list Z :=
  Eval vm_compute in
    map (fun p => w32 (cube_root 36 (Z.shiftl p 96))) (primes_below 312).

Definition H0 : list Z :=
  Eval vm_compute in
    map (fun p => w32 (Z.sqrt (Z.shiftl p 64))) (primes_below 20).

(** Big-endian packing. *)
Fixpoint words_of_bytes (bs : bytes) : list Z :=
  match bs with
  | a :: b :: c :: d :: rest =>
      (Z.shiftl a 24 + Z.shiftl b 16 + Z.shiftl c 8 + d) :: words_of_bytes rest
  | _ => []
  end.

Definition bytes_of_word (x : Z) : bytes :=
  [Z.land (Z.shiftr x 24) 255; Z.land (Z.shiftr x 16) 255;
   Z.land (Z.shiftr x 8) 255; Z.land x 255].

Definition bytes_of_len64 (n : Z) : bytes :=
  bytes_of_word (Z.shiftr n 32) ++ bytes_of_word (w32 n).

(** Padding: a [1] bit, zeros up to 56 mod 64, the bit length on 64 bits. *)
Definition pad (msg : bytes) : bytes :=
  let l := Z.of_nat (List.length msg) in
  msg ++ [0x80] ++ repeat 0 (Z.to_nat ((55 - l) mod 64)) ++ bytes_of_len64 (8 * l).

(** The message schedule; [recent] holds the words computed so far, newest
    first. *)
Fixpoint schedule (n : nat) (recent : list Z) : list Z :=
  match n with
  | O => rev recent
  | S n' =>
      let wt := add32 (add32 (sigma1 (nth 1 recent 0)) (nth 6 recent 0))
                      (add32 (sigma0 (nth 14 recent 0)) (nth 15 recent 0)) in
      schedule n' (wt :: recent)
  end.

Definition round (st : list Z) (kw : Z * Z) : list Z :=
  match st with
  | [a; b; c; d; e; f; g; h] =>
      let t1 := add32 (add32 (add32 h (Sigma1 e)) (add32 (Ch e f g) (fst kw))) (snd kw) in
      let t2 := add32 (Sigma0 a) (Maj a b c) in
      [add32 t1 t2; a; b; c; add32 d t1; e; f; g]
  | _ => st
  end.

Definition compress (h : list Z) (block : bytes) : list Z :=
  let ws := schedule 48 (rev (words_of_bytes block)) in
  let st := fold_left round (combine K ws) h in
  map (fun p => add32 (fst p) (snd p)) (combine h st).

Fixpoint blocks (fuel : nat) (bs : bytes) : list bytes :=
  match fuel, bs with
  | _, [] => []
  | O, _ => []
  | S fuel', _ => firstn 64 bs :: blocks fuel' (skipn 64 bs)
  end.

Definition sha256 (msg : bytes) : bytes :=
  let p := pad msg in
  flat_map bytes_of_word (fold_left compress (blocks (List.length p) p) H0).

End Sha256.

(* ------------------------------------------------------------------ *)
(** ** HMAC (RFC 2104) over SHA-256 *)

Module Hmac.

Definition block_size : nat := 64.

(** The key as HMAC uses it: hashed when longer than a block, then padded
    with zero bytes to the block size. *)
Definition key_block (key : bytes) : bytes :=
  let k := if (Nat.ltb block_size (List.length key)) then Sha256.sha256 key else key in
  k ++ repeat 0 (block_size - List.length k).

Definition hmac_with_block (kb : bytes) (msg : bytes) : bytes :=
  let ipad := map (Z.lxor 0x36) kb in
  let opad := map (Z.lxor 0x5C) kb in
  Sha256.sha256 (opad ++ Sha256.sha256 (ipad ++ msg)).

Definition hmac_sha256 (key msg : bytes) : bytes :=
  hmac_with_block (key_block key) msg.

End Hmac.

(* ------------------------------------------------------------------ *)
(** ** PBKDF2 (RFC 8018) with one output block, as [hashlib.pbkdf2_hmac]
    computes it when [dklen] is left to the digest size *)

Module Pbkdf2.

Definition iterate (prf : bytes -> bytes) (ut : bytes * bytes) : bytes * bytes :=
  let u := prf (fst ut) in (u, xor_bytes (snd ut) u).

(** [T_1 = U_1 xor ... xor U_c], [U_1 = PRF (salt || INT 1)]. *)
Definition pbkdf2 (prf : bytes -> bytes) (salt : bytes) (c : N) : bytes :=
  let u1 := prf (salt ++ [0; 0; 0; 1]) in
  snd (N.iter (c - 1) (iterate prf) (u1, u1)).

Definition pbkdf2_hmac_sha256 (password salt : bytes) (iterations : N) : bytes :=
  pbkdf2 (Hmac.hmac_with_block (Hmac.key_block password)) salt iterations.

End Pbkdf2.

(* ------------------------------------------------------------------ *)
(** ** Paths, JSON documents and the file tree *)

Local Open Scope string_scope.
Local Open Scope list_scope.
Local Open Scope Z_scope.

(** A path is absolute and normalised: the list of its components below the
    root, as [Path(...).absolute()] yields them for an argument without
    [..] components or symbolic links.  [str(path)] is injective on such
    paths, so the registry is keyed by the path itself. *)
Abbreviation name := string (only parsing).
Definition path := list name.

Fixpoint path_eqb (p q : path) : bool :=
  match p, q with
  | [], [] => true
  | x :: p', y :: q' => String.eqb x y && path_eqb p' q'
  | _, _ => false
  end.

(** [is_prefix p q]: [q] is [p] or lies below [p]. *)
Fixpoint is_prefix (p q : path) : bool :=
  match p, q with
  | [], _ => true
  | x :: p', y :: q' => String.eqb x y && is_prefix p' q'
  | _ :: _, [] => false
  end.

(** [path.parent] and [path.name]; the root has neither. *)
Fixpoint split_last (p : path) : option (path * name) :=
  match p with
  | [] => None
  | [x] => Some ([], x)
  | x :: p' =>
      match split_last p' with
      | Some (q, y) => Some (x :: q, y)
      | None => None
      end
  end.

(** [path.name], the empty string for the root. *)
Definition basename (p : path) : name :=
  match split_last p with Some (_, x) => x | None => "" end.

(** Python dictionaries keyed by a path string, in insertion order. *)
Module Dict.
Section Dict.
Context {V : Type}.

Definition dict := list (path * V).

Fixpoint get (k : path) (d : dict) : option V :=
  match d with
  | [] => None
  | (k', v) :: d' => if path_eqb k k' then Some v else get k d'
  end.

(** [k in d] *)
Definition mem (k : path) (d : dict) : bool :=
  match get k d with Some _ => true | None => false end.

(** [d[k] = v]: an existing key keeps its place, a new one goes last. *)
Fixpoint set (k : path) (v : V) (d : dict) : dict :=
  match d with
  | [] => [(k, v)]
  | (k', v') :: d' =>
      if path_eqb k k' then (k, v) :: d' else (k', v') :: set k v d'
  end.

(** [del d[k]] (keys of a dictionary are unique). *)
Definition del (k : path) (d : dict) : dict :=
  filter (fun kv => negb (path_eqb k (fst kv))) d.

Definition keys (d : dict) : list path := map fst d.
End Dict.
Arguments dict : clear implicits.
End Dict.

(** The credential record [{'salt': ..., 'hash': ...}]. *)
Record stored_data := { salt : str; hash : str }.

(** A registry value [{'hidden_path': ..., 'locked_at': ..., 'items_count': ...}]. *)
Record lock_info := { hidden_path : path; locked_at : string; items_count : Z }.

Definition registry := Dict.dict lock_info.

(** What a file holds.  The two JSON shapes the script reads and writes are
    kept parsed; every other file is [Raw], and [json.load] fails on it.
    A file just opened for writing is [Raw []]. *)
Inductive content :=
| CredJson (c : stored_data)
| StatusJson (r : registry)
| Raw (data : bytes).

(** Python exceptions the modelled calls raise. *)
Inductive exn :=
| FileNotFoundError | FileExistsError | NotADirectoryError | IsADirectoryError
| DirectoryNotEmpty   (* OSError, ENOTEMPTY or EBUSY *)
| ShutilError         (* shutil.Error *)
| JSONDecodeError | KeyError | UnicodeEncodeError | EOFError.

Inductive res (A : Type) :=
| Ret (a : A)
| Raise (e : exn).
Arguments Ret {A} a.
Arguments Raise {A} e.

Module Fs.

Inductive node :=
| File (c : content)
| Dir (entries : list (name * node)).

Definition entries := list (name * node).

Fixpoint find_entry (x : name) (es : entries) : option node :=
  match es with
  | [] => None
  | (y, n) :: es' => if String.eqb x y then Some n else find_entry x es'
  end.

Definition remove_entry (x : name) (es : entries) : entries :=
  filter (fun e => negb (String.eqb x (fst e))) es.

(** A replaced entry keeps its place, a new one goes last.  The order in
    which a directory lists its entries is the file system's own; the list
    order kept here is one such order, and what is stated of a directory
    after a move is stated up to permutation. *)
Fixpoint put_entry (x : name) (n : node) (es : entries) : entries :=
  match es with
  | [] => [(x, n)]
  | (y, m) :: es' =>
      if String.eqb x y then (x, n) :: es' else (y, m) :: put_entry x n es'
  end.

(** Apply [g] to the entry named [x] (the one [find_entry] finds). *)
Fixpoint map_entry (x : name) (g : node -> node) (es : entries) : entries :=
  match es with
  | [] => []
  | (y, n) :: es' =>
      if String.eqb x y then (y, g n) :: es' else (y, n) :: map_entry x g es'
  end.

(** [os.stat]: [ENOENT] when a component is missing, [ENOTDIR] when the path
    runs through a file. *)
Fixpoint resolve (p : path) (t : node) : res node :=
  match p with
  | [] => Ret t
  | x :: p' =>
      match t with
      | File _ => Raise NotADirectoryError
      | Dir es =>
          match find_entry x es with
          | Some n => resolve p' n
          | None => Raise FileNotFoundError
          end
      end
  end.

(** Apply [f] to the entries of the directory at [p]. *)
Fixpoint modify_dir (p : path) (f : entries -> entries) (t : node) : node :=
  match p with
  | [] => match t with Dir es => Dir (f es) | File _ => t end
  | x :: p' =>
      match t with
      | Dir es => Dir (map_entry x (modify_dir p' f) es)
      | File _ => t
      end
  end.

Definition remove (p : path) (t : node) : node :=
  match split_last p with
  | Some (parent, x) => modify_dir parent (remove_entry x) t
  | None => t
  end.

Definition insert (p : path) (n : node) (t : node) : node :=
  match split_last p with
  | Some (parent, x) => modify_dir parent (put_entry x n) t
  | None => n
  end.

(** Insert below [p], creating the missing directories on the way
    ([os.makedirs]). *)
Fixpoint graft (p : path) (n : node) (t : node) : node :=
  match p with
  | [] => n
  | x :: p' =>
      match t with
      | Dir es =>
          match find_entry x es with
          | Some c => Dir (put_entry x (graft p' n c) es)
          | None => Dir (es ++ [(x, graft p' n (Dir []))])
          end
      | File _ => t
      end
  end.

(** [Path.exists()] and [Path.is_dir()] answer [False] on any error. *)
Definition exists_ (p : path) (t : node) : bool :=
  match resolve p t with Ret _ => true | Raise _ => false end.

Definition is_dir (p : path) (t : node) : bool :=
  match resolve p t with Ret (Dir _) => true | _ => false end.

(** [os.mkdir]. *)
Definition os_mkdir (p : path) (t : node) : res node :=
  match resolve p t with
  | Ret _ => Raise FileExistsError
  | Raise NotADirectoryError => Raise NotADirectoryError
  | Raise _ =>
      match split_last p with
      | None => Raise FileExistsError
      | Some (parent, _) =>
          match resolve parent t with
          | Ret (Dir _) => Ret (insert p (Dir []) t)
          | Ret (File _) => Raise NotADirectoryError
          | Raise e => Raise e
          end
      end
  end.

(** [Path.mkdir(exist_ok=...)]: with [exist_ok], an [OSError] other than
    [FileNotFoundError] is swallowed when the path is a directory. *)
Definition mkdir (exist_ok : bool) (p : path) (t : node) : res node :=
  match os_mkdir p t with
  | Ret t' => Ret t'
  | Raise FileNotFoundError => Raise FileNotFoundError
  | Raise e => if exist_ok && is_dir p t then Ret t else Raise e
  end.

(** [Path.rmdir()]. *)
Definition rmdir (p : path) (t : node) : res node :=
  match resolve p t with
  | Ret (Dir []) =>
      match p with
      | [] => Raise DirectoryNotEmpty
      | _ => Ret (remove p t)
      end
  | Ret (Dir (_ :: _)) => Raise DirectoryNotEmpty
  | Ret (File _) => Raise NotADirectoryError
  | Raise e => Raise e
  end.

(** [Path.iterdir()]: the children, in directory order. *)
Definition iterdir (p : path) (t : node) : res (list path) :=
  match resolve p t with
  | Ret (Dir es) => Ret (map (fun e => p ++ [fst e]) es)
  | Ret (File _) => Raise NotADirectoryError
  | Raise e => Raise e
  end.

(** [open(p, 'r')] followed by reading the whole file. *)
Definition read_file (p : path) (t : node) : res content :=
  match resolve p t with
  | Ret (File c) => Ret c
  | Ret (Dir _) => Raise IsADirectoryError
  | Raise e => Raise e
  end.

(** [open(p, 'w')]: the file is created, or truncated where it stands. *)
Definition open_w (p : path) (t : node) : res node :=
  match resolve p t with
  | Ret (File _) => Ret (insert p (File (Raw [])) t)
  | Ret (Dir _) => Raise IsADirectoryError
  | Raise NotADirectoryError => Raise NotADirectoryError
  | Raise _ =>
      match split_last p with
      | None => Raise IsADirectoryError
      | Some (parent, _) =>
          match resolve parent t with
          | Ret (Dir _) => Ret (insert p (File (Raw [])) t)
          | Ret (File _) => Raise NotADirectoryError
          | Raise e => Raise e
          end
      end
  end.

(** Writing the serialised document through the open handle and closing it. *)
Definition write_open (p : path) (c : content) (t : node) : node :=
  insert p (File c) t.

(** [os.rename src dst] once it is known to succeed. *)
Definition rename (src dst : path) (n : node) (t : node) : node :=
  insert dst n (remove src t).

(** [shutil.move(src, dst)] on one device and without symbolic links.
    When [dst] is a directory the source goes inside it under its own name,
    unless [src] is [dst] itself (a rename onto itself, which does nothing);
    an existing target or a move of a directory into itself is an error.
    Otherwise [dst] names the target, and [os.rename] with its copy fallback
    decides. *)
Definition shutil_move (src dst : path) (t : node) : res node :=
  if is_dir dst t then
    if path_eqb src dst then Ret t
    else
      let real_dst := dst ++ [basename src] in
      if exists_ real_dst t then Raise ShutilError
      else
        match resolve src t with
        | Raise _ => Raise FileNotFoundError
        | Ret n =>
            if is_prefix src dst then Raise ShutilError
            else Ret (rename src real_dst n t)
        end
  else
    match resolve src t with
    | Raise _ => Raise FileNotFoundError
    | Ret n =>
        if path_eqb src dst then Ret t
        else
          match resolve dst t, n with
          | Ret (File _), File _ => Ret (rename src dst n t)
          | Ret _, _ => Raise FileExistsError
          | Raise NotADirectoryError, _ => Raise NotADirectoryError
          | Raise _, _ =>
              if is_prefix src dst then Raise ShutilError
              else
                match split_last dst with
                | None => Raise FileExistsError
                | Some (parent, _) =>
                    match resolve parent t, n with
                    | Ret (Dir _), _ => Ret (rename src dst n t)
                    | _, Dir _ => Ret (graft dst n (remove src t))
                    | _, File _ => Raise FileNotFoundError
                    end
                end
          end
    end.

End Fs.
Import Fs.

(* ------------------------------------------------------------------ *)
(** ** One run of the script: its world and its monad *)

Module Py.

(** What [datetime.now()] answers, through the two formats the script uses. *)
Record datetime := { strftime_YmdHMS : string; isoformat : string }.

(** The lines the script prints, by kind. *)
Inductive message :=
| SetupBanner | AlreadyConfigured | PasswordsDontMatch | PasswordTooShort
| SetupComplete
| NotConfigured | AuthenticationFailed | AdminAuthenticationFailed
| AdminModeActivated
| FolderDoesNotExist (folder : path) | NotAFolder (folder : path)
| AlreadyLocked | NotLocked | HiddenDataNotFound
| CouldNotMove (item : name) (e : exn)
| CouldNotRestore (item : name) (e : exn)
| LockedOk (folder : path) (items : Z)
| UnlockedOk (folder : path) (items : Z)
| UserPasswordBanner | UserPasswordChanged
| AdminPasswordBanner | AdminPasswordChanged
| StatusBanner | NoFoldersLocked | StatusHeader
| StatusRow (folder : path) (at_ : string) (items : Z)
| EmergencyBanner | OperationCancelled
| UnlockedOne (folder : path) | ErrorUnlocking (folder : path) (e : exn)
| UnlockedCount (n : Z)
| AdminHelp | Help
| TopLevelError (e : exn).

Record world := {
  fs : node;              (* the file tree *)
  stdin : list str;       (* lines still to be typed at the prompts *)
  entropy : nat -> Z;     (* the stream behind [os.urandom] *)
  drawn : nat;            (* how much of it has been consumed *)
  clock : nat -> datetime;(* successive answers of [datetime.now()] *)
  ticks : nat;            (* how many have been given *)
  out : list message;     (* what was printed, oldest first *)
  saved : list path       (* completed [json.dump] writes, oldest first *)
}.

Definition with_fs (t : node) (w : world) : world :=
  {| fs := t; stdin := stdin w; entropy := entropy w; drawn := drawn w;
     clock := clock w; ticks := ticks w; out := out w; saved := saved w |}.
Definition with_stdin (l : list str) (w : world) : world :=
  {| fs := fs w; stdin := l; entropy := entropy w; drawn := drawn w;
     clock := clock w; ticks := ticks w; out := out w; saved := saved w |}.
Definition with_drawn (n : nat) (w : world) : world :=
  {| fs := fs w; stdin := stdin w; entropy := entropy w; drawn := n;
     clock := clock w; ticks := ticks w; out := out w; saved := saved w |}.
Definition with_ticks (n : nat) (w : world) : world :=
  {| fs := fs w; stdin := stdin w; entropy := entropy w; drawn := drawn w;
     clock := clock w; ticks := n; out := out w; saved := saved w |}.
Definition with_out (o : list message) (w : world) : world :=
  {| fs := fs w; stdin := stdin w; entropy := entropy w; drawn := drawn w;
     clock := clock w; ticks := ticks w; out := o; saved := saved w |}.
Definition with_saved (l : list path) (w : world) : world :=
  {| fs := fs w; stdin := stdin w; entropy := entropy w; drawn := drawn w;
     clock := clock w; ticks := ticks w; out := out w; saved := l |}.

(** A computation returns or raises, and leaves a world either way. *)
Definition M (A : Type) := world -> res A * world.

Definition ret {A} (a : A) : M A := fun w => (Ret a, w).
Definition raise {A} (e : exn) : M A := fun w => (Raise e, w).
Definition bind {A B} (m : M A) (k : A -> M B) : M B :=
  fun w => match m w with
           | (Ret a, w') => k a w'
           | (Raise e, w') => (Raise e, w')
           end.

(** [try: m  except Exception as e: h e] *)
Definition catch {A} (m : M A) (h : exn -> M A) : M A :=
  fun w => match m w with
           | (Ret a, w') => (Ret a, w')
           | (Raise e, w') => h e w'
           end.

Definition print (m : message) : M unit :=
  fun w => (Ret tt, with_out (out w ++ [m]) w).

(** [getpass.getpass] and [input]: the next line, [EOFError] at end of input. *)
Definition getpass : M str :=
  fun w => match stdin w with
           | [] => (Raise EOFError, w)
           | l :: rest => (Ret l, with_stdin rest w)
           end.

(** The next [n] bytes of the entropy stream. *)
Definition random_bytes (n : nat) (w : world) : bytes :=
  map (fun i => entropy w (drawn w + i)%nat mod 256) (seq 0 n).

(** [os.urandom n] *)
Definition os_urandom (n : nat) : M bytes :=
  fun w => (Ret (random_bytes n w), with_drawn (drawn w + n)%nat w).

Definition datetime_now : M datetime :=
  fun w => (Ret (clock w (ticks w)), with_ticks (S (ticks w)) w).

(** A query of the file tree. *)
Definition ask {A} (f : node -> A) : M A := fun w => (Ret (f (fs w)), w).

(** A fallible read of the file tree. *)
Definition try_ask {A} (f : node -> res A) : M A := fun w => (f (fs w), w).

(** A fallible update of the file tree; a failure leaves it as it was. *)
Definition update (f : node -> res node) : M unit :=
  fun w => match f (fs w) with
           | Ret t => (Ret tt, with_fs t w)
           | Raise e => (Raise e, w)
           end.

(** [json.dump(doc, f)] through a handle opened on [p], then closing it. *)
Definition json_dump (p : path) (doc : content) : M unit :=
  fun w => (Ret tt, with_saved (saved w ++ [p]) (with_fs (write_open p doc (fs w)) w)).

End Py.
Import Py.

Declare Scope py_scope.
Delimit Scope py_scope with py.
Notation "x <- m ;; k" := (bind m (fun x => k))
  (at level 61, m at next level, right associativity) : py_scope.
Notation "m ;; k" := (bind m (fun _ => k))
  (at level 61, right associativity) : py_scope.
Local Open Scope py_scope.

(* ------------------------------------------------------------------ *)
(** ** class FolderLock *)

Module FolderLock.

(** The instance: [self.script_dir]; the other paths derive from it. *)
Record t := { script_dir : path }.

Definition config_dir (self : t) : path := script_dir self ++ [".config"].
Definition hidden_dir (self : t) : path := config_dir self ++ [".locked_data"].
Definition admin_hash_file (self : t) : path := config_dir self ++ ["admin_hash.json"].
Definition user_hash_file (self : t) : path := config_dir self ++ ["user_hash.json"].
Definition lock_status_file (self : t) : path := config_dir self ++ ["lock_status.json"].

(** [__init__]: both directories are created when missing.  (Setting the
    hidden attribute on Windows does not change the tree.) *)
Definition __init__ (self : t) : M unit :=
  update (mkdir true (config_dir self)) ;;
  update (mkdir true (hidden_dir self)).

Definition generate_salt : M str :=
  b <- os_urandom 32 ;;
  ret (hex b).

Definition encode (s : str) : M bytes :=
  match encode_utf8 s with
  | Some b => ret b
  | None => raise UnicodeEncodeError
  end.

Definition iterations : N := 100000.

Definition hash_password (password : str) (salt : option str) : M stored_data :=
  salt <- match salt with
          | None => generate_salt
          | Some s => ret s
          end ;;
  pw <- encode password ;;
  sb <- encode salt ;;
  let hash_obj := Pbkdf2.pbkdf2_hmac_sha256 pw sb iterations in
  ret {| salt := salt; hash := hex hash_obj |}.

Definition verify_password (password : str) (stored : stored_data) : M bool :=
  result <- hash_password password (Some (salt stored)) ;;
  ret (str_eqb (hash result) (hash stored)).

(** [json.load] of a credential file.  A file that holds a JSON object of
    the other shape loads as well; it has no ['salt'], and it is
    [verify_password] that raises [KeyError] on it, once the password has
    been read: this is [None]. *)
Definition load_credential (p : path) : M (option stored_data) :=
  c <- try_ask (read_file p) ;;
  match c with
  | CredJson d => ret (Some d)
  | StatusJson _ => ret None
  | Raw _ => raise JSONDecodeError
  end.

(** [json.load] of the registry file.  The file is taken to hold a
    registry whenever it parses: on a JSON value of another shape the code
    goes on with that value, which is not modelled (the script never
    writes one); here such a file raises at the load. *)
Definition load_status (self : t) : M registry :=
  c <- try_ask (read_file (lock_status_file self)) ;;
  match c with
  | StatusJson r => ret r
  | CredJson _ => raise KeyError
  | Raw _ => raise JSONDecodeError
  end.

(** [with open(self.lock_status_file, 'w') as f: json.dump(lock_status, f, indent=2)] *)
Definition save_status (self : t) (r : registry) : M unit :=
  update (open_w (lock_status_file self)) ;;
  json_dump (lock_status_file self) (StatusJson r).

(** [with open(p, 'w') as f: json.dump(self.hash_password(password), f)]:
    the file is opened before the password is hashed. *)
Definition save_credential (p : path) (password : str) : M unit :=
  update (open_w p) ;;
  d <- hash_password password None ;;
  json_dump p (CredJson d).

(** The [while True] loop that asks for a new password twice, on the lines
    still to be typed: the first pair that matches and has six characters or
    more ends it. *)
Fixpoint new_password_loop (lines : list str)
  : res str * list str * list message :=
  match lines with
  | p :: q :: rest =>
      if negb (str_eqb p q) then
        let '(r, rest', msgs) := new_password_loop rest in
        (r, rest', PasswordsDontMatch :: msgs)
      else if len p <? 6 then
        let '(r, rest', msgs) := new_password_loop rest in
        (r, rest', PasswordTooShort :: msgs)
      else (Ret p, rest, [])
  | _ => (Raise EOFError, [], [])
  end.

Definition ask_new_password : M str :=
  fun w =>
    let '(r, rest, msgs) := new_password_loop (stdin w) in
    (r, with_out (out w ++ msgs) (with_stdin rest w)).

(** [clear_screen] only touches the terminal and is left out. *)
Definition initial_setup (self : t) : M bool :=
  print SetupBanner ;;
  configured <- ask (exists_ (admin_hash_file self)) ;;
  if configured then
    print AlreadyConfigured ;; ret false
  else
    admin_pass <- ask_new_password ;;
    user_pass <- ask_new_password ;;
    save_credential (admin_hash_file self) admin_pass ;;
    save_credential (user_hash_file self) user_pass ;;
    update (open_w (lock_status_file self)) ;;
    json_dump (lock_status_file self) (StatusJson []) ;;
    print SetupComplete ;;
    ret true.

Definition authenticate_user (self : t) : M bool :=
  configured <- ask (exists_ (user_hash_file self)) ;;
  if negb configured then
    print NotConfigured ;; ret false
  else
    stored_hash <- load_credential (user_hash_file self) ;;
    password <- getpass ;;
    ok <- match stored_hash with
          | Some stored_data => verify_password password stored_data
          | None => raise KeyError
          end ;;
    if ok then ret true
    else print AuthenticationFailed ;; ret false.

Definition authenticate_admin (self : t) : M bool :=
  configured <- ask (exists_ (admin_hash_file self)) ;;
  if negb configured then
    print NotConfigured ;; ret false
  else
    stored_hash <- load_credential (admin_hash_file self) ;;
    password <- getpass ;;
    ok <- match stored_hash with
          | Some stored_data => verify_password password stored_data
          | None => raise KeyError
          end ;;
    if ok then print AdminModeActivated ;; ret true
    else print AdminAuthenticationFailed ;; ret false.

(** The loop of [lock_folder] and of [unlock_folder]: each item is moved
    into [dst]; a failed move is reported and skipped. *)
Fixpoint move_items (warn : name -> exn -> message)
         (items : list path) (dst : path) (count : Z) : M Z :=
  match items with
  | [] => ret count
  | item :: rest =>
      count' <- catch (update (shutil_move item dst) ;; ret (count + 1))
                      (fun e => print (warn (basename item) e) ;; ret count) ;;
      move_items warn rest dst count'
  end.

(** [lock_folder], lines 189-216: what happens once the checks have
    passed, with the registry as it was loaded. *)
Definition seal_and_commit (self : t) (folder : path) (lock_status : registry)
  : M bool :=
  now1 <- datetime_now ;;
  let hidden_name :=
    String.append (basename folder)
                  (String.append "_" (strftime_YmdHMS now1)) in
  let hidden := hidden_dir self ++ [hidden_name] in
  update (mkdir false hidden) ;;
  items <- try_ask (iterdir folder) ;;
  items_moved <- move_items CouldNotMove items hidden 0 ;;
  now2 <- datetime_now ;;
  let lock_status :=
    Dict.set folder
             {| hidden_path := hidden; locked_at := isoformat now2;
                items_count := items_moved |}
             lock_status in
  save_status self lock_status ;;
  print (LockedOk folder items_moved) ;;
  ret true.

Definition lock_folder (self : t) (folder : path) : M bool :=
  present <- ask (exists_ folder) ;;
  if negb present then
    print (FolderDoesNotExist folder) ;; ret false
  else
    isdir <- ask (is_dir folder) ;;
    if negb isdir then
      print (NotAFolder folder) ;; ret false
    else
      ok <- authenticate_user self ;;
      if negb ok then ret false
      else
        lock_status <- load_status self ;;
        if Dict.mem folder lock_status then
          print AlreadyLocked ;; ret false
        else
          seal_and_commit self folder lock_status.

(** [unlock_folder], lines 244-270: what happens once the checks have
    passed, with the registry as it was loaded and the recorded vault. *)
Definition restore_and_commit (self : t) (folder : path) (lock_status : registry)
           (hidden : path) : M bool :=
  update (mkdir true folder) ;;
  items <- try_ask (iterdir hidden) ;;
  items_restored <- move_items CouldNotRestore items folder 0 ;;
  catch (update (rmdir hidden)) (fun _ => ret tt) ;;
  let lock_status := Dict.del folder lock_status in
  save_status self lock_status ;;
  print (UnlockedOk folder items_restored) ;;
  ret true.

Definition unlock_folder (self : t) (folder : path) : M bool :=
  ok <- authenticate_user self ;;
  if negb ok then ret false
  else
    lock_status <- load_status self ;;
    match Dict.get folder lock_status with
    | None => print NotLocked ;; ret false
    | Some info =>
        let hidden := hidden_path info in
        present <- ask (exists_ hidden) ;;
        if negb present then
          print HiddenDataNotFound ;; ret false
        else
          restore_and_commit self folder lock_status hidden
    end.

Definition change_user_password (self : t) : M unit :=
  print UserPasswordBanner ;;
  new_pass <- ask_new_password ;;
  save_credential (user_hash_file self) new_pass ;;
  print UserPasswordChanged.

Definition change_admin_password (self : t) : M unit :=
  print AdminPasswordBanner ;;
  new_pass <- ask_new_password ;;
  save_credential (admin_hash_file self) new_pass ;;
  print AdminPasswordChanged.

Fixpoint print_rows (r : registry) : M unit :=
  match r with
  | [] => ret tt
  | (folder, info) :: r' =>
      print (StatusRow folder (locked_at info) (items_count info)) ;;
      print_rows r'
  end.

Definition show_lock_status (self : t) : M unit :=
  print StatusBanner ;;
  lock_status <- load_status self ;;
  match lock_status with
  | [] => print NoFoldersLocked
  | _ => print StatusHeader ;; print_rows lock_status
  end.

(** The inner loop of [unlock_all_folders]: no [try] around the single
    move, the first failure leaves the loop. *)
Fixpoint move_each (items : list path) (dst : path) : M unit :=
  match items with
  | [] => ret tt
  | item :: rest => update (shutil_move item dst) ;; move_each rest dst
  end.

(** What [unlock_all_folders] does with a vault that exists: the folder is
    made, every item moved back, the vault directory removed. *)
Definition restore_vault (hidden folder : path) : M unit :=
  update (mkdir true folder) ;;
  items <- try_ask (iterdir hidden) ;;
  move_each items folder ;;
  update (rmdir hidden).

(** The [try] block of [unlock_all_folders] for one entry of the copy, with
    the live dictionary and the counter as they stand. *)
Definition unlock_entry (entry : path * lock_info) (st : registry * Z)
  : M (registry * Z) :=
  let '(folder, info) := entry in
  let '(lock_status, unlocked_count) := st in
  catch
    (let hidden := hidden_path info in
     present <- ask (exists_ hidden) ;;
     (if present then restore_vault hidden folder else ret tt) ;;
     let lock_status := Dict.del folder lock_status in
     print (UnlockedOne folder) ;;
     ret (lock_status, unlocked_count + 1))
    (fun e => print (ErrorUnlocking folder e) ;; ret (lock_status, unlocked_count)).

Fixpoint unlock_entries (copy : registry) (st : registry * Z)
  : M (registry * Z) :=
  match copy with
  | [] => ret st
  | entry :: rest =>
      st' <- unlock_entry entry st ;;
      unlock_entries rest st'
  end.

(** ASCII part of [str.lower()]. *)
Definition lower (s : str) : str :=
  map (fun c => if (65 <=? c) && (c <=? 90) then c + 32 else c) s.

Definition unlock_all_folders (self : t) : M unit :=
  print EmergencyBanner ;;
  confirmation <- getpass ;;
  if negb (str_eqb (lower confirmation) (str_of_string "yes")) then
    print OperationCancelled
  else
    lock_status <- load_status self ;;
    st <- unlock_entries lock_status (lock_status, 0) ;;
    save_status self (fst st) ;;
    print (UnlockedCount (snd st)).

Inductive admin_command := ChangePass | ChangeAdmin | Status | UnlockAll.

Definition admin_mode (self : t) (admin_cmd : option admin_command) : M unit :=
  ok <- authenticate_admin self ;;
  if negb ok then ret tt
  else
    match admin_cmd with
    | Some ChangePass => change_user_password self
    | Some ChangeAdmin => change_admin_password self
    | Some Status => show_lock_status self
    | Some UnlockAll => unlock_all_folders self
    | None => print AdminHelp
    end.

Inductive command :=
| Setup
| Lock (folder : path)
| Unlock (folder : path)
| Admin (admin_cmd : option admin_command)
| NoCommand.

(** [main] under the handler at the bottom of the script: the exit status
    is 1 when an exception reaches the top. *)
Definition main (script : path) (cmd : command) : M Z :=
  catch
    (let fl := {| script_dir := script |} in
     __init__ fl ;;
     match cmd with
     | Setup => initial_setup fl ;; ret 0
     | Lock folder => lock_folder fl folder ;; ret 0
     | Unlock folder => unlock_folder fl folder ;; ret 0
     | Admin c => admin_mode fl c ;; ret 0
     | NoCommand => print Help ;; ret 0
     end)
    (fun e => print (TopLevelError e) ;; ret 1).

End FolderLock.
Import FolderLock.

(* ------------------------------------------------------------------ *)
(** ** Sample inputs *)

Module Samples.

Definition secret1 : str := str_of_string "secret1".
Definition adminpw : str := str_of_string "adminpw".

Definition epoch : datetime :=
  {| strftime_YmdHMS := "20240101_120000"; isoformat := "2024-01-01T12:00:00" |}.

(** A world with the given tree and typed lines, a zero entropy stream and
    a stopped clock, after [k] readings of the clock, the lines [o] printed
    and the writes [s] completed. *)
Definition world_at (t : node) (lines : list str) (k : nat)
           (o : list message) (s : list path) : world :=
  {| fs := t; stdin := lines; entropy := fun _ => 0; drawn := 0;
     clock := fun _ => epoch; ticks := k; out := o; saved := s |}.

(** The same before anything has happened. *)
Definition world_of (t : node) (lines : list str) : world :=
  world_at t lines 0 [] [].

(** The credential record [hash_password] builds from an encoded password
    and 32 random bytes. *)
Definition credential_of (pw raw : bytes) : stored_data :=
  {| salt := hex raw;
     hash := hex (Pbkdf2.pbkdf2_hmac_sha256 pw (hex raw) iterations) |}.

Definition zeros32 : bytes := repeat 0 32.

(** An installation at [/opt/tool] holding the credentials [admin] and
    [user], the registry [r] and the vaults [vaults]; beside it a tree
    [/tmp] with entries [tmp]. *)
Definition tool : FolderLock.t := {| script_dir := ["opt"; "tool"] |}.

Definition installed (admin user : stored_data)
           (r : registry) (vaults : entries) (tmp : entries) : node :=
  Dir [("opt", Dir [("tool", Dir [(".config", Dir [
          ("admin_hash.json", File (CredJson admin));
          ("user_hash.json", File (CredJson user));
          ("lock_status.json", File (StatusJson r));
          (".locked_data", Dir vaults)])])]);
       ("tmp", Dir tmp)].

(** The credentials [setup] stores for the passwords "adminpw" and
    "secret1" when [os.urandom] answers zeros. *)
Definition admin0 : stored_data := credential_of adminpw zeros32.
Definition user0 : stored_data := credential_of secret1 zeros32.

(** [/tmp/x] with two files. *)
Definition a_txt : name * node := ("a.txt", File (Raw [97])).
Definition b_txt : name * node := ("b.txt", File (Raw [98])).
Definition two_files : entries := [("x", Dir [a_txt; b_txt])].

(** The vault that a lock of a folder named [x] at [epoch] makes, and the
    registry entry that goes with it. *)
Definition vault_x : path :=
  ["opt"; "tool"; ".config"; ".locked_data"; "x_20240101_120000"].

Definition entry_x (folder : path) (n : Z) : path * lock_info :=
  (folder, {| hidden_path := vault_x; locked_at := "2024-01-01T12:00:00";
              items_count := n |}).

(** The same for the configuration directory of the tool itself. *)
Definition vault_config : path :=
  ["opt"; "tool"; ".config"; ".locked_data"; ".config_20240101_120000"].

Definition entry_config : path * lock_info :=
  (["opt"; "tool"; ".config"],
   {| hidden_path := vault_config; locked_at := "2024-01-01T12:00:00";
      items_count := 3 |}).

(** The sample installation once its own configuration directory has been
    locked: the three files are in the vault, the registry file is new. *)
Definition locked_config (admin user : stored_data) : node :=
  Dir [("opt", Dir [("tool", Dir [(".config", Dir [
          (".locked_data", Dir [(".config_20240101_120000", Dir [
              ("admin_hash.json", File (CredJson admin));
              ("user_hash.json", File (CredJson user));
              ("lock_status.json", File (StatusJson []))])]);
          ("lock_status.json", File (StatusJson [entry_config]))])])]);
       ("tmp", Dir [])].

(** The sample installation with its registry file deleted. *)
Definition without_registry (admin user : stored_data) (tmp : entries) : node :=
  Dir [("opt", Dir [("tool", Dir [(".config", Dir [
          ("admin_hash.json", File (CredJson admin));
          ("user_hash.json", File (CredJson user));
          (".locked_data", Dir [])])])]);
       ("tmp", Dir tmp)].

(** The sample installation with its admin credential file deleted. *)
Definition without_admin (user : stored_data)
           (r : registry) (vaults : entries) (tmp : entries) : node :=
  Dir [("opt", Dir [("tool", Dir [(".config", Dir [
          ("user_hash.json", File (CredJson user));
          ("lock_status.json", File (StatusJson r));
          (".locked_data", Dir vaults)])])]);
       ("tmp", Dir tmp)].

Definition yes : str := str_of_string "yes".

(** A credential file whose two fields are empty strings. *)
Definition no_hash : stored_data := {| salt := []; hash := [] |}.

(** Six lone surrogates: a string with no UTF-8 encoding. *)
Definition surrogates : str := repeat 0xD800 6.

End Samples.
Import Samples.

(* ------------------------------------------------------------------ *)
(** ** Vocabulary of the statements *)

(** The credential [c] accepts, or rejects, the typed password [p]. *)
Definition accepts (c : stored_data) (p : str) : Prop :=
  forall w, verify_password p c w = (Ret true, w).

Definition rejects (c : stored_data) (p : str) : Prop :=
  forall w, verify_password p c w = (Ret false, w).

(** Neither path lies on the way to the other. *)
Definition diverge (p q : path) : Prop :=
  is_prefix p q = false /\ is_prefix q p = false.

(** The vault directory that [lock_folder] makes for [folder] when the
    clock is read in the world [w]. *)
Definition vault_of (self : FolderLock.t) (folder : path) (w : world) : path :=
  hidden_dir self
  ++ [String.append (basename folder)
        (String.append "_" (strftime_YmdHMS (clock w (ticks w))))].

(** The registry as the file tree holds it. *)
Definition registry_is (self : FolderLock.t) (t : node) (r : registry) : Prop :=
  read_file (lock_status_file self) t = Ret (StatusJson r).

(** The user credential as the file tree holds it. *)
Definition user_credential_is (self : FolderLock.t) (t : node) (c : stored_data) : Prop :=
  read_file (user_hash_file self) t = Ret (CredJson c).

Definition admin_credential_is (self : FolderLock.t) (t : node) (c : stored_data) : Prop :=
  read_file (admin_hash_file self) t = Ret (CredJson c).

(** A save, step by step: the file is opened for writing, which empties
    it where it stands, and then the document is written through the
    handle.  [interrupted_after n] is the world a process stopped after
    [n] completed steps leaves behind. *)
Definition save_status_steps (self : FolderLock.t) (r : registry) : list (M unit) :=
  [update (open_w (lock_status_file self));
   json_dump (lock_status_file self) (StatusJson r)].

Definition save_credential_steps (p : path) (password : str) : list (M unit) :=
  [update (open_w p);
   (d <- hash_password password None ;; json_dump p (CredJson d))].

Fixpoint run_steps (steps : list (M unit)) : M unit :=
  match steps with
  | [] => ret tt
  | step :: rest => step ;; run_steps rest
  end.

Definition interrupted_after (n : nat) (steps : list (M unit)) (w : world) : world :=
  snd (run_steps (firstn n steps) w).

(** The directory at [p] holds the entries [es], in whatever order it
    lists them. *)
Definition holds (p : path) (t : node) (es : entries) : Prop :=
  exists l, resolve p t = Ret (Dir l) /\ Permutation l es.

(** The name of the entry [e] is free in the listing [d]. *)
Definition name_free (d : entries) (e : name * node) : bool :=
  match find_entry (fst e) d with
  | None => true
  | Some _ => false
  end.

(** The registry file, where there is one that can be read, holds a
    registry. *)
Definition registry_file_in_shape (self : FolderLock.t) (t : node) : Prop :=
  forall c, read_file (lock_status_file self) t = Ret c -> exists r, c = StatusJson r.

(** The pairs of lines the password loop turns down, with the message it
    prints for each: a pair that does not match, or a matching pair of
    fewer than six characters. *)
Inductive rejected_pairs : list str -> list message -> Prop :=
| rejected_none : rejected_pairs [] []
| rejected_mismatch (a b : str) (l : list str) (msgs : list message) :
    a <> b -> rejected_pairs l msgs ->
    rejected_pairs (a :: b :: l) (PasswordsDontMatch :: msgs)
| rejected_short (a : str) (l : list str) (msgs : list message) :
    len a < 6 -> rejected_pairs l msgs ->
    rejected_pairs (a :: a :: l) (PasswordTooShort :: msgs).

(** The answers that [unlock_all_folders] takes for a yes: the three
    letters, each in either case. *)
Definition says_yes (s : str) : Prop :=
  exists a b c : Z, s = [a; b; c] /\
    (a = 121 \/ a = 89) /\ (b = 101 \/ b = 69) /\ (c = 115 \/ c = 83).

(** Reference vectors: FIPS 180-4 ("abc"), RFC 4231 case 2, and the
    published PBKDF2-HMAC-SHA256 vector for "password" / "salt". *)
Example sha256_abc :
  hex (Sha256.sha256 (str_of_string "abc"))
  = str_of_string "ba7816bf8f01cfea414140de5dae2223b00361a396177a9cb410ff61f20015ad".
Proof. vm_compute. reflexivity. Qed.

Example sha256_empty :
  hex (Sha256.sha256 [])
  = str_of_string "e3b0c44298fc1c149afbf4c8996fb92427ae41e4649b934ca495991b7852b855".
Proof. vm_compute. reflexivity. Qed.

Example hmac_rfc4231_2 :
  hex (Hmac.hmac_sha256 (str_of_string "Jefe") (str_of_string "what do ya want for nothing?"))
  = str_of_string "5bdcc146bf60754e6a042426089575c75a003f089d2739839dec58b964ec3843".
Proof. vm_compute. reflexivity. Qed.

Example pbkdf2_password_salt_1 :
  hex (Pbkdf2.pbkdf2_hmac_sha256 (str_of_string "password") (str_of_string "salt") 1)
  = str_of_string "120fb6cffcf8b32c43e7225256c4f837a86548c92ccc35480805987cb70be17b".
Proof. vm_compute. reflexivity. Qed.

Example pbkdf2_password_salt_2 :
  hex (Pbkdf2.pbkdf2_hmac_sha256 (str_of_string "password") (str_of_string "salt") 2)
  = str_of_string "ae4d0c95af6b46d32d0adff928f06dd02a303f8ef3c251dfd6e2d85a95474c43".
Proof. vm_compute. reflexivity. Qed.

(* ------------------------------------------------------------------ *)
(** ** Facts about strings, bytes and the key derivation *)

Arguments Pbkdf2.pbkdf2_hmac_sha256 : simpl never.
Arguments Sha256.sha256 : simpl never.

Lemma str_eqb_eq (a b : str) : str_eqb a b = true <-> a = b.
Proof.
  revert b; induction a as [|x a IH]; intros [|y b]; simpl; split;
    try congruence; try reflexivity.
  - intros H. apply andb_true_iff in H as [Hx Hr].
    apply Z.eqb_eq in Hx. apply IH in Hr. congruence.
  - intros H. injection H as -> ->. rewrite Z.eqb_refl. apply IH. reflexivity.
Qed.

Lemma str_eqb_refl (a : str) : str_eqb a a = true.
Proof. apply str_eqb_eq. reflexivity. Qed.

Lemma path_eqb_eq (p q : path) : path_eqb p q = true <-> p = q.
Proof.
  revert q; induction p as [|x p IH]; intros [|y q]; simpl; split;
    try congruence; try reflexivity.
  - intros H. apply andb_true_iff in H as [Hx Hr].
    apply String.eqb_eq in Hx. apply IH in Hr. congruence.
  - intros H. injection H as -> ->. rewrite String.eqb_refl. apply IH. reflexivity.
Qed.

Lemma path_eqb_refl (p : path) : path_eqb p p = true.
Proof. apply path_eqb_eq. reflexivity. Qed.

Lemma path_eqb_neq (p q : path) : path_eqb p q = false <-> p <> q.
Proof.
  split.
  - intros H E. apply path_eqb_eq in E. congruence.
  - intros H. destruct (path_eqb p q) eqn:E; [|reflexivity].
    apply path_eqb_eq in E. contradiction.
Qed.

Lemma encode_utf8_app (a b : str) :
  encode_utf8 (a ++ b) =
  match encode_utf8 a, encode_utf8 b with
  | Some x, Some y => Some (x ++ y)
  | _, _ => None
  end.
Proof.
  induction a as [|c a IH]; simpl.
  - destruct (encode_utf8 b); reflexivity.
  - rewrite IH. destruct (encode_cp c); [|reflexivity].
    destruct (encode_utf8 a); [|reflexivity].
    destruct (encode_utf8 b); [|reflexivity].
    rewrite app_assoc. reflexivity.
Qed.

(** The two hexadecimal digits of a byte. *)
Lemma hex_digit_range (d : Z) : 0 <= d < 16 -> 48 <= hex_digit d < 128.
Proof. intros H. unfold hex_digit. destruct (d <? 10) eqn:E; lia. Qed.

Lemma hex_digit_inj (d e : Z) :
  0 <= d < 16 -> 0 <= e < 16 -> hex_digit d = hex_digit e -> d = e.
Proof.
  unfold hex_digit. intros Hd He.
  destruct (d <? 10) eqn:E1; destruct (e <? 10) eqn:E2;
    rewrite ?Z.ltb_lt, ?Z.ltb_ge in *; lia.
Qed.

Lemma high_nibble (b : Z) : byte_range b -> 0 <= Z.shiftr b 4 < 16.
Proof.
  intros H. unfold byte_range in H. rewrite Z.shiftr_div_pow2 by lia.
  change (2 ^ 4) with 16. split.
  - apply Z.div_pos; lia.
  - apply Z.div_lt_upper_bound; lia.
Qed.

Lemma low_nibble (b : Z) : 0 <= Z.land b 15 < 16.
Proof.
  change 15 with (Z.ones 4). rewrite Z.land_ones by lia.
  apply Z.mod_pos_bound. reflexivity.
Qed.

Lemma nibbles (b : Z) : b = 16 * Z.shiftr b 4 + Z.land b 15.
Proof.
  rewrite Z.shiftr_div_pow2 by lia.
  change 15 with (Z.ones 4). rewrite Z.land_ones by lia.
  change (2 ^ 4) with 16. apply Z.div_mod. lia.
Qed.

Lemma hex_length (bs : bytes) : List.length (hex bs) = (2 * List.length bs)%nat.
Proof. induction bs as [|b bs IH]; simpl; [reflexivity|]. rewrite IH. lia. Qed.

Lemma hex_inj (a b : bytes) :
  Forall byte_range a -> Forall byte_range b -> hex a = hex b -> a = b.
Proof.
  intros Ha; revert b; induction Ha as [|x a Hx Ha IH]; intros b Hb E.
  - destruct b; [reflexivity | discriminate].
  - destruct Hb as [|y b Hy Hb]; [discriminate|].
    simpl in E. injection E as E1 E2 E3.
    apply hex_digit_inj in E1; try (apply high_nibble; assumption).
    apply hex_digit_inj in E2; try apply low_nibble.
    f_equal.
    + rewrite (nibbles x), (nibbles y). congruence.
    + apply IH; assumption.
Qed.

(** Hexadecimal text is ASCII: it encodes to itself. *)
Lemma encode_utf8_hex (bs : bytes) :
  Forall byte_range bs -> encode_utf8 (hex bs) = Some (hex bs).
Proof.
  induction 1 as [|b bs Hb _ IH]; simpl; [reflexivity|].
  rewrite IH.
  assert (E : forall d, 0 <= d < 16 -> encode_cp (hex_digit d) = Some [hex_digit d]).
  { intros d Hd. apply hex_digit_range in Hd. unfold encode_cp.
    destruct (hex_digit d <? 0) eqn:E1; [apply Z.ltb_lt in E1; lia|].
    destruct (hex_digit d <? 128) eqn:E2; [reflexivity|].
    apply Z.ltb_ge in E2; lia. }
  rewrite (E _ (high_nibble b Hb)), (E _ (low_nibble b)). reflexivity.
Qed.

Lemma random_bytes_range (n : nat) (w : world) :
  Forall byte_range (random_bytes n w).
Proof.
  unfold random_bytes. apply Forall_forall. intros b Hb.
  apply in_map_iff in Hb as (i & <- & _).
  apply Z.mod_pos_bound. reflexivity.
Qed.

Lemma random_bytes_length (n : nat) (w : world) :
  List.length (random_bytes n w) = n.
Proof. unfold random_bytes. rewrite length_map, length_seq. reflexivity. Qed.

(** HMAC pads a short key with zero bytes, so a key and the same key
    followed by a zero byte give one key block. *)
Lemma key_block_zero_suffix (k : bytes) :
  (List.length k < 64)%nat -> Hmac.key_block (k ++ [0]) = Hmac.key_block k.
Proof.
  intros H. unfold Hmac.key_block, Hmac.block_size.
  rewrite length_app. simpl List.length.
  destruct (Nat.ltb_spec 64 (List.length k + 1)); [lia|].
  destruct (Nat.ltb_spec 64 (List.length k)); [lia|].
  rewrite length_app. simpl List.length.
  replace (64 - List.length k)%nat with (S (64 - (List.length k + 1))) by lia.
  simpl. rewrite <- app_assoc. reflexivity.
Qed.

Lemma pbkdf2_key_block (k1 k2 salt : bytes) (c : N) :
  Hmac.key_block k1 = Hmac.key_block k2 ->
  Pbkdf2.pbkdf2_hmac_sha256 k1 salt c = Pbkdf2.pbkdf2_hmac_sha256 k2 salt c.
Proof. intros H. unfold Pbkdf2.pbkdf2_hmac_sha256. rewrite H. reflexivity. Qed.

(** The derived key is a string of bytes. *)
Lemma sha256_range (m : bytes) : Forall byte_range (Sha256.sha256 m).
Proof.
  unfold Sha256.sha256. apply Forall_forall. intros b Hb.
  apply in_flat_map in Hb as (x & _ & Hb).
  assert (R : forall y, byte_range (Z.land y 255)).
  { intros y. unfold byte_range. change 255 with (Z.ones 8).
    rewrite Z.land_ones by lia. apply Z.mod_pos_bound. reflexivity. }
  unfold Sha256.bytes_of_word in Hb. cbn [In] in Hb.
  destruct Hb as [<-|[<-|[<-|[<-|[]]]]]; apply R.
Qed.

Lemma lxor_byte (a b : Z) : byte_range a -> byte_range b -> byte_range (Z.lxor a b).
Proof.
  unfold byte_range. intros Ha Hb.
  assert (E : Z.lxor a b = Z.land (Z.lxor a b) (Z.ones 8)).
  { apply Z.bits_inj'. intros n Hn.
    rewrite Z.land_spec, Z.lxor_spec.
    destruct (Z.ltb_spec n 8).
    - rewrite Z.ones_spec_low by lia. rewrite andb_true_r. reflexivity.
    - rewrite Z.ones_spec_high by lia. rewrite andb_false_r.
      assert (T : forall x, 0 <= x < 256 -> Z.testbit x n = false).
      { intros x Hx. destruct (Z.eq_dec x 0) as [->|Hz]; [apply Z.bits_0|].
        apply Z.bits_above_log2; [lia|].
        assert (Z.log2 x < 8) by (apply Z.log2_lt_pow2; lia). lia. }
      rewrite (T a Ha), (T b Hb). reflexivity. }
  rewrite E. rewrite Z.land_ones by lia. apply Z.mod_pos_bound. reflexivity.
Qed.

Lemma xor_bytes_range (a b : bytes) :
  Forall byte_range a -> Forall byte_range b -> Forall byte_range (xor_bytes a b).
Proof.
  intros Ha; revert b; induction Ha as [|x a Hx Ha IH]; intros b Hb.
  - constructor.
  - destruct Hb as [|y b Hy Hb]; [constructor|].
    unfold xor_bytes. simpl. constructor.
    + apply lxor_byte; assumption.
    + apply IH. assumption.
Qed.

Lemma pbkdf2_range (pw salt : bytes) (c : N) :
  Forall byte_range (Pbkdf2.pbkdf2_hmac_sha256 pw salt c).
Proof.
  unfold Pbkdf2.pbkdf2_hmac_sha256, Pbkdf2.pbkdf2.
  set (prf := Hmac.hmac_with_block (Hmac.key_block pw)).
  assert (P : forall m, Forall byte_range (prf m))
    by (intros m; apply sha256_range).
  apply (N.iter_invariant (c - 1) _ (Pbkdf2.iterate prf)
           (fun ut => Forall byte_range (snd ut))).
  - intros [u t] Ht. simpl in *. apply xor_bytes_range; [assumption | apply P].
  - apply P.
Qed.

(** The digest has 32 bytes, and so has the derived key. *)
Lemma round_length (st : list Z) (kw : Z * Z) :
  List.length (Sha256.round st kw) = List.length st.
Proof.
  unfold Sha256.round.
  destruct st as [|a [|b [|c [|d [|e [|f [|g [|h [|i st]]]]]]]]]; reflexivity.
Qed.

Lemma fold_round_length (kws : list (Z * Z)) (st : list Z) :
  List.length (fold_left Sha256.round kws st) = List.length st.
Proof.
  revert st; induction kws as [|kw kws IH]; intros st; [reflexivity|].
  cbn [fold_left]. rewrite IH. apply round_length.
Qed.

Lemma compress_length (h : list Z) (block : bytes) :
  List.length (Sha256.compress h block) = List.length h.
Proof.
  unfold Sha256.compress. rewrite length_map, length_combine, fold_round_length.
  apply Nat.min_id.
Qed.

Lemma fold_compress_length (bl : list bytes) (h : list Z) :
  List.length (fold_left Sha256.compress bl h) = List.length h.
Proof.
  revert h; induction bl as [|b bl IH]; intros h; [reflexivity|].
  cbn [fold_left]. rewrite IH. apply compress_length.
Qed.

Lemma flat_map_bytes_of_word_length (ws : list Z) :
  List.length (flat_map Sha256.bytes_of_word ws) = (4 * List.length ws)%nat.
Proof.
  induction ws as [|x ws IH]; [reflexivity|].
  cbn [flat_map]. rewrite length_app, IH. cbn [Sha256.bytes_of_word List.length]. lia.
Qed.

Lemma sha256_length (m : bytes) : List.length (Sha256.sha256 m) = 32%nat.
Proof.
  unfold Sha256.sha256.
  rewrite flat_map_bytes_of_word_length, fold_compress_length. reflexivity.
Qed.

Lemma xor_bytes_length (a b : bytes) :
  List.length (xor_bytes a b) = Nat.min (List.length a) (List.length b).
Proof. unfold xor_bytes. rewrite length_map, length_combine. reflexivity. Qed.

Lemma pbkdf2_length (pw salt : bytes) (c : N) :
  List.length (Pbkdf2.pbkdf2_hmac_sha256 pw salt c) = 32%nat.
Proof.
  unfold Pbkdf2.pbkdf2_hmac_sha256, Pbkdf2.pbkdf2.
  set (prf := Hmac.hmac_with_block (Hmac.key_block pw)).
  assert (P : forall m, List.length (prf m) = 32%nat)
    by (intros m; apply sha256_length).
  apply (N.iter_invariant (c - 1) _ (Pbkdf2.iterate prf)
           (fun ut => List.length (snd ut) = 32%nat)).
  - intros [u t] Ht. cbn [Pbkdf2.iterate fst snd] in *.
    rewrite xor_bytes_length, Ht, P. reflexivity.
  - apply P.
Qed.

(** From here on the derived key is handled through the lemmas above only:
    a hundred thousand rounds are not to be unfolded by a tactic. *)
Opaque Pbkdf2.pbkdf2_hmac_sha256.

(** Inversion of results, stated once so that no proof has to take apart a
    term that mentions the derived key. *)
Lemma Ret_inj {A} (a b : A) : Ret a = Ret b -> a = b.
Proof. intros H. injection H as H. exact H. Qed.

Lemma Ret_inj_raise {A} (e e' : exn) : @Raise A e = Raise e' -> e' = e.
Proof. intros H. injection H as H. symmetry. exact H. Qed.

Lemma run_inj {A} (r r' : res A) (w w' : world) :
  (r, w) = (r', w') -> r = r' /\ w = w'.
Proof. intros H. injection H as H1 H2. split; assumption. Qed.

Lemma run_Ret_inj {A} (a b : A) (w w' : world) :
  (Ret a, w) = (Ret b, w') -> a = b /\ w = w'.
Proof. intros H. apply run_inj in H as [H1 H2]. apply Ret_inj in H1. split; assumption. Qed.

(** *** [hash_password] and [verify_password] *)

Lemma hash_password_salted (password s : str) (pw sb : bytes) (w : world) :
  encode_utf8 password = Some pw ->
  encode_utf8 s = Some sb ->
  hash_password password (Some s) w
  = (Ret {| salt := s; hash := hex (Pbkdf2.pbkdf2_hmac_sha256 pw sb iterations) |}, w).
Proof.
  intros H1 H2. unfold hash_password, bind, ret, encode.
  rewrite H1, H2. reflexivity.
Qed.

Lemma hash_password_unencodable (password : str) (s : str) (w : world) :
  encode_utf8 password = None ->
  hash_password password (Some s) w = (Raise UnicodeEncodeError, w).
Proof.
  intros H1. unfold hash_password, bind, ret, encode, raise.
  rewrite H1. reflexivity.
Qed.

Lemma hash_password_fresh (password : str) (pw : bytes) (w : world) :
  encode_utf8 password = Some pw ->
  hash_password password None w
  = (Ret {| salt := hex (random_bytes 32 w);
            hash := hex (Pbkdf2.pbkdf2_hmac_sha256 pw (hex (random_bytes 32 w)) iterations) |},
     with_drawn (drawn w + 32)%nat w).
Proof.
  intros H1. unfold hash_password, generate_salt, os_urandom, bind, ret, encode.
  rewrite H1.
  rewrite (encode_utf8_hex _ (random_bytes_range 32 w)). reflexivity.
Qed.

Lemma hash_password_fresh_inv (password : str) (w w' : world) (stored : stored_data) :
  hash_password password None w = (Ret stored, w') ->
  exists pw,
    encode_utf8 password = Some pw /\
    stored = {| salt := hex (random_bytes 32 w);
                hash := hex (Pbkdf2.pbkdf2_hmac_sha256 pw (hex (random_bytes 32 w)) iterations) |} /\
    w' = with_drawn (drawn w + 32)%nat w.
Proof.
  intros H. destruct (encode_utf8 password) as [pw|] eqn:E.
  - rewrite (hash_password_fresh _ _ _ E) in H.
    apply run_Ret_inj in H as [H1 H2].
    exists pw. split; [reflexivity|]. split; symmetry; assumption.
  - unfold hash_password, generate_salt, os_urandom, bind, ret, encode, raise in H.
    rewrite E in H. discriminate.
Qed.

Lemma verify_password_run (password : str) (stored : stored_data) (pw sb : bytes) (w : world) :
  encode_utf8 password = Some pw ->
  encode_utf8 (salt stored) = Some sb ->
  verify_password password stored w
  = (Ret (str_eqb (hex (Pbkdf2.pbkdf2_hmac_sha256 pw sb iterations)) (hash stored)), w).
Proof.
  intros H1 H2. unfold verify_password, bind.
  rewrite (hash_password_salted _ _ _ _ _ H1 H2). reflexivity.
Qed.

(** Verification reads the world and leaves it as it is. *)
Lemma verify_password_snd (password : str) (stored : stored_data) (w : world) :
  snd (verify_password password stored w) = w.
Proof.
  unfold verify_password, hash_password, bind, ret, encode, raise.
  destruct (encode_utf8 password); [|reflexivity].
  destruct (encode_utf8 (salt stored)); reflexivity.
Qed.

Lemma verify_password_world (password : str) (stored : stored_data) (w w' : world) (r : res bool) :
  verify_password password stored w = (r, w') -> w' = w.
Proof.
  intros H. pose proof (verify_password_snd password stored w) as E.
  rewrite H in E. exact E.
Qed.

(** A string whose encoding has the HMAC key block of the password's
    verifies against the password's credential. *)
Lemma verify_password_same_key_block
      (p : str) (pb kb : bytes) (s : str) (sb : bytes) (w : world) :
  encode_utf8 p = Some pb ->
  encode_utf8 s = Some sb ->
  Hmac.key_block pb = Hmac.key_block kb ->
  verify_password p
    {| salt := s; hash := hex (Pbkdf2.pbkdf2_hmac_sha256 kb sb iterations) |} w
  = (Ret true, w).
Proof.
  intros Hp Hs Hk.
  rewrite (verify_password_run p
             {| salt := s; hash := hex (Pbkdf2.pbkdf2_hmac_sha256 kb sb iterations) |}
             pb sb w Hp Hs).
  cbn [hash].
  rewrite (pbkdf2_key_block pb kb sb iterations Hk), str_eqb_refl. reflexivity.
Qed.

(** In particular the password followed by a NUL character, as long as the
    password's encoding is shorter than an HMAC block. *)
Lemma verify_password_nul_suffix
      (pw : str) (kb : bytes) (w0 w1 : world) (stored : stored_data) (w : world) :
  hash_password pw None w0 = (Ret stored, w1) ->
  encode_utf8 pw = Some kb ->
  (List.length kb < 64)%nat ->
  verify_password (pw ++ [0]) stored w = (Ret true, w).
Proof.
  intros H Hkb Hlen.
  apply hash_password_fresh_inv in H as (kb' & Hkb' & -> & _).
  assert (kb' = kb) by congruence. subst kb'.
  apply (verify_password_same_key_block (pw ++ [0]) (kb ++ [0]) kb).
  - rewrite encode_utf8_app, Hkb. reflexivity.
  - apply encode_utf8_hex, random_bytes_range.
  - apply key_block_zero_suffix. exact Hlen.
Qed.

(* ------------------------------------------------------------------ *)
(** ** Facts about paths and the file tree *)

Section PathFacts.

Lemma is_prefix_spec (p q : path) :
  is_prefix p q = true <-> exists r, q = p ++ r.
Proof.
  revert q; induction p as [|x p IH]; intros q; simpl.
  - split; [intros _; exists q; reflexivity | reflexivity].
  - destruct q as [|y q].
    + split; [discriminate | intros [r Hr]; discriminate].
    + rewrite andb_true_iff, String.eqb_eq, IH. split.
      * intros [-> [r ->]]. exists r. reflexivity.
      * intros [r Hr]. injection Hr as -> ->. split; [reflexivity | exists r; reflexivity].
Qed.

Lemma is_prefix_app (p r : path) : is_prefix p (p ++ r) = true.
Proof. apply is_prefix_spec. exists r. reflexivity. Qed.

Lemma is_prefix_refl (p : path) : is_prefix p p = true.
Proof. apply is_prefix_spec. exists []. rewrite app_nil_r. reflexivity. Qed.

Lemma is_prefix_trans (p q r : path) :
  is_prefix p q = true -> is_prefix q r = true -> is_prefix p r = true.
Proof.
  rewrite !is_prefix_spec. intros [a ->] [b ->].
  exists (a ++ b). rewrite app_assoc. reflexivity.
Qed.

(** A path that is no prefix of [q] has no extension that is one. *)
Lemma is_prefix_child_false (p q : path) (x : name) :
  is_prefix p q = false -> is_prefix (p ++ [x]) q = false.
Proof.
  intros H. destruct (is_prefix (p ++ [x]) q) eqn:E; [|reflexivity].
  rewrite (is_prefix_trans p (p ++ [x]) q (is_prefix_app p [x]) E) in H.
  discriminate.
Qed.

Lemma split_last_app (p : path) (x : name) : split_last (p ++ [x]) = Some (p, x).
Proof.
  induction p as [|y p IH]; simpl; [reflexivity|].
  rewrite IH. destruct (p ++ [x]) eqn:E; [|reflexivity].
  destruct p; discriminate.
Qed.

Lemma split_last_Some (p q : path) (x : name) :
  split_last p = Some (q, x) -> p = q ++ [x].
Proof.
  revert q; induction p as [|y p IH]; intros q H; simpl in H; [discriminate|].
  destruct p as [|z p].
  - injection H as <- <-. reflexivity.
  - destruct (split_last (z :: p)) as [[q' x']|] eqn:E; [|discriminate].
    injection H as <- <-. rewrite (IH q' eq_refl). reflexivity.
Qed.

Lemma split_last_None (p : path) : split_last p = None -> p = [].
Proof.
  induction p as [|y p IH]; [reflexivity|]. simpl.
  destruct p as [|z p]; [discriminate|].
  destruct (split_last (z :: p)) as [[q x]|]; [discriminate|].
  intros _. discriminate (IH eq_refl).
Qed.

Lemma basename_app (p : path) (x : name) : basename (p ++ [x]) = x.
Proof. unfold basename. rewrite split_last_app. reflexivity. Qed.

End PathFacts.

Section TreeFacts.

Lemma find_entry_put_entry (x y : name) (n : node) (es : entries) :
  find_entry y (put_entry x n es)
  = if String.eqb y x then Some n else find_entry y es.
Proof.
  induction es as [|[z m] es IH]; simpl.
  - destruct (String.eqb y x); reflexivity.
  - destruct (String.eqb x z) eqn:Exz; simpl.
    + apply String.eqb_eq in Exz. subst z.
      destruct (String.eqb y x); reflexivity.
    + rewrite IH. destruct (String.eqb y z) eqn:Eyz; [|reflexivity].
      apply String.eqb_eq in Eyz. subst z.
      rewrite String.eqb_sym, Exz. reflexivity.
Qed.

Lemma find_entry_remove_entry (x y : name) (es : entries) :
  find_entry y (remove_entry x es)
  = if String.eqb y x then None else find_entry y es.
Proof.
  unfold remove_entry.
  induction es as [|[z m] es IH]; simpl.
  - destruct (String.eqb y x); reflexivity.
  - destruct (String.eqb x z) eqn:Exz; simpl.
    + rewrite IH. apply String.eqb_eq in Exz. subst z.
      destruct (String.eqb y x); reflexivity.
    + rewrite IH. destruct (String.eqb y z) eqn:Eyz; [|reflexivity].
      apply String.eqb_eq in Eyz. subst z.
      rewrite String.eqb_sym, Exz. reflexivity.
Qed.

Lemma find_entry_map_entry (x y : name) (g : node -> node) (es : entries) :
  find_entry y (map_entry x g es)
  = if String.eqb y x then option_map g (find_entry x es) else find_entry y es.
Proof.
  induction es as [|[z m] es IH]; simpl.
  - destruct (String.eqb y x); reflexivity.
  - destruct (String.eqb x z) eqn:Exz; simpl.
    + apply String.eqb_eq in Exz. subst z.
      destruct (String.eqb y x); reflexivity.
    + rewrite IH. destruct (String.eqb y z) eqn:Eyz; [|reflexivity].
      apply String.eqb_eq in Eyz. subst z.
      rewrite String.eqb_sym, Exz. reflexivity.
Qed.

Lemma resolve_app (p q : path) (t : node) :
  resolve (p ++ q) t
  = match resolve p t with
    | Ret n => resolve q n
    | Raise e => Raise e
    end.
Proof.
  revert t; induction p as [|x p IH]; intros t; simpl; [reflexivity|].
  destruct t as [c|es]; [reflexivity|].
  destruct (find_entry x es); [apply IH | reflexivity].
Qed.

(** What lies at the child [x] of the directory at [p]. *)
Lemma resolve_child (p : path) (x : name) (t : node) (es : entries) :
  resolve p t = Ret (Dir es) ->
  resolve (p ++ [x]) t
  = match find_entry x es with
    | Some n => Ret n
    | None => Raise FileNotFoundError
    end.
Proof.
  intros H. rewrite resolve_app, H. simpl.
  destruct (find_entry x es); reflexivity.
Qed.

Lemma resolve_prefix (p r : path) (t : node) (n : node) :
  resolve (p ++ r) t = Ret n -> exists m, resolve p t = Ret m.
Proof.
  rewrite resolve_app. destruct (resolve p t) as [m|e]; [|discriminate].
  intros _. exists m. reflexivity.
Qed.

Lemma resolve_modify_dir_same (p : path) (f : entries -> entries) (t : node) (es : entries) :
  resolve p t = Ret (Dir es) ->
  resolve p (modify_dir p f t) = Ret (Dir (f es)).
Proof.
  revert t; induction p as [|x p IH]; intros t H; simpl in *.
  - apply Ret_inj in H. subst t. reflexivity.
  - destruct t as [c|es0]; [discriminate|]. simpl.
    rewrite find_entry_map_entry, String.eqb_refl.
    destruct (find_entry x es0) as [n|]; [|discriminate].
    simpl. apply IH. exact H.
Qed.

(** The tree is unchanged where there is no directory to modify. *)
Lemma modify_dir_missing (p : path) (f : entries -> entries) (t : node) :
  is_dir p t = false -> modify_dir p f t = t.
Proof.
  unfold is_dir. revert t; induction p as [|x p IH]; intros t H; simpl in *.
  - destruct t; [reflexivity | discriminate].
  - destruct t as [c|es]; [reflexivity|]. f_equal.
    induction es as [|[y n] es IHes]; simpl in *; [reflexivity|].
    rewrite String.eqb_sym in H.
    destruct (String.eqb x y) eqn:E.
    + rewrite String.eqb_sym, E in H. rewrite (IH n H). reflexivity.
    + rewrite String.eqb_sym, E in H. rewrite (IHes H). reflexivity.
Qed.

(** A file stays where it is unless the modified directory holds it, or an
    ancestor of it, under a name that [f] touches. *)
Lemma resolve_modify_dir_file (p q : path) (f : entries -> entries) (t : node) (c : content) :
  resolve q t = Ret (File c) ->
  (forall es y q', q = p ++ y :: q' -> resolve p t = Ret (Dir es) ->
                   find_entry y (f es) = find_entry y es) ->
  resolve q (modify_dir p f t) = Ret (File c).
Proof.
  revert q t; induction p as [|x p IH]; intros q t Hq Hf; simpl.
  - destruct t as [c'|es]; [exact Hq|].
    destruct q as [|y q']; [discriminate|]. simpl in *.
    rewrite (Hf es y q' eq_refl eq_refl). exact Hq.
  - destruct t as [c'|es]; [exact Hq|].
    destruct q as [|y q']; [discriminate|]. simpl in *.
    rewrite find_entry_map_entry.
    destruct (String.eqb y x) eqn:E.
    + apply String.eqb_eq in E. subst y.
      destruct (find_entry x es) as [n|] eqn:En; [|discriminate]. simpl.
      apply IH; [exact Hq|].
      intros es' y q'' -> Hp. apply (Hf es' y q''); [reflexivity|].
      exact Hp.
    + exact Hq.
Qed.

(** A directory stays one under the same condition. *)
Lemma is_dir_modify_dir (p d : path) (f : entries -> entries) (t : node) :
  is_dir d t = true ->
  (forall es y d', d = p ++ y :: d' -> resolve p t = Ret (Dir es) ->
                   find_entry y (f es) = find_entry y es) ->
  is_dir d (modify_dir p f t) = true.
Proof.
  unfold is_dir.
  revert d t; induction p as [|x p IH]; intros d t Hd Hf; simpl.
  - destruct t as [c'|es]; [exact Hd|].
    destruct d as [|y d']; [reflexivity|]. simpl in *.
    rewrite (Hf es y d' eq_refl eq_refl). exact Hd.
  - destruct t as [c'|es]; [exact Hd|].
    destruct d as [|y d']; [reflexivity|]. simpl in *.
    rewrite find_entry_map_entry.
    destruct (String.eqb y x) eqn:E.
    + apply String.eqb_eq in E. subst y.
      destruct (find_entry x es) as [n|] eqn:En; [|discriminate]. simpl.
      apply IH; [exact Hd|].
      intros es' y d'' -> Hp. apply (Hf es' y d''); [reflexivity|].
      exact Hp.
    + exact Hd.
Qed.

End TreeFacts.

(* ------------------------------------------------------------------ *)
(** ** Credential hashing and verification *)

(** C2, as the code has it.  For the credential stored for a password
    [pw]: [pw] itself verifies; a string with a UTF-8 encoding verifies
    exactly when PBKDF2-HMAC-SHA256 derives the same key from it as from
    [pw] under the stored salt, which is the case whenever the two have the
    same HMAC key block; a string without an encoding makes the call raise
    [UnicodeEncodeError].  The world is left as it was in every case. *)
Theorem verify_password_characterised :
  forall (pw : str) (w0 w1 : world) (stored : stored_data),
    hash_password pw None w0 = (Ret stored, w1) ->
    exists kb sb,
      encode_utf8 pw = Some kb /\
      encode_utf8 (salt stored) = Some sb /\
      forall w : world,
        verify_password pw stored w = (Ret true, w) /\
        (forall p pb, encode_utf8 p = Some pb ->
           exists b, verify_password p stored w = (Ret b, w) /\
                     (b = true <->
                      Pbkdf2.pbkdf2_hmac_sha256 pb sb iterations
                      = Pbkdf2.pbkdf2_hmac_sha256 kb sb iterations)) /\
        (forall p pb, encode_utf8 p = Some pb ->
           Hmac.key_block pb = Hmac.key_block kb ->
           verify_password p stored w = (Ret true, w)) /\
        (forall p, encode_utf8 p = None ->
           verify_password p stored w = (Raise UnicodeEncodeError, w)).
Proof.
  intros pw w0 w1 stored H.
  apply hash_password_fresh_inv in H as (kb & Hkb & -> & _).
  set (sb := hex (random_bytes 32 w0)).
  assert (Hsb : encode_utf8 sb = Some sb)
    by (apply encode_utf8_hex, random_bytes_range).
  exists kb, sb. split; [assumption|]. split; [assumption|].
  intros w.
  assert (Run : forall p pb, encode_utf8 p = Some pb ->
            verify_password p
              {| salt := sb; hash := hex (Pbkdf2.pbkdf2_hmac_sha256 kb sb iterations) |} w
            = (Ret (str_eqb (hex (Pbkdf2.pbkdf2_hmac_sha256 pb sb iterations))
                            (hex (Pbkdf2.pbkdf2_hmac_sha256 kb sb iterations))), w)).
  { intros p pb Hp. apply verify_password_run; assumption. }
  repeat split.
  - rewrite (Run _ _ Hkb), str_eqb_refl. reflexivity.
  - intros p pb Hp. eexists. split; [apply (Run _ _ Hp)|].
    rewrite str_eqb_eq. split.
    + apply hex_inj; apply pbkdf2_range.
    + intros ->. reflexivity.
  - intros p pb Hp Hk. rewrite (Run _ _ Hp).
    rewrite (pbkdf2_key_block pb kb sb iterations Hk), str_eqb_refl. reflexivity.
  - intros p Hp. unfold verify_password, bind.
    rewrite (hash_password_unencodable _ _ _ Hp). reflexivity.
Qed.

Lemma verify_password_characterised_witness :
  exists kb sb,
    encode_utf8 secret1 = Some kb /\
    encode_utf8 (hex (random_bytes 32 (world_of (Dir []) []))) = Some sb /\
    verify_password secret1
      {| salt := hex (random_bytes 32 (world_of (Dir []) []));
         hash := hex (Pbkdf2.pbkdf2_hmac_sha256 kb sb iterations) |}
      (world_of (Dir []) [])
    = (Ret true, world_of (Dir []) []).
Proof.
  destruct (verify_password_characterised secret1 (world_of (Dir []) []) _ _
              (hash_password_fresh secret1 _ (world_of (Dir []) []) eq_refl))
    as (kb & sb & Hk & Hs & Hv).
  exists kb, sb. split; [exact Hk|]. split; [exact Hs|].
  destruct (Hv (world_of (Dir []) [])) as [Hself _].
  cbn [salt] in Hs. injection Hk as <-.
  rewrite (encode_utf8_hex _ (random_bytes_range 32 _)) in Hs. injection Hs as <-.
  exact Hself.
Defined.

(** C2 as stated fails: with the password "secret1", the seven characters
    followed by a NUL character verify as well. *)
Lemma verify_password_accepts_nul_suffix :
  exists stored w1,
    hash_password secret1 None (world_of (Dir []) []) = (Ret stored, w1) /\
    verify_password (secret1 ++ [0]) stored w1 = (Ret true, w1) /\
    secret1 ++ [0] <> secret1.
Proof.
  eexists. eexists.
  split; [exact (hash_password_fresh secret1 secret1 (world_of (Dir []) []) eq_refl)|].
  split; [|discriminate].
  eapply verify_password_nul_suffix.
  - exact (hash_password_fresh secret1 secret1 (world_of (Dir []) []) eq_refl).
  - reflexivity.
  - simpl. lia.
Qed.

(* ------------------------------------------------------------------ *)
(** ** Facts about the primitives of a run *)

Section RunFacts.

Lemma bind_Ret {A B} (m : M A) (k : A -> M B) (w w' : world) (a : A) :
  m w = (Ret a, w') -> bind m k w = k a w'.
Proof. intros H. unfold bind. rewrite H. reflexivity. Qed.

Lemma bind_Raise {A B} (m : M A) (k : A -> M B) (w w' : world) (e : exn) :
  m w = (Raise e, w') -> bind m k w = (Raise e, w').
Proof. intros H. unfold bind. rewrite H. reflexivity. Qed.

Lemma resolve_insert_file (p q : path) (n : node) (t : node) (c : content) :
  resolve q t = Ret (File c) ->
  is_prefix p q = false ->
  resolve q (insert p n t) = Ret (File c).
Proof.
  intros Hq Hp. unfold insert.
  destruct (split_last p) as [[parent x]|] eqn:E.
  - apply split_last_Some in E. subst p.
    apply resolve_modify_dir_file; [exact Hq|].
    intros es y q' -> _. rewrite find_entry_put_entry.
    destruct (String.eqb y x) eqn:Eyx; [|reflexivity].
    apply String.eqb_eq in Eyx. subst y.
    replace (parent ++ x :: q') with ((parent ++ [x]) ++ q') in Hp
      by (rewrite <- app_assoc; reflexivity).
    rewrite is_prefix_app in Hp. discriminate.
  - apply split_last_None in E. subst p. discriminate.
Qed.

Lemma resolve_remove_file (p q : path) (t : node) (c : content) :
  resolve q t = Ret (File c) ->
  is_prefix p q = false ->
  resolve q (remove p t) = Ret (File c).
Proof.
  intros Hq Hp. unfold remove.
  destruct (split_last p) as [[parent x]|] eqn:E; [|exact Hq].
  apply split_last_Some in E. subst p.
  apply resolve_modify_dir_file; [exact Hq|].
  intros es y q' -> _. rewrite find_entry_remove_entry.
  destruct (String.eqb y x) eqn:Eyx; [|reflexivity].
  apply String.eqb_eq in Eyx. subst y.
  replace (parent ++ x :: q') with ((parent ++ [x]) ++ q') in Hp
    by (rewrite <- app_assoc; reflexivity).
  rewrite is_prefix_app in Hp. discriminate.
Qed.

Lemma is_dir_insert (p d : path) (n : node) (t : node) :
  is_dir d t = true ->
  is_prefix p d = false ->
  is_dir d (insert p n t) = true.
Proof.
  intros Hd Hp. unfold insert.
  destruct (split_last p) as [[parent x]|] eqn:E.
  - apply split_last_Some in E. subst p.
    apply is_dir_modify_dir; [exact Hd|].
    intros es y d' -> _. rewrite find_entry_put_entry.
    destruct (String.eqb y x) eqn:Eyx; [|reflexivity].
    apply String.eqb_eq in Eyx. subst y.
    replace (parent ++ x :: d') with ((parent ++ [x]) ++ d') in Hp
      by (rewrite <- app_assoc; reflexivity).
    rewrite is_prefix_app in Hp. discriminate.
  - apply split_last_None in E. subst p. discriminate.
Qed.

Lemma is_dir_remove (p d : path) (t : node) :
  is_dir d t = true ->
  is_prefix p d = false ->
  is_dir d (remove p t) = true.
Proof.
  intros Hd Hp. unfold remove.
  destruct (split_last p) as [[parent x]|] eqn:E; [|exact Hd].
  apply split_last_Some in E. subst p.
  apply is_dir_modify_dir; [exact Hd|].
  intros es y d' -> _. rewrite find_entry_remove_entry.
  destruct (String.eqb y x) eqn:Eyx; [|reflexivity].
  apply String.eqb_eq in Eyx. subst y.
  replace (parent ++ x :: d') with ((parent ++ [x]) ++ d') in Hp
    by (rewrite <- app_assoc; reflexivity).
  rewrite is_prefix_app in Hp. discriminate.
Qed.

(** What was put below a directory is found there. *)
Lemma resolve_insert_same (parent : path) (x : name) (n : node) (t : node) :
  is_dir parent t = true ->
  resolve (parent ++ [x]) (insert (parent ++ [x]) n t) = Ret n.
Proof.
  unfold is_dir, insert. intros H. rewrite split_last_app.
  destruct (resolve parent t) as [[c|es]|e] eqn:E; try discriminate.
  rewrite (resolve_child parent x _ (put_entry x n es)).
  - rewrite find_entry_put_entry, String.eqb_refl. reflexivity.
  - apply resolve_modify_dir_same. exact E.
Qed.

End RunFacts.

(* ------------------------------------------------------------------ *)
(** ** Authentication *)

Section Authentication.

Variable self : FolderLock.t.

Lemma read_file_exists (p : path) (t : node) (c : content) :
  read_file p t = Ret c -> exists_ p t = true.
Proof.
  unfold read_file, exists_. destruct (resolve p t) as [[c'|es]|e]; try discriminate.
  reflexivity.
Qed.

Lemma load_credential_run (p : path) (w : world) (c : stored_data) :
  read_file p (fs w) = Ret (CredJson c) -> load_credential p w = (Ret (Some c), w).
Proof.
  intros H. unfold load_credential, bind, try_ask. rewrite H. reflexivity.
Qed.

Lemma load_status_run (w : world) (r : registry) :
  registry_is self (fs w) r -> load_status self w = (Ret r, w).
Proof.
  intros H. unfold load_status, bind, try_ask. rewrite H. reflexivity.
Qed.

(** Loading the registry never changes the world. *)
Lemma load_status_world (w w' : world) (r : res registry) :
  load_status self w = (r, w') -> w' = w.
Proof.
  unfold load_status, bind, try_ask, ret, raise.
  destruct (read_file (lock_status_file self) (fs w)) as [[c|reg|d]|e];
    intros H; apply run_inj in H as [_ H]; symmetry; exact H.
Qed.

Lemma load_status_inv (w w' : world) (r : registry) :
  load_status self w = (Ret r, w') -> registry_is self (fs w) r /\ w' = w.
Proof.
  intros H. split; [|exact (load_status_world _ _ _ H)].
  unfold registry_is. revert H.
  unfold load_status, bind, try_ask, ret, raise.
  destruct (read_file (lock_status_file self) (fs w)) as [[c|reg|d]|e];
    intros H; apply run_inj in H as [H _]; try discriminate.
  apply Ret_inj in H. subst. reflexivity.
Qed.

Lemma authenticate_user_accepts (w : world) (c : stored_data) (p : str) (rest : list str) :
  user_credential_is self (fs w) c ->
  stdin w = p :: rest ->
  accepts c p ->
  authenticate_user self w = (Ret true, with_stdin rest w).
Proof.
  intros Hc Hin Hv. unfold authenticate_user.
  unfold bind at 1. unfold ask at 1.
  rewrite (read_file_exists _ _ _ Hc). cbn [negb].
  rewrite (bind_Ret _ _ _ _ _ (load_credential_run _ _ _ Hc)).
  unfold bind at 1. unfold getpass at 1. rewrite Hin. cbv beta iota.
  rewrite (bind_Ret _ _ _ _ _ (Hv (with_stdin rest w))). reflexivity.
Qed.

Lemma authenticate_user_rejects (w : world) (c : stored_data) (p : str) (rest : list str) :
  user_credential_is self (fs w) c ->
  stdin w = p :: rest ->
  rejects c p ->
  authenticate_user self w
  = (Ret false, with_out (out w ++ [AuthenticationFailed]) (with_stdin rest w)).
Proof.
  intros Hc Hin Hv. unfold authenticate_user.
  unfold bind at 1. unfold ask at 1.
  rewrite (read_file_exists _ _ _ Hc). cbn [negb].
  rewrite (bind_Ret _ _ _ _ _ (load_credential_run _ _ _ Hc)).
  unfold bind at 1. unfold getpass at 1. rewrite Hin. cbv beta iota.
  rewrite (bind_Ret _ _ _ _ _ (Hv (with_stdin rest w))). reflexivity.
Qed.

Lemma authenticate_user_not_configured (w : world) :
  exists_ (user_hash_file self) (fs w) = false ->
  authenticate_user self w = (Ret false, with_out (out w ++ [NotConfigured]) w).
Proof.
  intros H. unfold authenticate_user.
  unfold bind at 1. unfold ask at 1. rewrite H. reflexivity.
Qed.

(** Whatever authentication answers, it touches neither the file tree nor
    the log of writes. *)
Lemma authenticate_user_frame (w w' : world) (r : res bool) :
  authenticate_user self w = (r, w') ->
  fs w' = fs w /\ saved w' = saved w.
Proof.
  unfold authenticate_user, load_credential.
  cbv beta iota delta [bind ask try_ask getpass print ret raise].
  destruct (exists_ (user_hash_file self) (fs w)); cbv beta iota delta [negb].
  2:{ intros H. apply run_inj in H as [_ <-]. split; reflexivity. }
  destruct (read_file (user_hash_file self) (fs w)) as [[c|reg|d]|e];
    cbv beta iota.
  3-4: intros H; apply run_inj in H as [_ <-]; split; reflexivity.
  all: destruct (stdin w) as [|p rest]; cbv beta iota.
  1,3,4: intros H; apply run_inj in H as [_ <-]; split; reflexivity.
  destruct (verify_password p c (with_stdin rest w)) as [[[|]|e] w2] eqn:E;
    apply verify_password_world in E; subst w2; cbv beta iota;
    intros H; apply run_inj in H as [_ <-]; split; reflexivity.
Qed.

End Authentication.

(* ------------------------------------------------------------------ *)
(** ** Saving, and the moving loops *)

Section Saving.

Lemma is_dir_resolve (p : path) (t : node) :
  is_dir p t = true -> exists es, resolve p t = Ret (Dir es).
Proof.
  unfold is_dir. destruct (resolve p t) as [[c|es]|e]; try discriminate.
  intros _. exists es. reflexivity.
Qed.

(** A file that resolves lies in a directory. *)
Lemma resolve_parent_is_dir (parent : path) (x : name) (t : node) (n : node) :
  resolve (parent ++ [x]) t = Ret n -> is_dir parent t = true.
Proof.
  rewrite resolve_app. unfold is_dir.
  destruct (resolve parent t) as [[c|es]|e]; try discriminate. reflexivity.
Qed.

Lemma is_dir_insert_parent (parent : path) (x : name) (n : node) (t : node) :
  is_dir parent t = true -> is_dir parent (insert (parent ++ [x]) n t) = true.
Proof.
  intros H. destruct (is_dir_resolve _ _ H) as [es E].
  unfold insert. rewrite split_last_app. unfold is_dir.
  rewrite (resolve_modify_dir_same _ _ _ _ E). reflexivity.
Qed.

(** [open(p, 'w')] succeeds where the parent is a directory and [p] itself
    is none; it leaves an empty file. *)
Lemma open_w_inv (p : path) (t t1 : node) :
  open_w p t = Ret t1 ->
  t1 = insert p (File (Raw [])) t /\
  (p = [] \/ exists parent x, p = parent ++ [x] /\ is_dir parent t = true).
Proof.
  unfold open_w. intros H.
  assert (D : p = [] \/ exists parent x, p = parent ++ [x]).
  { destruct (split_last p) as [[parent x]|] eqn:E.
    - right. exists parent, x. apply split_last_Some. exact E.
    - left. apply split_last_None. exact E. }
  destruct (resolve p t) as [[c|es]|e] eqn:E.
  - apply Ret_inj in H. split; [symmetry; exact H|].
    destruct D as [D|(parent & x & D)]; [left; exact D|].
    right. exists parent, x. split; [exact D|]. subst p.
    apply (resolve_parent_is_dir _ _ _ _ E).
  - discriminate.
  - destruct D as [->|(parent & x & ->)].
    + simpl in E. discriminate.
    + rewrite split_last_app in H.
      assert (H' : match resolve parent t with
                   | Ret (Dir _) => Ret (insert (parent ++ [x]) (File (Raw [])) t)
                   | Ret (File _) => Raise NotADirectoryError
                   | Raise e0 => Raise e0
                   end = Ret t1)
        by (destruct e; try exact H; discriminate).
      clear H.
      destruct (resolve parent t) as [[c|es]|e0] eqn:Ep; try discriminate.
      apply Ret_inj in H'. split; [symmetry; exact H'|].
      right. exists parent, x. split; [reflexivity|].
      unfold is_dir. rewrite Ep. reflexivity.
Qed.

(** What is written through the handle is what the file holds. *)
Lemma read_after_write (p : path) (c : content) (t t1 : node) :
  open_w p t = Ret t1 -> read_file p (write_open p c t1) = Ret c.
Proof.
  intros H. apply open_w_inv in H as [-> [->|(parent & x & -> & Hd)]].
  - reflexivity.
  - unfold write_open, read_file.
    rewrite resolve_insert_same; [reflexivity|].
    apply is_dir_insert_parent. exact Hd.
Qed.

Variable self : FolderLock.t.

Lemma save_status_inv (r : registry) (w w' : world) (res : res unit) :
  save_status self r w = (res, w') ->
  (exists e, res = Raise e /\ w' = w /\
             open_w (lock_status_file self) (fs w) = Raise e) \/
  (exists t1, res = Ret tt /\
              open_w (lock_status_file self) (fs w) = Ret t1 /\
              w' = with_saved (saved w ++ [lock_status_file self])
                     (with_fs (write_open (lock_status_file self) (StatusJson r) t1) w)).
Proof.
  unfold save_status, bind, update, json_dump.
  destruct (open_w (lock_status_file self) (fs w)) as [t1|e] eqn:E; intros H;
    apply run_inj in H as [<- <-].
  - right. exists t1. repeat split.
  - left. exists e. repeat split.
Qed.

(** A completed save leaves the registry file holding the mapping, and is
    logged once. *)
Lemma save_status_Ret (r : registry) (w w' : world) :
  save_status self r w = (Ret tt, w') ->
  registry_is self (fs w') r /\
  saved w' = saved w ++ [lock_status_file self] /\
  out w' = out w /\ stdin w' = stdin w.
Proof.
  intros H. apply save_status_inv in H as [(e & H & _)|(t1 & _ & Ho & ->)];
    [discriminate|].
  split; [|repeat split].
  unfold registry_is. cbn [fs with_saved with_fs].
  apply (read_after_write _ _ _ _ Ho).
Qed.

(** The loops of [lock_folder] and [unlock_folder] never raise, and they
    neither save nor read input. *)
Lemma move_items_total (warn : name -> exn -> message) (items : list path)
      (dst : path) (n : Z) (w : world) :
  exists n' w',
    move_items warn items dst n w = (Ret n', w') /\
    saved w' = saved w /\ stdin w' = stdin w /\
    clock w' = clock w /\ ticks w' = ticks w /\
    (exists msgs, out w' = out w ++ msgs) /\
    n <= n' <= n + Z.of_nat (List.length items).
Proof.
  revert n w; induction items as [|item rest IH]; intros n w.
  - exists n, w. simpl. repeat split; try lia.
    exists []. rewrite app_nil_r. reflexivity.
  - cbn [move_items]. unfold bind at 1. unfold catch, bind at 1, update.
    destruct (shutil_move item dst (fs w)) as [t'|e].
    + cbv beta iota delta [ret].
      destruct (IH (n + 1) (with_fs t' w))
        as (n' & w' & -> & Hs & Hi & Hc & Ht & Ho & Hn).
      exists n', w'. cbn [List.length]. repeat split; try assumption; lia.
    + cbv beta iota delta [print bind ret].
      destruct (IH n (with_out (out w ++ [warn (basename item) e]) w))
        as (n' & w' & -> & Hs & Hi & Hc & Ht & [msgs Ho] & Hn).
      exists n', w'. cbn [List.length]. repeat split; try assumption; try lia.
      exists (warn (basename item) e :: msgs). rewrite Ho.
      cbn [out with_out]. rewrite <- app_assoc. reflexivity.
Qed.

End Saving.

(* ------------------------------------------------------------------ *)
(** ** lock_folder *)

Section Lock.

Variable self : FolderLock.t.
Variable folder : path.

Lemma is_dir_exists (p : path) (t : node) : is_dir p t = true -> exists_ p t = true.
Proof.
  unfold is_dir, exists_. destruct (resolve p t) as [n|e]; [reflexivity | discriminate].
Qed.

(** Past the checks, [lock_folder] is its second half. *)
Lemma lock_folder_reaches (w w1 : world) (r : registry) :
  is_dir folder (fs w) = true ->
  authenticate_user self w = (Ret true, w1) ->
  registry_is self (fs w) r ->
  Dict.mem folder r = false ->
  lock_folder self folder w = seal_and_commit self folder r w1.
Proof.
  intros Hd Ha Hr Hm. unfold lock_folder.
  unfold bind at 1. unfold ask at 1. rewrite (is_dir_exists _ _ Hd).
  cbv beta iota delta [negb].
  unfold bind at 1. unfold ask at 1. rewrite Hd.
  cbv beta iota delta [negb].
  rewrite (bind_Ret _ _ _ _ _ Ha). cbv beta iota delta [negb].
  destruct (authenticate_user_frame self _ _ _ Ha) as [Hfs _].
  assert (Hr1 : registry_is self (fs w1) r) by (rewrite Hfs; exact Hr).
  rewrite (bind_Ret _ _ _ _ _ (load_status_run self _ _ Hr1)).
  rewrite Hm. reflexivity.
Qed.

(** Either [lock_folder] stops at a check, with the tree and the log of
    writes as they were and without answering [True], or the three checks
    passed and its second half ran. *)
Lemma lock_folder_cases (w w' : world) (res : res bool) :
  lock_folder self folder w = (res, w') ->
  (fs w' = fs w /\ saved w' = saved w /\ res <> Ret true) \/
  (is_dir folder (fs w) = true /\
   exists w1 r,
     authenticate_user self w = (Ret true, w1) /\
     registry_is self (fs w) r /\
     Dict.mem folder r = false /\
     seal_and_commit self folder r w1 = (res, w')).
Proof.
  unfold lock_folder.
  unfold bind at 1. unfold ask at 1.
  destruct (exists_ folder (fs w)) eqn:Ex; cbv beta iota delta [negb].
  2:{ cbv beta iota delta [bind print ret]. intros H.
      apply run_inj in H as [<- <-]. left. repeat split. discriminate. }
  unfold bind at 1. unfold ask at 1.
  destruct (is_dir folder (fs w)) eqn:Ed; cbv beta iota delta [negb].
  2:{ cbv beta iota delta [bind print ret]. intros H.
      apply run_inj in H as [<- <-]. left. repeat split. discriminate. }
  unfold bind at 1.
  destruct (authenticate_user self w) as [[[|]|e] w1] eqn:Ea;
    cbv beta iota delta [negb];
    destruct (authenticate_user_frame self _ _ _ Ea) as [Hfs Hsv].
  2:{ cbv beta iota delta [ret]. intros H. apply run_inj in H as [<- <-].
      left. repeat split; try assumption. discriminate. }
  2:{ intros H. apply run_inj in H as [<- <-].
      left. repeat split; try assumption. discriminate. }
  unfold bind at 1.
  destruct (load_status self w1) as [[r|e] w2] eqn:El.
  2:{ apply load_status_world in El. subst w2. intros H.
      apply run_inj in H as [<- <-].
      left. repeat split; try assumption. discriminate. }
  apply load_status_inv in El as [Hr ->].
  destruct (Dict.mem folder r) eqn:Em.
  { cbv beta iota delta [bind print ret]. intros H.
    apply run_inj in H as [<- <-].
    left. repeat split; try assumption. discriminate. }
  intros H. right. split; [reflexivity|].
  exists w1, r. rewrite <- Hfs. repeat split; assumption.
Qed.

(** A run of the second half that answers [True] has made the vault
    directory, inserted the entry and saved the registry, once. *)
Lemma seal_and_commit_Ret (r : registry) (w1 w' : world) :
  seal_and_commit self folder r w1 = (Ret true, w') ->
  exists info msgs,
    hidden_path info
    = hidden_dir self ++ [String.append (basename folder)
                            (String.append "_" (strftime_YmdHMS (clock w1 (ticks w1))))] /\
    exists_ (hidden_path info) (fs w1) = false /\
    0 <= items_count info /\
    registry_is self (fs w') (Dict.set folder info r) /\
    saved w' = saved w1 ++ [lock_status_file self] /\
    out w' = out w1 ++ msgs ++ [LockedOk folder (items_count info)].
Proof.
  unfold seal_and_commit.
  unfold bind at 1. unfold datetime_now at 1.
  set (hidden := hidden_dir self ++ [String.append (basename folder)
                   (String.append "_" (strftime_YmdHMS (clock w1 (ticks w1))))]).
  unfold bind at 1. unfold update at 1. cbn [fs with_ticks].
  destruct (mkdir false hidden (fs w1)) as [t1|e] eqn:Em.
  2:{ intros H. apply run_inj in H as [H _]. discriminate. }
  unfold bind at 1. unfold try_ask at 1. cbn [fs with_fs].
  destruct (iterdir folder t1) as [items|e] eqn:Ei.
  2:{ intros H. apply run_inj in H as [H _]. discriminate. }
  unfold bind at 1.
  destruct (move_items_total CouldNotMove items hidden 0
              (with_fs t1 (with_ticks (S (ticks w1)) w1)))
    as (n & w2 & -> & Hs & Hi & Hc & Ht & [msgs Ho] & Hn).
  unfold bind at 1. unfold datetime_now at 1.
  unfold bind at 1.
  match goal with
  | |- context [save_status self ?reg ?w] =>
      destruct (save_status self reg w) as [[[]|e] w3] eqn:Es
  end.
  2:{ intros H. apply run_inj in H as [H _]. discriminate. }
  apply save_status_Ret in Es as (Hreg & Hsv & Hout & Hin).
  cbv beta iota delta [bind print ret]. intros H.
  apply run_inj in H as [_ <-].
  exists {| hidden_path := hidden; locked_at := isoformat (clock w2 (ticks w2));
            items_count := n |}.
  exists msgs. cbn [hidden_path items_count].
  split; [reflexivity|].
  split.
  { unfold mkdir, os_mkdir in Em. unfold exists_.
    destruct (resolve hidden (fs w1)) as [m|e]; [|reflexivity].
    cbn [andb] in Em. discriminate. }
  split; [lia|].
  split; [exact Hreg|].
  cbn [saved with_out out] in *. rewrite Hsv, Hout. cbn [saved with_ticks out].
  rewrite Hs, Ho. cbn [saved out with_fs with_ticks].
  split; [reflexivity|]. rewrite <- app_assoc. reflexivity.
Qed.

End Lock.

(** *** Sample credentials *)

Lemma accepts_credential_of (p : str) (pw raw : bytes) :
  encode_utf8 p = Some pw ->
  Forall byte_range raw ->
  accepts (credential_of pw raw) p.
Proof.
  intros Hp Hr w. unfold credential_of.
  apply (verify_password_same_key_block p pw pw (hex raw) (hex raw) w);
    [exact Hp | apply encode_utf8_hex; exact Hr | reflexivity].
Qed.

Lemma zeros32_range : Forall byte_range zeros32.
Proof. apply Forall_forall. intros b Hb. apply repeat_spec in Hb. subst b. split; lia. Qed.

Lemma accepts_secret1 : accepts user0 secret1.
Proof. apply accepts_credential_of; [reflexivity | apply zeros32_range]. Qed.

Lemma accepts_adminpw : accepts admin0 adminpw.
Proof. apply accepts_credential_of; [reflexivity | apply zeros32_range]. Qed.

(* ------------------------------------------------------------------ *)
(** ** unlock_folder *)

Section Unlock.

Variable self : FolderLock.t.
Variable folder : path.

(** Past the checks, [unlock_folder] is its second half. *)
Lemma unlock_folder_reaches (w w1 : world) (r : registry) (info : lock_info) :
  authenticate_user self w = (Ret true, w1) ->
  registry_is self (fs w) r ->
  Dict.get folder r = Some info ->
  exists_ (hidden_path info) (fs w) = true ->
  unlock_folder self folder w
  = restore_and_commit self folder r (hidden_path info) w1.
Proof.
  intros Ha Hr Hg Hx. unfold unlock_folder.
  rewrite (bind_Ret _ _ _ _ _ Ha). cbv beta iota delta [negb].
  destruct (authenticate_user_frame self _ _ _ Ha) as [Hfs _].
  assert (Hr1 : registry_is self (fs w1) r) by (rewrite Hfs; exact Hr).
  rewrite (bind_Ret _ _ _ _ _ (load_status_run self _ _ Hr1)).
  rewrite Hg. unfold bind at 1. unfold ask at 1. rewrite Hfs, Hx.
  reflexivity.
Qed.

(** Either [unlock_folder] stops at a check, with the tree and the log of
    writes as they were and without answering [True], or the checks
    passed and its second half ran. *)
Lemma unlock_folder_cases (w w' : world) (res : res bool) :
  unlock_folder self folder w = (res, w') ->
  (fs w' = fs w /\ saved w' = saved w /\ res <> Ret true) \/
  (exists w1 r info,
     authenticate_user self w = (Ret true, w1) /\
     registry_is self (fs w) r /\
     Dict.get folder r = Some info /\
     exists_ (hidden_path info) (fs w) = true /\
     restore_and_commit self folder r (hidden_path info) w1 = (res, w')).
Proof.
  unfold unlock_folder.
  unfold bind at 1.
  destruct (authenticate_user self w) as [[[|]|e] w1] eqn:Ea;
    cbv beta iota delta [negb];
    destruct (authenticate_user_frame self _ _ _ Ea) as [Hfs Hsv].
  2:{ cbv beta iota delta [ret]. intros H. apply run_inj in H as [<- <-].
      left. repeat split; try assumption. discriminate. }
  2:{ intros H. apply run_inj in H as [<- <-].
      left. repeat split; try assumption. discriminate. }
  unfold bind at 1.
  destruct (load_status self w1) as [[r|e] w2] eqn:El.
  2:{ apply load_status_world in El. subst w2. intros H.
      apply run_inj in H as [<- <-].
      left. repeat split; try assumption. discriminate. }
  apply load_status_inv in El as [Hr ->].
  destruct (Dict.get folder r) as [info|] eqn:Eg.
  2:{ cbv beta iota delta [bind print ret]. intros H.
      apply run_inj in H as [<- <-].
      left. repeat split; try assumption. discriminate. }
  unfold bind at 1. unfold ask at 1.
  destruct (exists_ (hidden_path info) (fs w1)) eqn:Ex;
    cbv beta iota delta [negb].
  2:{ cbv beta iota delta [bind print ret]. intros H.
      apply run_inj in H as [<- <-].
      left. repeat split; try assumption. discriminate. }
  intros H. right. exists w1, r, info. rewrite <- Hfs.
  repeat split; assumption.
Qed.

End Unlock.

(** C7.  When the registry entry of the folder records a vault path that
    does not exist, [unlock_folder] with the right user password prints
    that the hidden data was not found and answers [False]; and whatever
    is typed, the call does not answer [True] and leaves the file tree
    untouched, so that the registry still holds the entry. *)
Theorem unlock_folder_missing_vault :
  forall (self : FolderLock.t) (folder : path) (w : world)
         (r : registry) (info : lock_info),
    registry_is self (fs w) r ->
    Dict.get folder r = Some info ->
    exists_ (hidden_path info) (fs w) = false ->
    (forall c p rest,
       user_credential_is self (fs w) c -> stdin w = p :: rest -> accepts c p ->
       unlock_folder self folder w
       = (Ret false, with_out (out w ++ [HiddenDataNotFound]) (with_stdin rest w))) /\
    (forall res w',
       unlock_folder self folder w = (res, w') ->
       res <> Ret true /\ fs w' = fs w /\ saved w' = saved w /\
       registry_is self (fs w') r /\ Dict.get folder r = Some info).
Proof.
  intros self folder w r info Hr Hg Hx. split.
  - intros c p rest Hc Hin Hacc. unfold unlock_folder.
    rewrite (bind_Ret _ _ _ _ _ (authenticate_user_accepts self w c p rest Hc Hin Hacc)).
    cbv beta iota delta [negb].
    assert (Hr1 : registry_is self (fs (with_stdin rest w)) r) by exact Hr.
    rewrite (bind_Ret _ _ _ _ _ (load_status_run self _ _ Hr1)).
    rewrite Hg. unfold bind at 1. unfold ask at 1.
    cbn [fs with_stdin]. rewrite Hx. reflexivity.
  - intros res w' H.
    apply unlock_folder_cases in H
      as [(Hfs & Hsv & Hres)|(w1 & r' & info' & _ & Hr' & Hg' & Hx' & _)].
    + rewrite Hfs. repeat split; assumption.
    + unfold registry_is in Hr, Hr'. rewrite Hr in Hr'.
      apply Ret_inj in Hr'. injection Hr' as <-.
      rewrite Hg in Hg'. injection Hg' as <-.
      rewrite Hx in Hx'. discriminate.
Qed.

(* ------------------------------------------------------------------ *)
(** ** A missing registry file *)

Section MissingRegistry.

Variable self : FolderLock.t.

Lemma load_status_missing (w : world) :
  read_file (lock_status_file self) (fs w) = Raise FileNotFoundError ->
  load_status self w = (Raise FileNotFoundError, w).
Proof. intros H. unfold load_status, bind, try_ask. rewrite H. reflexivity. Qed.

Lemma lock_folder_missing_registry (folder : path) (w : world)
      (c : stored_data) (p : str) (rest : list str) :
  read_file (lock_status_file self) (fs w) = Raise FileNotFoundError ->
  is_dir folder (fs w) = true ->
  user_credential_is self (fs w) c -> stdin w = p :: rest -> accepts c p ->
  lock_folder self folder w = (Raise FileNotFoundError, with_stdin rest w).
Proof.
  intros H Hd Hc Hin Hacc. unfold lock_folder.
  unfold bind at 1. unfold ask at 1. rewrite (is_dir_exists _ _ Hd).
  cbv beta iota delta [negb].
  unfold bind at 1. unfold ask at 1. rewrite Hd.
  cbv beta iota delta [negb].
  rewrite (bind_Ret _ _ _ _ _ (authenticate_user_accepts self w c p rest Hc Hin Hacc)).
  cbv beta iota delta [negb].
  rewrite (bind_Raise _ _ _ _ _ (load_status_missing (with_stdin rest w) H)).
  reflexivity.
Qed.

Lemma unlock_folder_missing_registry (folder : path) (w : world)
      (c : stored_data) (p : str) (rest : list str) :
  read_file (lock_status_file self) (fs w) = Raise FileNotFoundError ->
  user_credential_is self (fs w) c -> stdin w = p :: rest -> accepts c p ->
  unlock_folder self folder w = (Raise FileNotFoundError, with_stdin rest w).
Proof.
  intros H Hc Hin Hacc. unfold unlock_folder.
  rewrite (bind_Ret _ _ _ _ _ (authenticate_user_accepts self w c p rest Hc Hin Hacc)).
  cbv beta iota delta [negb].
  rewrite (bind_Raise _ _ _ _ _ (load_status_missing (with_stdin rest w) H)).
  reflexivity.
Qed.

Lemma show_lock_status_missing_registry (w : world) :
  read_file (lock_status_file self) (fs w) = Raise FileNotFoundError ->
  show_lock_status self w
  = (Raise FileNotFoundError, with_out (out w ++ [StatusBanner]) w).
Proof.
  intros H. unfold show_lock_status. unfold bind at 1. unfold print at 1.
  cbv beta iota.
  rewrite (bind_Raise _ _ _ _ _
             (load_status_missing (with_out (out w ++ [StatusBanner]) w) H)).
  reflexivity.
Qed.

End MissingRegistry.

(** C4, as the code has it.  When the registry file is missing, loading it
    raises [FileNotFoundError]: the status listing raises after its banner,
    and [lock_folder] and [unlock_folder] raise once the user is
    authenticated; the file tree is left as it was and nothing is saved. *)
Theorem missing_registry_raises :
  forall (self : FolderLock.t) (w : world),
    read_file (lock_status_file self) (fs w) = Raise FileNotFoundError ->
    load_status self w = (Raise FileNotFoundError, w) /\
    show_lock_status self w
    = (Raise FileNotFoundError, with_out (out w ++ [StatusBanner]) w) /\
    (forall folder c p rest,
       is_dir folder (fs w) = true ->
       user_credential_is self (fs w) c -> stdin w = p :: rest -> accepts c p ->
       lock_folder self folder w = (Raise FileNotFoundError, with_stdin rest w)) /\
    (forall folder c p rest,
       user_credential_is self (fs w) c -> stdin w = p :: rest -> accepts c p ->
       unlock_folder self folder w = (Raise FileNotFoundError, with_stdin rest w)).
Proof.
  intros self w H.
  split; [apply load_status_missing; exact H|].
  split; [apply show_lock_status_missing_registry; exact H|].
  split.
  - intros folder c p rest. apply lock_folder_missing_registry. exact H.
  - intros folder c p rest. apply unlock_folder_missing_registry. exact H.
Qed.

(* ------------------------------------------------------------------ *)
(** ** What the moves leave alone *)

Section Moves.

Lemma exists_prefix (p q : path) (t : node) :
  is_prefix p q = true -> exists_ q t = true -> exists_ p t = true.
Proof.
  intros Hp Hq. apply is_prefix_spec in Hp as [r ->].
  unfold exists_ in *. destruct (resolve (p ++ r) t) as [n|e] eqn:E; [|discriminate].
  apply resolve_prefix in E as [m ->]. reflexivity.
Qed.

Lemma resolve_exists (q : path) (t : node) (n : node) :
  resolve q t = Ret n -> exists_ q t = true.
Proof. intros H. unfold exists_. rewrite H. reflexivity. Qed.

(** A path that does not exist is no prefix of one that does. *)
Lemma missing_not_prefix (p q : path) (t : node) :
  exists_ p t = false -> exists_ q t = true -> is_prefix p q = false.
Proof.
  intros Hp Hq. destruct (is_prefix p q) eqn:E; [|reflexivity].
  rewrite (exists_prefix _ _ _ E Hq) in Hp. discriminate.
Qed.

(** A successful [shutil.move] into a directory is a rename below it, or
    nothing at all when the source is that directory. *)
Lemma shutil_move_into_dir (src dst : path) (t t' : node) :
  is_dir dst t = true ->
  shutil_move src dst t = Ret t' ->
  (src = dst /\ t' = t) \/
  (exists n,
      src <> dst /\
      exists_ (dst ++ [basename src]) t = false /\
      resolve src t = Ret n /\
      is_prefix src dst = false /\
      t' = rename src (dst ++ [basename src]) n t).
Proof.
  intros Hd. unfold shutil_move. rewrite Hd.
  destruct (path_eqb src dst) eqn:Eq.
  - intros H. apply Ret_inj in H. apply path_eqb_eq in Eq. left. split; congruence.
  - apply path_eqb_neq in Eq.
    destruct (exists_ (dst ++ [basename src]) t) eqn:Ex; [discriminate|].
    destruct (resolve src t) as [n|e] eqn:Es; [|discriminate].
    destruct (is_prefix src dst) eqn:Ep; [discriminate|].
    intros H. apply Ret_inj in H. right. exists n. repeat split; congruence.
Qed.

Lemma shutil_move_keeps_file (src dst q : path) (t t' : node) (c : content) :
  is_dir dst t = true ->
  shutil_move src dst t = Ret t' ->
  resolve q t = Ret (File c) ->
  is_prefix src q = false ->
  resolve q t' = Ret (File c).
Proof.
  intros Hd Hm Hq Hp.
  apply (shutil_move_into_dir _ _ _ _ Hd) in Hm
    as [[_ ->]|(n & _ & Hx & _ & _ & ->)]; [exact Hq|].
  unfold rename. apply resolve_insert_file.
  - apply resolve_remove_file; assumption.
  - apply (missing_not_prefix _ _ t Hx). apply (resolve_exists _ _ _ Hq).
Qed.

Lemma shutil_move_keeps_dir (src dst d : path) (t t' : node) :
  is_dir dst t = true ->
  shutil_move src dst t = Ret t' ->
  is_dir d t = true ->
  is_prefix src d = false ->
  is_dir d t' = true.
Proof.
  intros Hd Hm Hq Hp.
  apply (shutil_move_into_dir _ _ _ _ Hd) in Hm
    as [[_ ->]|(n & _ & Hx & _ & _ & ->)]; [exact Hq|].
  unfold rename. apply is_dir_insert.
  - apply is_dir_remove; assumption.
  - apply (missing_not_prefix _ _ t Hx). apply is_dir_exists. exact Hq.
Qed.

(** The destination stays a directory. *)
Lemma shutil_move_keeps_dst (src dst : path) (t t' : node) :
  is_dir dst t = true ->
  shutil_move src dst t = Ret t' ->
  is_dir dst t' = true.
Proof.
  intros Hd Hm.
  destruct (shutil_move_into_dir _ _ _ _ Hd Hm)
    as [[_ ->]|(n & _ & _ & _ & Hp & _)]; [exact Hd|].
  apply (shutil_move_keeps_dir src dst dst t t'); assumption.
Qed.

Lemma mkdir_inv (exist_ok : bool) (p : path) (t t1 : node) :
  mkdir exist_ok p t = Ret t1 ->
  (exist_ok = true /\ is_dir p t = true /\ t1 = t) \/
  (exists_ p t = false /\
   exists parent x, p = parent ++ [x] /\ is_dir parent t = true /\
                    t1 = insert p (Dir []) t).
Proof.
  unfold mkdir, os_mkdir. destruct (resolve p t) as [n|e] eqn:E.
  - destruct (exist_ok && is_dir p t) eqn:B; [|discriminate].
    apply andb_true_iff in B as [-> B]. intros H. apply Ret_inj in H.
    left. repeat split; congruence.
  - assert (Hx : exists_ p t = false) by (unfold exists_; rewrite E; reflexivity).
    destruct e;
      try (destruct (exist_ok && is_dir p t) eqn:B;
           [apply andb_true_iff in B as [_ B];
            apply is_dir_exists in B; congruence | discriminate]).
    all: destruct (split_last p) as [[parent x]|] eqn:Es;
      [apply split_last_Some in Es
      | destruct (exist_ok && is_dir p t) eqn:B;
        [apply andb_true_iff in B as [_ B];
         apply is_dir_exists in B; congruence | discriminate]].
    all: destruct (resolve parent t) as [[c|es]|e0] eqn:Ep.
    all: try (destruct (exist_ok && is_dir p t) eqn:B;
              [apply andb_true_iff in B as [_ B];
               apply is_dir_exists in B; congruence | discriminate]).
    all: try (intros H; apply Ret_inj in H; right; split; [exact Hx|];
              exists parent, x; repeat split;
              [exact Es | unfold is_dir; rewrite Ep; reflexivity | congruence]).
    all: destruct e0;
      try (destruct (exist_ok && is_dir p t) eqn:B;
           [apply andb_true_iff in B as [_ B];
            apply is_dir_exists in B; congruence | discriminate]);
      discriminate.
Qed.

Lemma mkdir_keeps_file (exist_ok : bool) (p q : path) (t t1 : node) (c : content) :
  mkdir exist_ok p t = Ret t1 ->
  resolve q t = Ret (File c) ->
  resolve q t1 = Ret (File c).
Proof.
  intros Hm Hq.
  apply mkdir_inv in Hm as [(_ & _ & ->)|(Hx & parent & x & _ & _ & ->)];
    [exact Hq|].
  apply resolve_insert_file; [exact Hq|].
  apply (missing_not_prefix _ _ t Hx (resolve_exists _ _ _ Hq)).
Qed.

Lemma mkdir_keeps_dir (exist_ok : bool) (p d : path) (t t1 : node) :
  mkdir exist_ok p t = Ret t1 ->
  is_dir d t = true ->
  is_dir d t1 = true.
Proof.
  intros Hm Hd.
  apply mkdir_inv in Hm as [(_ & _ & ->)|(Hx & parent & x & _ & _ & ->)];
    [exact Hd|].
  apply is_dir_insert; [exact Hd|].
  apply (missing_not_prefix _ _ t Hx (is_dir_exists _ _ Hd)).
Qed.

Lemma mkdir_makes_dir (exist_ok : bool) (p : path) (t t1 : node) :
  mkdir exist_ok p t = Ret t1 -> is_dir p t1 = true.
Proof.
  intros Hm.
  apply mkdir_inv in Hm as [(_ & Hd & ->)|(Hx & parent & x & -> & Hd & ->)];
    [exact Hd|].
  unfold is_dir. rewrite (resolve_insert_same _ _ _ _ Hd). reflexivity.
Qed.

Lemma rmdir_keeps_file (p q : path) (t t' : node) (c : content) :
  rmdir p t = Ret t' ->
  resolve q t = Ret (File c) ->
  is_prefix p q = false ->
  resolve q t' = Ret (File c).
Proof.
  unfold rmdir. intros Hr Hq Hp.
  destruct (resolve p t) as [[c'|[|e es]]|e]; try discriminate.
  destruct p; [discriminate|]. apply Ret_inj in Hr. subst t'.
  apply resolve_remove_file; assumption.
Qed.

Lemma iterdir_children (p : path) (t : node) (items : list path) :
  iterdir p t = Ret items ->
  forall item, In item items -> exists x, item = p ++ [x].
Proof.
  unfold iterdir. destruct (resolve p t) as [[c|es]|e]; try discriminate.
  intros H item Hin. apply Ret_inj in H. subst items.
  apply in_map_iff in Hin as ([x n] & <- & _). exists x. reflexivity.
Qed.

(** The loop keeps every file that lies below none of its items, and its
    destination stays a directory. *)
Lemma move_items_keeps (warn : name -> exn -> message) (items : list path)
      (dst q : path) (c : content) (n n' : Z) (w w' : world) :
  move_items warn items dst n w = (Ret n', w') ->
  is_dir dst (fs w) = true ->
  resolve q (fs w) = Ret (File c) ->
  (forall item, In item items -> is_prefix item q = false) ->
  is_dir dst (fs w') = true /\ resolve q (fs w') = Ret (File c).
Proof.
  revert n w; induction items as [|item rest IH]; intros n w H Hd Hq Hp.
  - simpl in H. apply run_inj in H as [_ <-]. split; assumption.
  - cbn [move_items] in H. unfold bind at 1 in H.
    unfold catch, bind at 1, update in H.
    destruct (shutil_move item dst (fs w)) as [t'|e] eqn:Em.
    + cbv beta iota delta [ret] in H.
      apply (IH _ _ H).
      * cbn [fs with_fs]. apply (shutil_move_keeps_dst _ _ _ _ Hd Em).
      * cbn [fs with_fs].
        apply (shutil_move_keeps_file _ _ _ _ _ _ Hd Em Hq).
        apply Hp. left. reflexivity.
      * intros i Hi. apply Hp. right. exact Hi.
    + cbv beta iota delta [print bind ret] in H.
      apply (IH _ _ H); [exact Hd | exact Hq |].
      intros i Hi. apply Hp. right. exact Hi.
Qed.

End Moves.

(* ------------------------------------------------------------------ *)
(** ** Registry dictionaries *)

Section DictFacts.

Context {V : Type}.

Lemma get_del_same (k : path) (d : Dict.dict V) : Dict.get k (Dict.del k d) = None.
Proof.
  unfold Dict.del. induction d as [|[k' v] d IH]; simpl; [reflexivity|].
  destruct (path_eqb k k') eqn:E; simpl; [exact IH|].
  rewrite E. exact IH.
Qed.

Lemma mem_del_same (k : path) (d : Dict.dict V) : Dict.mem k (Dict.del k d) = false.
Proof. unfold Dict.mem. rewrite get_del_same. reflexivity. Qed.

Lemma get_set_same (k : path) (v : V) (d : Dict.dict V) :
  Dict.get k (Dict.set k v d) = Some v.
Proof.
  induction d as [|[k' v'] d IH]; simpl.
  - rewrite path_eqb_refl. reflexivity.
  - destruct (path_eqb k k') eqn:E; simpl.
    + rewrite path_eqb_refl. reflexivity.
    + rewrite E. exact IH.
Qed.

Lemma path_eqb_sym (p q : path) : path_eqb p q = path_eqb q p.
Proof.
  destruct (path_eqb p q) eqn:E.
  - apply path_eqb_eq in E. subst. symmetry. apply path_eqb_refl.
  - symmetry. apply path_eqb_neq. apply path_eqb_neq in E. congruence.
Qed.

Lemma get_set_other (k k' : path) (v : V) (d : Dict.dict V) :
  k' <> k -> Dict.get k' (Dict.set k v d) = Dict.get k' d.
Proof.
  intros N. apply path_eqb_neq in N.
  induction d as [|[k0 v0] d IH]; simpl.
  - rewrite N. reflexivity.
  - destruct (path_eqb k k0) eqn:E; simpl.
    + apply path_eqb_eq in E. subst k0. rewrite N. reflexivity.
    + rewrite IH. reflexivity.
Qed.

Lemma get_del_other (k k' : path) (d : Dict.dict V) :
  k' <> k -> Dict.get k' (Dict.del k d) = Dict.get k' d.
Proof.
  intros N. apply path_eqb_neq in N. unfold Dict.del.
  induction d as [|[k0 v0] d IH]; simpl; [reflexivity|].
  destruct (path_eqb k k0) eqn:E; simpl.
  - apply path_eqb_eq in E. subst k0. rewrite N. exact IH.
  - rewrite IH. reflexivity.
Qed.

(** Deleting a key that was just set on a dictionary without it gives the
    dictionary back. *)
Lemma del_set_fresh (k : path) (v : V) (d : Dict.dict V) :
  Dict.mem k d = false -> Dict.del k (Dict.set k v d) = d.
Proof.
  unfold Dict.mem, Dict.del. induction d as [|[k0 v0] d IH]; simpl.
  - rewrite path_eqb_refl. reflexivity.
  - destruct (path_eqb k k0) eqn:E; [discriminate|]. simpl. rewrite E. simpl.
    intros H. rewrite (IH H). reflexivity.
Qed.

End DictFacts.

(* ------------------------------------------------------------------ *)
(** ** The second half of unlock_folder *)

Section Restore.

Variable self : FolderLock.t.
Variable folder : path.

Lemma open_w_file (p : path) (t : node) (c : content) :
  resolve p t = Ret (File c) -> open_w p t = Ret (insert p (File (Raw [])) t).
Proof. intros H. unfold open_w. rewrite H. reflexivity. Qed.

(** [try: hidden_path.rmdir()  except: pass] *)
Lemma rmdir_swallowed (hidden : path) (w : world) :
  exists t3,
    catch (update (rmdir hidden)) (fun _ => ret tt) w = (Ret tt, with_fs t3 w) /\
    (t3 = fs w \/ rmdir hidden (fs w) = Ret t3).
Proof.
  unfold catch, update, ret.
  destruct (rmdir hidden (fs w)) as [t3|e].
  - exists t3. split; [reflexivity | right; reflexivity].
  - exists (fs w). split; [destruct w; reflexivity | left; reflexivity].
Qed.

(** Once the folder could be made and the vault is a directory that is
    no ancestor of the registry file, the second half runs to its end
    whatever the moves and the removal of the vault do. *)
Lemma restore_and_commit_runs (r : registry) (hidden : path) (w1 : world) (t1 : node) :
  registry_is self (fs w1) r ->
  is_dir hidden (fs w1) = true ->
  is_prefix hidden (lock_status_file self) = false ->
  mkdir true folder (fs w1) = Ret t1 ->
  exists w' n msgs,
    restore_and_commit self folder r hidden w1 = (Ret true, w') /\
    registry_is self (fs w') (Dict.del folder r) /\
    saved w' = saved w1 ++ [lock_status_file self] /\
    0 <= n /\
    out w' = out w1 ++ msgs ++ [UnlockedOk folder n].
Proof.
  intros Hr Hd Hp Hm. unfold restore_and_commit.
  unfold bind at 1. unfold update at 1. rewrite Hm.
  assert (Hr1 : resolve (lock_status_file self) t1 = Ret (File (StatusJson r))).
  { apply (mkdir_keeps_file _ _ _ _ _ _ Hm).
    unfold registry_is, read_file in Hr.
    destruct (resolve (lock_status_file self) (fs w1)) as [[c|es]|e];
      try discriminate.
    apply Ret_inj in Hr. subst c. reflexivity. }
  assert (Hd1 : is_dir hidden t1 = true) by apply (mkdir_keeps_dir _ _ _ _ _ Hm Hd).
  assert (Hf1 : is_dir folder t1 = true) by apply (mkdir_makes_dir _ _ _ _ Hm).
  unfold bind at 1. unfold try_ask at 1. cbn [fs with_fs].
  destruct (iterdir hidden t1) as [items|e] eqn:Ei.
  2:{ unfold iterdir in Ei. unfold is_dir in Hd1.
      destruct (resolve hidden t1) as [[c|es]|e0]; discriminate. }
  unfold bind at 1.
  destruct (move_items_total CouldNotRestore items folder 0 (with_fs t1 w1))
    as (n & w2 & Hrun & Hs & Hi & Hc & Ht & [msgs Ho] & Hn).
  rewrite Hrun.
  destruct (move_items_keeps _ _ _ _ _ _ _ _ _ Hrun Hf1 Hr1) as [Hf2 Hr2].
  { intros item Hin. destruct (iterdir_children _ _ _ Ei _ Hin) as [x ->].
    apply is_prefix_child_false. exact Hp. }
  destruct (rmdir_swallowed hidden w2) as (t3 & Hsw & Ht3).
  rewrite (bind_Ret _ _ _ _ _ Hsw).
  assert (Hr3 : resolve (lock_status_file self) t3 = Ret (File (StatusJson r))).
  { destruct Ht3 as [->|Er]; [exact Hr2|].
    apply (rmdir_keeps_file _ _ _ _ _ Er Hr2 Hp). }
  unfold bind at 1. unfold save_status, bind at 1, update at 1.
  cbn [fs with_fs]. rewrite (open_w_file _ _ _ Hr3).
  cbv beta iota delta [json_dump bind print ret].
  eexists. exists n, msgs. split; [reflexivity|].
  cbn [fs saved out with_fs with_saved with_out].
  split.
  { unfold registry_is. apply (read_after_write _ _ t3). apply open_w_file with (c := StatusJson r). exact Hr3. }
  rewrite Hs, Ho. cbn [saved out with_fs].
  split; [reflexivity|]. split; [lia|].
  rewrite <- app_assoc. reflexivity.
Qed.

End Restore.

(** C10, as the code has it.  An [unlock_folder] call that passes
    authentication, finds the folder in the registry and finds the vault,
    a directory that is no ancestor of the registry file, removes the entry
    and saves the registry, once, and answers [True], provided the folder
    itself can be made ([mkdir(exist_ok=True)] does not raise); how many
    items could be moved back, and whether the vault directory could be
    removed, plays no part. *)
Theorem unlock_folder_commits :
  forall (self : FolderLock.t) (folder : path) (w : world)
         (c : stored_data) (p : str) (rest : list str)
         (r : registry) (info : lock_info) (t1 : node),
    user_credential_is self (fs w) c -> stdin w = p :: rest -> accepts c p ->
    registry_is self (fs w) r ->
    Dict.get folder r = Some info ->
    is_dir (hidden_path info) (fs w) = true ->
    is_prefix (hidden_path info) (lock_status_file self) = false ->
    mkdir true folder (fs w) = Ret t1 ->
    exists w' n msgs,
      unlock_folder self folder w = (Ret true, w') /\
      registry_is self (fs w') (Dict.del folder r) /\
      Dict.mem folder (Dict.del folder r) = false /\
      saved w' = saved w ++ [lock_status_file self] /\
      out w' = out w ++ msgs ++ [UnlockedOk folder n].
Proof.
  intros self folder w c p rest r info t1 Hc Hin Hacc Hr Hg Hd Hp Hm.
  pose proof (authenticate_user_accepts self w c p rest Hc Hin Hacc) as Ha.
  rewrite (unlock_folder_reaches self folder w _ r info Ha Hr Hg (is_dir_exists _ _ Hd)).
  destruct (restore_and_commit_runs self folder r (hidden_path info)
              (with_stdin rest w) t1 Hr Hd Hp Hm)
    as (w' & n & msgs & Hrun & Hreg & Hsv & _ & Hout).
  exists w', n, msgs. split; [exact Hrun|]. split; [exact Hreg|].
  split; [apply mem_del_same|]. split; assumption.
Qed.

(* ------------------------------------------------------------------ *)
(** ** initial_setup *)

Section Setup.

Lemma open_w_in_dir (parent : path) (x : name) (t : node) :
  is_dir parent t = true ->
  is_dir (parent ++ [x]) t = false ->
  open_w (parent ++ [x]) t = Ret (insert (parent ++ [x]) (File (Raw [])) t).
Proof.
  intros Hd Hf. destruct (is_dir_resolve _ _ Hd) as [es E].
  unfold open_w, is_dir in *. rewrite (resolve_child _ x _ _ E) in *.
  destruct (find_entry x es) as [[c|es']|]; try discriminate; [reflexivity|].
  rewrite split_last_app, E. reflexivity.
Qed.

(** Reading beside, or at, the place of an insertion. *)
Lemma resolve_insert_sibling (parent : path) (x y : name) (n : node) (t : node) :
  is_dir parent t = true ->
  resolve (parent ++ [y]) (insert (parent ++ [x]) n t)
  = if String.eqb y x then Ret n else resolve (parent ++ [y]) t.
Proof.
  intros Hd. destruct (is_dir_resolve _ _ Hd) as [es E].
  unfold insert. rewrite split_last_app.
  rewrite (resolve_child _ y _ _ (resolve_modify_dir_same _ _ _ _ E)).
  rewrite (resolve_child _ y _ _ E).
  rewrite find_entry_put_entry. destruct (String.eqb y x); reflexivity.
Qed.

Lemma save_credential_run (parent : path) (x : name) (password : str) (pw : bytes) (w : world) :
  is_dir parent (fs w) = true ->
  is_dir (parent ++ [x]) (fs w) = false ->
  encode_utf8 password = Some pw ->
  exists w',
    save_credential (parent ++ [x]) password w = (Ret tt, w') /\
    fs w' = insert (parent ++ [x])
              (File (CredJson (credential_of pw (random_bytes 32 w))))
              (insert (parent ++ [x]) (File (Raw [])) (fs w)) /\
    saved w' = saved w ++ [parent ++ [x]] /\
    drawn w' = (drawn w + 32)%nat /\ entropy w' = entropy w /\
    stdin w' = stdin w /\ out w' = out w.
Proof.
  intros Hd Hf He. unfold save_credential.
  unfold bind at 1. unfold update at 1. rewrite (open_w_in_dir _ _ _ Hd Hf).
  rewrite (bind_Ret _ _ _ _ _ (hash_password_fresh password pw _ He)).
  unfold json_dump. eexists. split; [reflexivity|].
  repeat split.
Qed.

Lemma ask_new_password_run (w : world) (r : res str) (rest : list str) (msgs : list message) :
  new_password_loop (stdin w) = (r, rest, msgs) ->
  ask_new_password w = (r, with_out (out w ++ msgs) (with_stdin rest w)).
Proof. intros H. unfold ask_new_password. rewrite H. reflexivity. Qed.

Lemma is_dir_insert_file_sibling (parent : path) (x y : name) (c : content) (t : node) :
  is_dir parent t = true ->
  is_dir (parent ++ [y]) t = false ->
  is_dir (parent ++ [y]) (insert (parent ++ [x]) (File c) t) = false.
Proof.
  intros Hd Hf. unfold is_dir in *.
  rewrite (resolve_insert_sibling _ _ _ _ _ Hd).
  destruct (String.eqb y x); [reflexivity | exact Hf].
Qed.

End Setup.

(** C9.  The only thing [initial_setup] looks at before going on is
    whether the admin credential file exists.  When it does not, and the
    configuration directory is there with no directory in the place of its
    files, then with two accepted password pairs typed the call runs to
    its end whatever the user credential file and the registry file held:
    the admin and the user credential files hold fresh credentials for the
    typed passwords and the registry file holds the empty mapping. *)
Theorem initial_setup_overwrites :
  forall (self : FolderLock.t) (w : world)
         (admin_pass user_pass : str) (ab ub : bytes)
         (rest1 rest2 : list str) (msgs1 msgs2 : list message),
    exists_ (admin_hash_file self) (fs w) = false ->
    is_dir (config_dir self) (fs w) = true ->
    is_dir (user_hash_file self) (fs w) = false ->
    is_dir (lock_status_file self) (fs w) = false ->
    new_password_loop (stdin w) = (Ret admin_pass, rest1, msgs1) ->
    new_password_loop rest1 = (Ret user_pass, rest2, msgs2) ->
    encode_utf8 admin_pass = Some ab ->
    encode_utf8 user_pass = Some ub ->
    exists w',
      initial_setup self w = (Ret true, w') /\
      admin_credential_is self (fs w') (credential_of ab (random_bytes 32 w)) /\
      user_credential_is self (fs w')
        (credential_of ub (random_bytes 32 (with_drawn (drawn w + 32) w))) /\
      registry_is self (fs w') [] /\
      saved w' = saved w ++ [admin_hash_file self; user_hash_file self;
                             lock_status_file self] /\
      stdin w' = rest2.
Proof.
  intros self w admin_pass user_pass ab ub rest1 rest2 msgs1 msgs2
         Hx Hd Hu Hl Ha Hb Hea Heu.
  unfold initial_setup.
  unfold bind at 1. unfold print at 1.
  unfold bind at 1. unfold ask at 1. cbn [fs with_out]. rewrite Hx.
  set (w0 := with_out (out w ++ [SetupBanner]) w).
  assert (Ha0 : new_password_loop (stdin w0) = (Ret admin_pass, rest1, msgs1)) by exact Ha.
  rewrite (bind_Ret _ _ _ _ _ (ask_new_password_run _ _ _ _ Ha0)).
  set (w1 := with_out (out w0 ++ msgs1) (with_stdin rest1 w0)).
  assert (Hb1 : new_password_loop (stdin w1) = (Ret user_pass, rest2, msgs2)) by exact Hb.
  rewrite (bind_Ret _ _ _ _ _ (ask_new_password_run _ _ _ _ Hb1)).
  set (w2 := with_out (out w1 ++ msgs2) (with_stdin rest2 w1)).
  assert (Hx2 : is_dir (admin_hash_file self) (fs w2) = false).
  { change (fs w2) with (fs w). unfold is_dir. unfold exists_ in Hx.
    destruct (resolve (admin_hash_file self) (fs w)); [discriminate | reflexivity]. }
  destruct (save_credential_run (config_dir self) "admin_hash.json" admin_pass ab w2
              Hd Hx2 Hea) as (w3 & R3 & F3 & S3 & D3 & E3 & I3 & O3).
  change (config_dir self ++ ["admin_hash.json"]) with (admin_hash_file self) in *.
  rewrite (bind_Ret _ _ _ _ _ R3).
  (* the tree after the admin credential is written *)
  assert (Hd3 : is_dir (config_dir self) (fs w3) = true).
  { rewrite F3. unfold admin_hash_file.
    apply is_dir_insert_parent, is_dir_insert_parent. exact Hd. }
  assert (Hu3 : is_dir (user_hash_file self) (fs w3) = false).
  { rewrite F3. unfold user_hash_file, admin_hash_file.
    apply is_dir_insert_file_sibling; [apply is_dir_insert_parent; exact Hd|].
    apply is_dir_insert_file_sibling; [exact Hd | exact Hu]. }
  assert (Hl3 : is_dir (lock_status_file self) (fs w3) = false).
  { rewrite F3. unfold lock_status_file, admin_hash_file.
    apply is_dir_insert_file_sibling; [apply is_dir_insert_parent; exact Hd|].
    apply is_dir_insert_file_sibling; [exact Hd | exact Hl]. }
  assert (Ha3 : admin_credential_is self (fs w3) (credential_of ab (random_bytes 32 w))).
  { unfold admin_credential_is, read_file. rewrite F3. unfold admin_hash_file.
    rewrite resolve_insert_same; [reflexivity|].
    apply is_dir_insert_parent. exact Hd. }
  destruct (save_credential_run (config_dir self) "user_hash.json" user_pass ub w3
              Hd3 Hu3 Heu) as (w4 & R4 & F4 & S4 & D4 & E4 & I4 & O4).
  change (config_dir self ++ ["user_hash.json"]) with (user_hash_file self) in *.
  rewrite (bind_Ret _ _ _ _ _ R4).
  assert (Hd4 : is_dir (config_dir self) (fs w4) = true).
  { rewrite F4. unfold user_hash_file.
    apply is_dir_insert_parent, is_dir_insert_parent. exact Hd3. }
  assert (Hl4 : is_dir (lock_status_file self) (fs w4) = false).
  { rewrite F4. unfold lock_status_file, user_hash_file.
    apply is_dir_insert_file_sibling; [apply is_dir_insert_parent; exact Hd3|].
    apply is_dir_insert_file_sibling; [exact Hd3 | exact Hl3]. }
  unfold bind at 1. unfold update at 1.
  unfold lock_status_file in *. eexists.
  rewrite (open_w_in_dir _ _ _ Hd4 Hl4).
  cbv beta iota delta [bind json_dump print ret].
  split; [reflexivity|].
  cbn [fs saved stdin with_fs with_saved with_out].
  assert (Hd5 : is_dir (config_dir self)
                  (insert (config_dir self ++ ["lock_status.json"]) (File (Raw [])) (fs w4)) = true)
    by (apply is_dir_insert_parent; exact Hd4).
  split; [|split; [|split; [|split]]].
  - unfold admin_credential_is, read_file, write_open, lock_status_file, admin_hash_file.
    rewrite (resolve_insert_sibling _ _ _ _ _ Hd5).
    rewrite (resolve_insert_sibling _ _ _ _ _ Hd4).
    rewrite F4. unfold user_hash_file.
    rewrite (resolve_insert_sibling _ _ _ _ _ (is_dir_insert_parent _ _ _ _ Hd3)).
    rewrite (resolve_insert_sibling _ _ _ _ _ Hd3).
    cbn [String.eqb Ascii.eqb Bool.eqb].
    unfold admin_credential_is, read_file, admin_hash_file in Ha3.
    destruct (resolve (config_dir self ++ ["admin_hash.json"]) (fs w3)) as [[c|es]|e];
      try discriminate.
    exact Ha3.
  - unfold user_credential_is, read_file, write_open, lock_status_file, user_hash_file.
    rewrite (resolve_insert_sibling _ _ _ _ _ Hd5).
    rewrite (resolve_insert_sibling _ _ _ _ _ Hd4).
    rewrite F4. unfold user_hash_file.
    rewrite (resolve_insert_sibling _ _ _ _ _ (is_dir_insert_parent _ _ _ _ Hd3)).
    cbn [String.eqb Ascii.eqb Bool.eqb].
    replace (random_bytes 32 w3) with (random_bytes 32 (with_drawn (drawn w + 32) w));
      [reflexivity|].
    unfold random_bytes. rewrite D3, E3. reflexivity.
  - unfold registry_is, read_file, write_open, lock_status_file.
    rewrite (resolve_insert_sibling _ _ _ _ _ Hd5).
    rewrite String.eqb_refl. reflexivity.
  - rewrite S4, S3. rewrite <- !app_assoc. reflexivity.
  - rewrite I4, I3. reflexivity.
Qed.

(* ------------------------------------------------------------------ *)
(** ** The key derivation of a credential *)

(** C8, as the code has it.  For a password with a UTF-8 encoding:
    with a given salt string, [hash_password] draws no randomness, leaves
    the world as it is and answers the salt with the hexadecimal text of
    PBKDF2-HMAC-SHA256 (100000 iterations) of the password's encoding and
    the salt string's encoding; with no salt given, the salt string is the
    64 hexadecimal characters of 32 fresh random bytes, and it is these 64
    characters, as 64 bytes, that the derivation takes as its salt;
    different random bytes give different salt strings. *)
Theorem hash_password_derivation :
  forall (password : str) (pw : bytes),
    encode_utf8 password = Some pw ->
    (forall (s : str) (sb : bytes) (w : world),
        encode_utf8 s = Some sb ->
        hash_password password (Some s) w
        = (Ret {| salt := s;
                  hash := hex (Pbkdf2.pbkdf2_hmac_sha256 pw sb 100000) |}, w)) /\
    (forall w : world,
        let raw := random_bytes 32 w in
        List.length raw = 32%nat /\
        List.length (hex raw) = 64%nat /\
        encode_utf8 (hex raw) = Some (hex raw) /\
        hash_password password None w
        = (Ret {| salt := hex raw;
                  hash := hex (Pbkdf2.pbkdf2_hmac_sha256 pw (hex raw) 100000) |},
           with_drawn (drawn w + 32)%nat w)) /\
    (forall w1 w2 : world,
        hex (random_bytes 32 w1) = hex (random_bytes 32 w2) ->
        random_bytes 32 w1 = random_bytes 32 w2).
Proof.
  intros password pw Hp. split; [|split].
  - intros s sb w Hs. exact (hash_password_salted password s pw sb w Hp Hs).
  - intros w raw. split; [apply random_bytes_length|].
    split; [unfold raw; rewrite hex_length, random_bytes_length; reflexivity|].
    split; [apply encode_utf8_hex, random_bytes_range|].
    exact (hash_password_fresh password pw w Hp).
  - intros w1 w2. apply hex_inj; apply random_bytes_range.
Qed.

Lemma hash_password_derivation_witness :
  hash_password secret1 (Some (str_of_string "00ff")) (world_of (Dir []) [])
  = (Ret {| salt := str_of_string "00ff";
            hash := hex (Pbkdf2.pbkdf2_hmac_sha256 secret1 (str_of_string "00ff") 100000) |},
     world_of (Dir []) []).
Proof.
  exact (proj1 (hash_password_derivation secret1 secret1 eq_refl)
           (str_of_string "00ff") (str_of_string "00ff") (world_of (Dir []) []) eq_refl).
Defined.

(** C8 as stated fails: the salt that the derivation takes is not 32 bytes
    long.  For the password "secret1" it is the 64 bytes of the stored salt
    string. *)
Lemma hash_password_salt_is_64_bytes :
  exists stored w1 sb,
    hash_password secret1 None (world_of (Dir []) []) = (Ret stored, w1) /\
    encode_utf8 (salt stored) = Some sb /\
    hash stored = hex (Pbkdf2.pbkdf2_hmac_sha256 secret1 sb iterations) /\
    List.length sb = 64%nat /\
    List.length sb <> 32%nat.
Proof.
  eexists. eexists. exists (hex (random_bytes 32 (world_of (Dir []) []))).
  split; [exact (hash_password_fresh secret1 secret1 (world_of (Dir []) []) eq_refl)|].
  cbn [salt hash].
  split; [apply encode_utf8_hex, random_bytes_range|].
  split; [reflexivity|].
  rewrite hex_length, random_bytes_length. split; [reflexivity | discriminate].
Qed.

(* ------------------------------------------------------------------ *)
(** ** How a save reaches the disk *)

Section SaveSteps.

Variable self : FolderLock.t.

Lemma save_status_as_steps (r : registry) (w : world) :
  save_status self r w = run_steps (save_status_steps self r) w.
Proof.
  unfold save_status, save_status_steps, run_steps, bind, update, json_dump, ret.
  destruct (open_w (lock_status_file self) (fs w)); reflexivity.
Qed.

Lemma save_credential_as_steps (p : path) (password : str) (w : world) :
  save_credential p password w = run_steps (save_credential_steps p password) w.
Proof.
  unfold save_credential, save_credential_steps, run_steps.
  unfold bind at 1 3. destruct (update (open_w p) w) as [[[]|e] w1]; [|reflexivity].
  unfold bind at 1 2 3.
  destruct (hash_password password None w1) as [[d|e] w2]; reflexivity.
Qed.

(** Replacing an entry that is there keeps the names of a directory. *)
Lemma put_entry_names (x : name) (n : node) (es : entries) :
  find_entry x es <> None -> map fst (put_entry x n es) = map fst es.
Proof.
  induction es as [|[y m] es IH]; simpl; [congruence|].
  destruct (String.eqb x y) eqn:E; simpl.
  - intros _. apply String.eqb_eq in E. subst y. reflexivity.
  - intros H. rewrite (IH H). reflexivity.
Qed.

Lemma iterdir_insert_existing (parent : path) (x : name) (n m : node) (t : node) :
  resolve (parent ++ [x]) t = Ret m ->
  iterdir parent (insert (parent ++ [x]) n t) = iterdir parent t.
Proof.
  intros H. pose proof (resolve_parent_is_dir _ _ _ _ H) as Hd.
  destruct (is_dir_resolve _ _ Hd) as [es E].
  unfold iterdir, insert. rewrite split_last_app.
  rewrite (resolve_modify_dir_same _ _ _ _ E), E.
  rewrite (resolve_child _ x _ _ E) in H.
  f_equal.
  rewrite <- (map_map fst (fun y => parent ++ [y]) (put_entry x n es)).
  rewrite <- (map_map fst (fun y => parent ++ [y]) es).
  rewrite put_entry_names; [reflexivity|].
  destruct (find_entry x es); [discriminate | discriminate].
Qed.

End SaveSteps.

(** C3, as the code has it.  A save of the registry over an existing
    registry file is two steps on that very file: opening it for writing
    leaves it empty, so that a process stopped at this point leaves a
    registry file that does not load ([JSONDecodeError]); writing the
    document then leaves it holding the mapping.  No other name appears in
    the configuration directory at any point: there is no temporary file
    and no rename.  A credential file is saved in the same way. *)
Theorem save_status_in_place :
  forall (self : FolderLock.t) (r : registry) (w : world) (c0 : content),
    resolve (lock_status_file self) (fs w) = Ret (File c0) ->
    save_status self r w = run_steps (save_status_steps self r) w /\
    (forall p password w0,
        save_credential p password w0
        = run_steps (save_credential_steps p password) w0) /\
    interrupted_after 0 (save_status_steps self r) w = w /\
    read_file (lock_status_file self)
              (fs (interrupted_after 1 (save_status_steps self r) w))
    = Ret (Raw []) /\
    fst (load_status self (interrupted_after 1 (save_status_steps self r) w))
    = Raise JSONDecodeError /\
    registry_is self (fs (interrupted_after 2 (save_status_steps self r) w)) r /\
    snd (save_status self r w) = interrupted_after 2 (save_status_steps self r) w /\
    (forall n, iterdir (config_dir self)
                       (fs (interrupted_after n (save_status_steps self r) w))
               = iterdir (config_dir self) (fs w)).
Proof.
  intros self r w c0 H.
  pose proof (open_w_file _ _ _ H) as Ho.
  assert (S1 : interrupted_after 1 (save_status_steps self r) w
               = with_fs (insert (lock_status_file self) (File (Raw [])) (fs w)) w).
  { unfold interrupted_after, save_status_steps, firstn, run_steps, bind, update, ret.
    rewrite Ho. reflexivity. }
  assert (S2 : interrupted_after 2 (save_status_steps self r) w
               = with_saved (saved w ++ [lock_status_file self])
                   (with_fs (write_open (lock_status_file self) (StatusJson r)
                               (insert (lock_status_file self) (File (Raw [])) (fs w)))
                            (with_fs (insert (lock_status_file self) (File (Raw [])) (fs w)) w))).
  { unfold interrupted_after, save_status_steps, firstn, run_steps, bind, update,
      json_dump, ret.
    rewrite Ho. reflexivity. }
  assert (R1 : read_file (lock_status_file self)
                 (insert (lock_status_file self) (File (Raw [])) (fs w)) = Ret (Raw [])).
  { unfold read_file, lock_status_file in *.
    rewrite (resolve_insert_same _ _ _ _ (resolve_parent_is_dir _ _ _ _ H)).
    reflexivity. }
  split; [apply save_status_as_steps|].
  split; [intros p password w0; apply save_credential_as_steps|].
  split; [reflexivity|].
  split; [rewrite S1; exact R1|].
  split.
  { rewrite S1. unfold load_status, bind, try_ask. cbn [fs with_fs].
    rewrite R1. reflexivity. }
  split.
  { rewrite S2. cbn [fs with_fs with_saved]. unfold registry_is.
    apply (read_after_write _ _ _ _ Ho). }
  split.
  { rewrite S2. unfold save_status, bind, update, json_dump. rewrite Ho. reflexivity. }
  intros n.
  assert (I1 : iterdir (config_dir self)
                 (insert (lock_status_file self) (File (Raw [])) (fs w))
               = iterdir (config_dir self) (fs w))
    by (unfold lock_status_file in *; apply (iterdir_insert_existing _ _ _ _ _ H)).
  destruct n as [|[|n]].
  - reflexivity.
  - rewrite S1. exact I1.
  - replace (interrupted_after (S (S n)) (save_status_steps self r) w)
      with (interrupted_after 2 (save_status_steps self r) w)
      by (unfold interrupted_after, save_status_steps; destruct n; reflexivity).
    rewrite S2. cbn [fs with_fs with_saved]. unfold write_open.
    rewrite <- I1. unfold lock_status_file in *.
    apply (iterdir_insert_existing _ _ _ (File (Raw []))).
    rewrite (resolve_insert_same _ _ _ _ (resolve_parent_is_dir _ _ _ _ H)).
    reflexivity.
Qed.

(* ------------------------------------------------------------------ *)
(** ** unlock_all_folders *)

Section UnlockAll.




Lemma unlock_entry_restored (folder : path) (info : lock_info)
      (ls : registry) (n : Z) (w w1 : world) :
  exists_ (hidden_path info) (fs w) = true ->
  restore_vault (hidden_path info) folder w = (Ret tt, w1) ->
  unlock_entry (folder, info) (ls, n) w
  = (Ret (Dict.del folder ls, n + 1), with_out (out w1 ++ [UnlockedOne folder]) w1).
Proof.
  intros H Hr. unfold unlock_entry, catch. unfold bind at 1, ask at 1.
  rewrite H. rewrite (bind_Ret _ _ _ _ _ Hr). reflexivity.
Qed.





End UnlockAll.


(* ------------------------------------------------------------------ *)
(** ** Runs on the sample installation *)

Section Scenarios.

Variables admin user : stored_data.
Hypothesis user_ok : accepts user secret1.

Let tmp_x : path := ["tmp"; "x"].

Lemma sample_authenticates (r : registry) (vaults tmp : entries) (lines : list str)
      (k : nat) (o : list message) (s : list path) :
  authenticate_user tool (world_at (installed admin user r vaults tmp) (secret1 :: lines) k o s)
  = (Ret true, world_at (installed admin user r vaults tmp) lines k o s).
Proof.
  exact (authenticate_user_accepts tool
           (world_at (installed admin user r vaults tmp) (secret1 :: lines) k o s)
           user secret1 lines eq_refl eq_refl user_ok).
Qed.

(** The scenario of the specification: locking [/tmp/x], which holds
    [a.txt] and [b.txt]. *)
Lemma lock_two_files_run :
  lock_folder tool tmp_x (world_of (installed admin user [] [] two_files) [secret1])
  = (Ret true,
     world_at (installed admin user [entry_x tmp_x 2]
                         [("x_20240101_120000", Dir [a_txt; b_txt])]
                         [("x", Dir [])])
              [] 2 [LockedOk tmp_x 2] [lock_status_file tool]).
Proof.
  rewrite (lock_folder_reaches tool tmp_x
             (world_of (installed admin user [] [] two_files) [secret1]) _ []
             eq_refl (sample_authenticates [] [] two_files [] 0 [] []) eq_refl eq_refl).
  lazy. reflexivity.
Qed.

(** ... and unlocking it again. *)
Lemma unlock_two_files_run :
  unlock_folder tool tmp_x
    (world_of (installed admin user [entry_x tmp_x 2]
                         [("x_20240101_120000", Dir [a_txt; b_txt])]
                         [("x", Dir [])])
              [secret1])
  = (Ret true,
     world_at (installed admin user [] [] two_files)
              [] 0 [UnlockedOk tmp_x 2] [lock_status_file tool]).
Proof.
  rewrite (unlock_folder_reaches tool tmp_x
             (world_of (installed admin user [entry_x tmp_x 2]
                          [("x_20240101_120000", Dir [a_txt; b_txt])]
                          [("x", Dir [])]) [secret1])
             _ [entry_x tmp_x 2] (snd (entry_x tmp_x 2))
             (sample_authenticates _ _ _ [] 0 [] []) eq_refl eq_refl eq_refl).
  lazy. reflexivity.
Qed.

(** Locking the configuration directory of the tool itself, and then
    trying to unlock it. *)
Let config : path := ["opt"; "tool"; ".config"].

Lemma lock_config_run :
  lock_folder tool config (world_of (installed admin user [] [] []) [secret1])
  = (Ret true,
     world_at (locked_config admin user) [] 2
              [CouldNotMove ".locked_data" ShutilError; LockedOk config 3]
              [lock_status_file tool]).
Proof.
  rewrite (lock_folder_reaches tool config
             (world_of (installed admin user [] [] []) [secret1]) _ []
             eq_refl (sample_authenticates [] [] [] [] 0 [] []) eq_refl eq_refl).
  lazy. reflexivity.
Qed.

Lemma unlock_config_run (k : nat) (o : list message) (s : list path) :
  unlock_folder tool config (world_at (locked_config admin user) [secret1] k o s)
  = (Ret false, world_at (locked_config admin user) [secret1] k (o ++ [NotConfigured]) s).
Proof.
  unfold unlock_folder.
  rewrite (bind_Ret _ _ _ _ _
             (authenticate_user_not_configured tool
                (world_at (locked_config admin user) [secret1] k o s) eq_refl)).
  reflexivity.
Qed.

(** With the registry file deleted. *)
Lemma status_without_registry_run :
  show_lock_status tool (world_of (without_registry admin user []) [])
  = (Raise FileNotFoundError,
     world_at (without_registry admin user []) [] 0 [StatusBanner] []).
Proof. lazy. reflexivity. Qed.

Lemma lock_without_registry_run :
  lock_folder tool tmp_x (world_of (without_registry admin user two_files) [secret1])
  = (Raise FileNotFoundError, world_of (without_registry admin user two_files) []).
Proof.
  exact (lock_folder_missing_registry tool tmp_x
           (world_of (without_registry admin user two_files) [secret1])
           user secret1 [] eq_refl eq_refl eq_refl eq_refl user_ok).
Qed.



(** The folder was given a new [a.txt] while it was locked: nothing can
    be moved back, the vault cannot be removed, and the entry goes. *)
Lemma unlock_nothing_restored_run :
  unlock_folder tool tmp_x
    (world_of (installed admin user [entry_x tmp_x 1]
                         [("x_20240101_120000", Dir [a_txt])]
                         [("x", Dir [("a.txt", File (Raw [1]))])])
              [secret1])
  = (Ret true,
     world_at (installed admin user []
                         [("x_20240101_120000", Dir [a_txt])]
                         [("x", Dir [("a.txt", File (Raw [1]))])])
              [] 0
              [CouldNotRestore "a.txt" ShutilError; UnlockedOk tmp_x 0]
              [lock_status_file tool]).
Proof.
  rewrite (unlock_folder_reaches tool tmp_x
             (world_of (installed admin user [entry_x tmp_x 1]
                          [("x_20240101_120000", Dir [a_txt])]
                          [("x", Dir [("a.txt", File (Raw [1]))])]) [secret1])
             _ [entry_x tmp_x 1] (snd (entry_x tmp_x 1))
             (sample_authenticates _ _ _ [] 0 [] []) eq_refl eq_refl eq_refl).
  lazy. reflexivity.
Qed.

(** The parent of the locked folder was deleted: [mkdir] raises. *)
Let gone_x : path := ["gone"; "x"].

Lemma unlock_parent_gone_run :
  unlock_folder tool gone_x
    (world_of (installed admin user [entry_x gone_x 1]
                         [("x_20240101_120000", Dir [a_txt])] [])
              [secret1])
  = (Raise FileNotFoundError,
     world_of (installed admin user [entry_x gone_x 1]
                         [("x_20240101_120000", Dir [a_txt])] [])
              []).
Proof.
  rewrite (unlock_folder_reaches tool gone_x
             (world_of (installed admin user [entry_x gone_x 1]
                          [("x_20240101_120000", Dir [a_txt])] []) [secret1])
             _ [entry_x gone_x 1] (snd (entry_x gone_x 1))
             (sample_authenticates _ _ _ [] 0 [] []) eq_refl eq_refl eq_refl).
  lazy. reflexivity.
Qed.

End Scenarios.

(* ------------------------------------------------------------------ *)
(** ** The claims on the sample installation *)

(** C1 fails on the code: locking the configuration directory of the tool
    itself moves the credential files into the vault, and the unlock that
    follows stops at "not configured".  The directory is left without its
    credential files and the registry keeps the entry. *)
Theorem lock_unlock_config_dir_not_restored :
  lock_folder tool ["opt"; "tool"; ".config"]
    (world_of (installed admin0 user0 [] [] []) [secret1])
  = (Ret true,
     world_at (locked_config admin0 user0) [] 2
       [CouldNotMove ".locked_data" ShutilError;
        LockedOk ["opt"; "tool"; ".config"] 3]
       [lock_status_file tool]) /\
  unlock_folder tool ["opt"; "tool"; ".config"]
    (world_at (locked_config admin0 user0) [secret1] 2
       [CouldNotMove ".locked_data" ShutilError;
        LockedOk ["opt"; "tool"; ".config"] 3]
       [lock_status_file tool])
  = (Ret false,
     world_at (locked_config admin0 user0) [secret1] 2
       [CouldNotMove ".locked_data" ShutilError;
        LockedOk ["opt"; "tool"; ".config"] 3;
        NotConfigured]
       [lock_status_file tool]) /\
  iterdir ["opt"; "tool"; ".config"] (installed admin0 user0 [] [] [])
  = Ret [["opt"; "tool"; ".config"; "admin_hash.json"];
         ["opt"; "tool"; ".config"; "user_hash.json"];
         ["opt"; "tool"; ".config"; "lock_status.json"];
         ["opt"; "tool"; ".config"; ".locked_data"]] /\
  iterdir ["opt"; "tool"; ".config"] (locked_config admin0 user0)
  = Ret [["opt"; "tool"; ".config"; ".locked_data"];
         ["opt"; "tool"; ".config"; "lock_status.json"]] /\
  registry_is tool (locked_config admin0 user0) [entry_config].
Proof.
  split; [exact (lock_config_run admin0 user0 accepts_secret1)|].
  split; [exact (unlock_config_run admin0 user0 2 _ _)|].
  repeat split.
Qed.

(** C3 as stated fails: a save of the registry that is stopped after its
    first step leaves a registry file that no longer loads, where the
    registry loaded before. *)
Lemma interrupted_save_is_unparsable :
  registry_is tool
    (installed admin0 user0 [entry_x ["tmp"; "x"] 2]
       [("x_20240101_120000", Dir [a_txt; b_txt])] [("x", Dir [])])
    [entry_x ["tmp"; "x"] 2] /\
  fst (load_status tool
         (interrupted_after 1 (save_status_steps tool [])
            (world_of (installed admin0 user0 [entry_x ["tmp"; "x"] 2]
                         [("x_20240101_120000", Dir [a_txt; b_txt])]
                         [("x", Dir [])]) [])))
  = Raise JSONDecodeError.
Proof. split; reflexivity. Qed.

Lemma save_status_in_place_witness :
  read_file (lock_status_file tool)
    (fs (interrupted_after 1 (save_status_steps tool [])
           (world_of (installed admin0 user0 [entry_x ["tmp"; "x"] 2] [] []) [])))
  = Ret (Raw []).
Proof.
  exact (proj1 (proj2 (proj2 (proj2
           (save_status_in_place tool []
              (world_of (installed admin0 user0 [entry_x ["tmp"; "x"] 2] [] []) [])
              (StatusJson [entry_x ["tmp"; "x"] 2]) eq_refl))))).
Defined.

(** C4 as stated fails: with the registry file missing, loading it raises;
    it does not yield the empty mapping. *)
Lemma missing_registry_is_an_error :
  load_status tool (world_of (without_registry admin0 user0 two_files) [])
  = (Raise FileNotFoundError, world_of (without_registry admin0 user0 two_files) []) /\
  show_lock_status tool (world_of (without_registry admin0 user0 []) [])
  = (Raise FileNotFoundError,
     world_at (without_registry admin0 user0 []) [] 0 [StatusBanner] []) /\
  lock_folder tool ["tmp"; "x"]
    (world_of (without_registry admin0 user0 two_files) [secret1])
  = (Raise FileNotFoundError, world_of (without_registry admin0 user0 two_files) []).
Proof.
  split; [reflexivity|].
  split; [exact (status_without_registry_run admin0 user0)|].
  exact (lock_without_registry_run admin0 user0 accepts_secret1).
Qed.

Lemma missing_registry_raises_witness :
  unlock_folder tool ["tmp"; "x"]
    (world_of (without_registry admin0 user0 two_files) [secret1])
  = (Raise FileNotFoundError, world_of (without_registry admin0 user0 two_files) []).
Proof.
  exact (proj2 (proj2 (proj2 (missing_registry_raises tool
           (world_of (without_registry admin0 user0 two_files) [secret1]) eq_refl)))
           ["tmp"; "x"] user0 secret1 [] eq_refl eq_refl accepts_secret1).
Defined.



(** C7 on an entry whose vault is gone. *)
Lemma unlock_folder_missing_vault_witness :
  unlock_folder tool ["tmp"; "x"]
    (world_of (installed admin0 user0 [entry_x ["tmp"; "x"] 2] [] [("x", Dir [])])
              [secret1])
  = (Ret false,
     world_at (installed admin0 user0 [entry_x ["tmp"; "x"] 2] [] [("x", Dir [])])
              [] 0 [HiddenDataNotFound] []).
Proof.
  exact (proj1 (unlock_folder_missing_vault tool ["tmp"; "x"]
           (world_of (installed admin0 user0 [entry_x ["tmp"; "x"] 2] []
                        [("x", Dir [])]) [secret1])
           [entry_x ["tmp"; "x"] 2] (snd (entry_x ["tmp"; "x"] 2))
           eq_refl eq_refl eq_refl)
           user0 secret1 [] eq_refl eq_refl accepts_secret1).
Defined.

(** C9 on an installation that has lost its admin credential file and still
    holds a user credential, a locked folder and its vault. *)
Lemma initial_setup_overwrites_witness :
  exists w',
    initial_setup tool
      (world_of (without_admin user0 [entry_x ["tmp"; "x"] 2]
                   [("x_20240101_120000", Dir [a_txt; b_txt])] [("x", Dir [])])
                [adminpw; adminpw; secret1; secret1])
    = (Ret true, w') /\
    registry_is tool (fs w') [] /\
    is_dir vault_x (without_admin user0 [entry_x ["tmp"; "x"] 2]
                      [("x_20240101_120000", Dir [a_txt; b_txt])] [("x", Dir [])])
    = true.
Proof.
  destruct (initial_setup_overwrites tool
              (world_of (without_admin user0 [entry_x ["tmp"; "x"] 2]
                           [("x_20240101_120000", Dir [a_txt; b_txt])] [("x", Dir [])])
                        [adminpw; adminpw; secret1; secret1])
              adminpw secret1 adminpw secret1 [secret1; secret1] [] [] []
              eq_refl eq_refl eq_refl eq_refl eq_refl eq_refl eq_refl eq_refl)
    as (w' & R & _ & _ & Hreg & _).
  exists w'. split; [exact R|]. split; [exact Hreg | reflexivity].
Defined.

(** C10 on a folder that was given a new [a.txt] while it was locked:
    nothing is moved back, the vault keeps its item, the entry goes. *)
Lemma unlock_folder_commits_witness :
  exists w' n msgs,
    unlock_folder tool ["tmp"; "x"]
      (world_of (installed admin0 user0 [entry_x ["tmp"; "x"] 1]
                   [("x_20240101_120000", Dir [a_txt])]
                   [("x", Dir [("a.txt", File (Raw [1]))])])
                [secret1])
    = (Ret true, w') /\
    registry_is tool (fs w') (Dict.del ["tmp"; "x"] [entry_x ["tmp"; "x"] 1]) /\
    Dict.mem ["tmp"; "x"] (Dict.del ["tmp"; "x"] [entry_x ["tmp"; "x"] 1]) = false /\
    saved w' = [] ++ [lock_status_file tool] /\
    out w' = [] ++ msgs ++ [UnlockedOk ["tmp"; "x"] n].
Proof.
  exact (unlock_folder_commits tool ["tmp"; "x"]
           (world_of (installed admin0 user0 [entry_x ["tmp"; "x"] 1]
                        [("x_20240101_120000", Dir [a_txt])]
                        [("x", Dir [("a.txt", File (Raw [1]))])])
                     [secret1])
           user0 secret1 [] [entry_x ["tmp"; "x"] 1] (snd (entry_x ["tmp"; "x"] 1))
           (installed admin0 user0 [entry_x ["tmp"; "x"] 1]
              [("x_20240101_120000", Dir [a_txt])]
              [("x", Dir [("a.txt", File (Raw [1]))])])
           eq_refl eq_refl accepts_secret1 eq_refl eq_refl eq_refl eq_refl eq_refl).
Defined.

(** C10 as stated fails: with the parent of the locked folder deleted, an
    unlock passes the three checks and then raises; the entry stays. *)
Lemma unlock_folder_raises_when_parent_is_gone :
  authenticate_user tool
    (world_of (installed admin0 user0 [entry_x ["gone"; "x"] 1]
                 [("x_20240101_120000", Dir [a_txt])] []) [secret1])
  = (Ret true,
     world_of (installed admin0 user0 [entry_x ["gone"; "x"] 1]
                 [("x_20240101_120000", Dir [a_txt])] []) []) /\
  Dict.mem ["gone"; "x"] [entry_x ["gone"; "x"] 1] = true /\
  exists_ vault_x (installed admin0 user0 [entry_x ["gone"; "x"] 1]
                     [("x_20240101_120000", Dir [a_txt])] []) = true /\
  unlock_folder tool ["gone"; "x"]
    (world_of (installed admin0 user0 [entry_x ["gone"; "x"] 1]
                 [("x_20240101_120000", Dir [a_txt])] []) [secret1])
  = (Raise FileNotFoundError,
     world_of (installed admin0 user0 [entry_x ["gone"; "x"] 1]
                 [("x_20240101_120000", Dir [a_txt])] []) []) /\
  registry_is tool
    (installed admin0 user0 [entry_x ["gone"; "x"] 1]
       [("x_20240101_120000", Dir [a_txt])] [])
    [entry_x ["gone"; "x"] 1].
Proof.
  split; [exact (sample_authenticates admin0 user0 accepts_secret1 _ _ _ [] 0 [] [])|].
  split; [reflexivity|]. split; [reflexivity|].
  split; [exact (unlock_parent_gone_run admin0 user0 accepts_secret1) | reflexivity].
Qed.

(* ------------------------------------------------------------------ *)
(** ** Moving everything between two directories *)

Section Between.

Lemma diverge_sym (p q : path) : diverge p q -> diverge q p.
Proof. intros [H1 H2]. split; assumption. Qed.

(** Two prefixes of one path lie on one line. *)
Lemma is_prefix_comparable (p c l : path) :
  is_prefix p l = true -> is_prefix c l = true ->
  is_prefix p c = true \/ is_prefix c p = true.
Proof.
  revert c l; induction p as [|x p IH]; intros c l Hp Hc; [left; reflexivity|].
  destruct c as [|y c]; [right; reflexivity|].
  destruct l as [|z l]; [discriminate|]. simpl in *.
  apply andb_true_iff in Hp as [Hx Hp]. apply andb_true_iff in Hc as [Hy Hc].
  apply String.eqb_eq in Hx, Hy. subst z. subst y.
  rewrite String.eqb_refl. simpl. apply (IH c l); assumption.
Qed.

(** What diverges from a directory diverges from everything below it. *)
Lemma diverge_below (p c r : path) : diverge p c -> diverge p (c ++ r).
Proof.
  intros [H1 H2]. split.
  - destruct (is_prefix p (c ++ r)) eqn:E; [|reflexivity].
    destruct (is_prefix_comparable p c (c ++ r) E (is_prefix_app c r)); congruence.
  - destruct (is_prefix (c ++ r) p) eqn:E; [|reflexivity].
    rewrite (is_prefix_trans c (c ++ r) p (is_prefix_app c r) E) in H2. discriminate.
Qed.

Lemma diverge_not_prefix_below (p c r : path) :
  diverge p c -> is_prefix p (c ++ r) = false.
Proof. intros H. apply (diverge_below p c r H). Qed.

(** A modification beside a path does not show there. *)
Lemma resolve_modify_dir_diverge (p q : path) (f : entries -> entries) (t : node) :
  diverge p q -> resolve q (modify_dir p f t) = resolve q t.
Proof.
  revert q t; induction p as [|x p IH]; intros q t [H1 H2].
  - discriminate.
  - destruct q as [|y q]; [discriminate|].
    destruct t as [c|es]; [reflexivity|]. simpl in *.
    rewrite find_entry_map_entry.
    destruct (String.eqb y x) eqn:E; [|reflexivity].
    apply String.eqb_eq in E. subst y. rewrite String.eqb_refl in H1. simpl in *.
    destruct (find_entry x es) as [n|]; [|reflexivity]. simpl.
    apply IH. split; assumption.
Qed.

(** A modification above a path shows there only through the entry that
    leads to it. *)
Lemma resolve_modify_dir_below (p q : path) (y : name) (f : entries -> entries)
      (t : node) (es : entries) :
  resolve p t = Ret (Dir es) ->
  find_entry y (f es) = find_entry y es ->
  resolve (p ++ y :: q) (modify_dir p f t) = resolve (p ++ y :: q) t.
Proof.
  intros Hp Hf.
  rewrite !resolve_app, (resolve_modify_dir_same _ _ _ _ Hp), Hp.
  simpl. rewrite Hf. reflexivity.
Qed.

Lemma put_entry_absent (x : name) (n : node) (es : entries) :
  find_entry x es = None -> put_entry x n es = es ++ [(x, n)].
Proof.
  induction es as [|[y m] es IH]; simpl; [reflexivity|].
  destruct (String.eqb x y); [discriminate|]. intros H. rewrite (IH H). reflexivity.
Qed.

Lemma remove_entry_absent (x : name) (es : entries) :
  find_entry x es = None -> remove_entry x es = es.
Proof.
  unfold remove_entry. induction es as [|[y m] es IH]; simpl; [reflexivity|].
  destruct (String.eqb x y); [discriminate|]. simpl. intros H. rewrite (IH H). reflexivity.
Qed.

Lemma find_entry_app (x : name) (es1 es2 : entries) :
  find_entry x (es1 ++ es2)
  = match find_entry x es1 with Some n => Some n | None => find_entry x es2 end.
Proof.
  induction es1 as [|[y m] es1 IH]; simpl; [reflexivity|].
  destruct (String.eqb x y); [reflexivity | exact IH].
Qed.

Lemma find_entry_not_in (x : name) (es : entries) :
  ~ In x (map fst es) -> find_entry x es = None.
Proof.
  induction es as [|[y m] es IH]; simpl; [reflexivity|].
  intros H. destruct (String.eqb x y) eqn:E.
  - apply String.eqb_eq in E. subst y. contradiction H. left. reflexivity.
  - apply IH. intros Hin. apply H. right. exact Hin.
Qed.

Lemma mkdir_fresh (exist_ok : bool) (parent : path) (x : name) (t : node) :
  is_dir parent t = true ->
  exists_ (parent ++ [x]) t = false ->
  mkdir exist_ok (parent ++ [x]) t = Ret (insert (parent ++ [x]) (Dir []) t).
Proof.
  intros Hd Hx. destruct (is_dir_resolve _ _ Hd) as [es E].
  unfold mkdir, os_mkdir. unfold exists_ in Hx.
  rewrite (resolve_child _ x _ _ E) in *.
  destruct (find_entry x es); [discriminate|].
  rewrite split_last_app, E. reflexivity.
Qed.

Lemma mkdir_existing_dir (p : path) (t : node) :
  is_dir p t = true -> mkdir true p t = Ret t.
Proof.
  intros Hd. unfold mkdir, os_mkdir. pose proof Hd as Hd'. unfold is_dir in Hd'.
  destruct (resolve p t) as [[c|es]|e]; try discriminate.
  rewrite Hd. reflexivity.
Qed.

(** One item goes from the directory [p] to the directory [q] beside it. *)
Lemma shutil_move_between (p q : path) (x : name) (n : node)
      (rem dst_es : entries) (t : node) :
  diverge p q ->
  resolve p t = Ret (Dir ((x, n) :: rem)) ->
  find_entry x rem = None ->
  resolve q t = Ret (Dir dst_es) ->
  find_entry x dst_es = None ->
  exists t',
    shutil_move (p ++ [x]) q t = Ret t' /\
    resolve p t' = Ret (Dir rem) /\
    resolve q t' = Ret (Dir (dst_es ++ [(x, n)])).
Proof.
  intros D Hp Hrem Hq Hdst. pose proof D as [D1 D2].
  assert (Hd : is_dir q t = true) by (unfold is_dir; rewrite Hq; reflexivity).
  assert (Hne : path_eqb (p ++ [x]) q = false).
  { apply path_eqb_neq. intros E. rewrite <- E in D1.
    rewrite is_prefix_app in D1. discriminate. }
  assert (Hpre : is_prefix (p ++ [x]) q = false)
    by (apply is_prefix_child_false; exact D1).
  exists (rename (p ++ [x]) (q ++ [x]) n t).
  split.
  - unfold shutil_move. rewrite Hd, Hne, basename_app.
    unfold exists_. rewrite (resolve_child _ x _ _ Hq), Hdst.
    rewrite (resolve_child _ x _ _ Hp). simpl. rewrite String.eqb_refl.
    rewrite Hpre. reflexivity.
  - unfold rename, insert, remove. rewrite !split_last_app.
    assert (Hp1 : resolve p (modify_dir p (remove_entry x) t) = Ret (Dir rem)).
    { rewrite (resolve_modify_dir_same _ _ _ _ Hp). unfold remove_entry. simpl.
      rewrite String.eqb_refl. simpl.
      fold (remove_entry x rem). rewrite (remove_entry_absent _ _ Hrem). reflexivity. }
    assert (Hq1 : resolve q (modify_dir p (remove_entry x) t) = Ret (Dir dst_es))
      by (rewrite (resolve_modify_dir_diverge _ _ _ _ D); exact Hq).
    split.
    + rewrite (resolve_modify_dir_diverge _ _ _ _ (diverge_sym _ _ D)). exact Hp1.
    + rewrite (resolve_modify_dir_same _ _ _ _ Hq1).
      rewrite (put_entry_absent _ _ _ Hdst). reflexivity.
Qed.

(** The loop of [lock_folder] or [unlock_folder] between two directories
    that lie beside each other, when no name is taken at the destination:
    every item is moved, in order, and nothing is printed. *)
Lemma move_items_between (warn : name -> exn -> message) (p q : path)
      (es dst_es : entries) (count : Z) (w : world) :
  diverge p q ->
  resolve p (fs w) = Ret (Dir es) ->
  NoDup (map fst es) ->
  resolve q (fs w) = Ret (Dir dst_es) ->
  (forall x, In x (map fst es) -> find_entry x dst_es = None) ->
  exists t',
    move_items warn (map (fun e => p ++ [fst e]) es) q count w
    = (Ret (count + Z.of_nat (List.length es)), with_fs t' w) /\
    resolve p t' = Ret (Dir []) /\
    resolve q t' = Ret (Dir (dst_es ++ es)) /\
    (forall r c, resolve r (fs w) = Ret (File c) -> is_prefix p r = false ->
                 resolve r t' = Ret (File c)) /\
    (forall d, is_dir d (fs w) = true -> is_prefix p d = false ->
               is_dir d t' = true).
Proof.
  intros D. revert dst_es count w.
  induction es as [|[x n] rem IH]; intros dst_es count w Hp Hnd Hq Hfree.
  - exists (fs w). simpl. rewrite app_nil_r, Z.add_0_r.
    split; [destruct w; reflexivity|]. repeat split; try assumption.
    + intros r c H _. exact H.
    + intros d H _. exact H.
  - simpl in Hnd. apply NoDup_cons_iff in Hnd as [Hx Hnd].
    pose proof (find_entry_not_in _ _ Hx) as Hrem.
    assert (Hdst : find_entry x dst_es = None) by (apply Hfree; left; reflexivity).
    destruct (shutil_move_between p q x n rem dst_es (fs w) D Hp Hrem Hq Hdst)
      as (t1 & Hm & Hp1 & Hq1).
    assert (Hdq : is_dir q (fs w) = true) by (unfold is_dir; rewrite Hq; reflexivity).
    destruct (IH (dst_es ++ [(x, n)]) (count + 1) (with_fs t1 w) Hp1 Hnd Hq1)
      as (t' & Hrun & Hp' & Hq' & Hfiles & Hdirs).
    { intros y Hy. rewrite find_entry_app, (Hfree y (or_intror Hy)). simpl.
      destruct (String.eqb y x) eqn:E; [|reflexivity].
      apply String.eqb_eq in E. subst y. contradiction. }
    exists t'. split; [|split; [exact Hp'|split; [|split]]].
    + cbn [map fst move_items]. unfold bind at 1. unfold catch, bind at 1, update.
      rewrite Hm. cbv beta iota delta [ret]. rewrite Hrun.
      cbn [List.length]. f_equal. f_equal. lia.
    + rewrite Hq'. rewrite <- app_assoc. reflexivity.
    + intros r c Hr Hpr. apply Hfiles; [|exact Hpr]. cbn [fs with_fs].
      apply (shutil_move_keeps_file _ _ _ _ _ _ Hdq Hm Hr).
      apply is_prefix_child_false. exact Hpr.
    + intros d Hd Hpd. apply Hdirs; [|exact Hpd]. cbn [fs with_fs].
      apply (shutil_move_keeps_dir _ _ _ _ _ Hdq Hm Hd).
      apply is_prefix_child_false. exact Hpd.
Qed.

End Between.

(* ------------------------------------------------------------------ *)
(** ** Lock and unlock of a folder beside the configuration directory *)

Lemma sibling_subtree_not_prefix (c : path) (a b v : name) :
  String.eqb a b = false ->
  is_prefix ((c ++ [a]) ++ [v]) (c ++ [b]) = false.
Proof.
  intros H. induction c as [|x c IH]; simpl.
  - rewrite H. reflexivity.
  - rewrite String.eqb_refl. exact IH.
Qed.

Section RoundTrip.

Variable self : FolderLock.t.
Variable folder : path.
Hypothesis beside : diverge folder (config_dir self).

Lemma registry_file (t : node) (r : registry) :
  registry_is self t r -> resolve (lock_status_file self) t = Ret (File (StatusJson r)).
Proof.
  unfold registry_is, read_file.
  destruct (resolve (lock_status_file self) t) as [[c|es]|e]; try discriminate.
  intros H. apply Ret_inj in H. subst c. reflexivity.
Qed.

(** A save of the registry over an existing registry file: what it leaves
    beside and below the configuration directory. *)
Lemma save_status_effect (r0 rnew : registry) (w : world) :
  registry_is self (fs w) r0 ->
  exists t',
    save_status self rnew w
    = (Ret tt, with_saved (saved w ++ [lock_status_file self]) (with_fs t' w)) /\
    registry_is self t' rnew /\
    (forall q, diverge (config_dir self) q -> resolve q t' = resolve q (fs w)) /\
    (forall y q, String.eqb y "lock_status.json" = false ->
                 resolve (config_dir self ++ y :: q) t'
                 = resolve (config_dir self ++ y :: q) (fs w)).
Proof.
  intros Hr. pose proof (registry_file _ _ Hr) as Hf.
  pose proof (open_w_file _ _ _ Hf) as Ho.
  exists (write_open (lock_status_file self) (StatusJson rnew)
            (insert (lock_status_file self) (File (Raw [])) (fs w))).
  split; [unfold save_status, bind, update, json_dump; rewrite Ho; reflexivity|].
  split; [apply (read_after_write _ _ _ _ Ho)|].
  unfold lock_status_file in *.
  pose proof (resolve_parent_is_dir _ _ _ _ Hf) as Hd.
  destruct (is_dir_resolve _ _ Hd) as [es E].
  assert (E1 : resolve (config_dir self)
                 (insert (config_dir self ++ ["lock_status.json"]) (File (Raw [])) (fs w))
               = Ret (Dir (put_entry "lock_status.json" (File (Raw [])) es))).
  { unfold insert. rewrite split_last_app. apply resolve_modify_dir_same. exact E. }
  split.
  - intros q D. unfold write_open, insert. rewrite !split_last_app.
    rewrite !(resolve_modify_dir_diverge _ _ _ _ D). reflexivity.
  - intros y q Hy. unfold write_open. unfold insert at 1. rewrite split_last_app.
    rewrite (resolve_modify_dir_below _ q y _ _ _ E1)
      by (rewrite find_entry_put_entry, Hy; reflexivity).
    unfold insert. rewrite split_last_app.
    rewrite (resolve_modify_dir_below _ q y _ _ _ E)
      by (rewrite find_entry_put_entry, Hy; reflexivity).
    reflexivity.
Qed.

Lemma beside_hidden_dir : diverge folder (hidden_dir self).
Proof. apply diverge_below. exact beside. Qed.

Lemma beside_vault (v : name) : diverge folder (hidden_dir self ++ [v]).
Proof. apply diverge_below. exact beside_hidden_dir. Qed.

Lemma registry_not_below_vault (v : name) :
  is_prefix (hidden_dir self ++ [v]) (lock_status_file self) = false.
Proof. apply sibling_subtree_not_prefix. reflexivity. Qed.

Lemma user_file_not_below_vault (v : name) :
  is_prefix (hidden_dir self ++ [v]) (user_hash_file self) = false.
Proof. apply sibling_subtree_not_prefix. reflexivity. Qed.

Lemma credential_file (t : node) (c : stored_data) :
  user_credential_is self t c -> resolve (user_hash_file self) t = Ret (File (CredJson c)).
Proof.
  unfold user_credential_is, read_file.
  destruct (resolve (user_hash_file self) t) as [[c'|es]|e]; try discriminate.
  intros H. apply Ret_inj in H. subst c'. reflexivity.
Qed.

Lemma credential_of_file (t : node) (c : stored_data) :
  resolve (user_hash_file self) t = Ret (File (CredJson c)) -> user_credential_is self t c.
Proof. intros H. unfold user_credential_is, read_file. rewrite H. reflexivity. Qed.

(** A save of the registry leaves every other file with its content. *)
Lemma save_status_keeps_files (rnew : registry) (w w' : world) :
  save_status self rnew w = (Ret tt, w') ->
  forall q c, resolve q (fs w) = Ret (File c) -> q <> lock_status_file self ->
              resolve q (fs w') = Ret (File c).
Proof.
  intros H q c Hq Hne.
  apply save_status_inv in H as [(e & He & _)|(t1 & _ & Ho & ->)]; [discriminate|].
  assert (Hnp : is_prefix (lock_status_file self) q = false).
  { destruct (is_prefix (lock_status_file self) q) eqn:E; [|reflexivity].
    apply is_prefix_spec in E as [rest E]. subst q.
    destruct rest as [|x rest]; [rewrite app_nil_r in Hne; contradiction|].
    rewrite resolve_app in Hq. unfold open_w in Ho.
    destruct (resolve (lock_status_file self) (fs w)) as [[c0|es]|e];
      discriminate. }
  apply open_w_inv in Ho as [-> _].
  cbn [fs with_saved with_fs]. unfold write_open.
  apply resolve_insert_file; [|exact Hnp].
  apply resolve_insert_file; assumption.
Qed.

(** The lock of a folder beside the configuration directory: every entry
    goes to the vault, the folder is left empty, the entry is recorded. *)
Lemma lock_folder_seals_run (w : world) (c : stored_data) (p : str) (rest : list str)
      (r : registry) (es : entries) :
  resolve folder (fs w) = Ret (Dir es) ->
  NoDup (map fst es) ->
  is_dir (hidden_dir self) (fs w) = true ->
  exists_ (vault_of self folder w) (fs w) = false ->
  user_credential_is self (fs w) c -> stdin w = p :: rest -> accepts c p ->
  registry_is self (fs w) r -> Dict.mem folder r = false ->
  exists t1,
    lock_folder self folder w
    = (Ret true,
       with_out (out w ++ [LockedOk folder (Z.of_nat (List.length es))])
         (with_saved (saved w ++ [lock_status_file self])
            (with_fs t1 (with_ticks (S (S (ticks w))) (with_stdin rest w))))) /\
    resolve folder t1 = Ret (Dir []) /\
    resolve (vault_of self folder w) t1 = Ret (Dir es) /\
    registry_is self t1
      (Dict.set folder
         {| hidden_path := vault_of self folder w;
            locked_at := isoformat (clock w (S (ticks w)));
            items_count := Z.of_nat (List.length es) |} r) /\
    user_credential_is self t1 c /\
    (forall q d, resolve q (fs w) = Ret (File d) ->
                 is_prefix folder q = false -> q <> lock_status_file self ->
                 resolve q t1 = Ret (File d)).
Proof.
  intros Hf Hnd Hh Hfresh Hc Hin Hacc Hr Hm.
  assert (Hd : is_dir folder (fs w) = true) by (unfold is_dir; rewrite Hf; reflexivity).
  assert (Hnew : forall q, exists_ q (fs w) = true ->
                           is_prefix (vault_of self folder w) q = false)
    by (intros q Hq; apply (missing_not_prefix _ _ _ Hfresh Hq)).
  rewrite (lock_folder_reaches self folder w (with_stdin rest w) r Hd
             (authenticate_user_accepts self w c p rest Hc Hin Hacc) Hr Hm).
  unfold seal_and_commit.
  unfold bind at 1. unfold datetime_now at 1. cbv beta iota.
  cbn [clock ticks with_stdin].
  fold (vault_of self folder w). set (vault := vault_of self folder w) in *.
  (* the vault is made *)
  unfold bind at 1. unfold update at 1. cbn [fs with_ticks with_stdin].
  unfold vault, vault_of in Hfresh |- *.
  rewrite (mkdir_fresh false _ _ _ Hh Hfresh).
  fold (vault_of self folder w). fold vault. cbv beta iota.
  set (t0 := insert vault (Dir []) (fs w)).
  assert (D : diverge folder vault) by apply beside_vault.
  assert (Hf0 : resolve folder t0 = Ret (Dir es)).
  { unfold t0, vault, vault_of, insert. rewrite split_last_app.
    rewrite (resolve_modify_dir_diverge _ _ _ _ (diverge_sym _ _ beside_hidden_dir)).
    exact Hf. }
  assert (Hv0 : resolve vault t0 = Ret (Dir [])).
  { unfold t0, vault, vault_of. apply resolve_insert_same. exact Hh. }
  (* the listing *)
  unfold bind at 1. unfold try_ask at 1. cbn [fs with_fs].
  unfold iterdir at 1. rewrite Hf0. cbv beta iota.
  (* the loop *)
  unfold bind at 1.
  destruct (move_items_between CouldNotMove folder vault es [] 0
              (with_fs t0 (with_ticks (S (ticks w)) (with_stdin rest w)))
              D Hf0 Hnd Hv0 (fun _ _ => eq_refl))
    as (t1 & Hrun & Hf1 & Hv1 & Hfiles & _).
  rewrite Hrun. cbv beta iota.
  (* the clock, the save *)
  unfold bind at 1. unfold datetime_now at 1. cbv beta iota.
  cbn [clock ticks with_fs with_ticks with_stdin].
  assert (Hr0 : resolve (lock_status_file self) t0 = Ret (File (StatusJson r))).
  { apply (resolve_insert_file _ _ _ _ _ (registry_file _ _ Hr)).
    apply registry_not_below_vault. }
  assert (Hr1 : registry_is self t1 r).
  { unfold registry_is, read_file. rewrite (Hfiles _ _ Hr0); [reflexivity|].
    apply diverge_not_prefix_below. exact beside. }
  assert (Hc0 : resolve (user_hash_file self) t0 = Ret (File (CredJson c))).
  { apply (resolve_insert_file _ _ _ _ _ (credential_file _ _ Hc)).
    apply user_file_not_below_vault. }
  assert (Hc1 : resolve (user_hash_file self) t1 = Ret (File (CredJson c))).
  { apply (Hfiles _ _ Hc0). apply diverge_not_prefix_below. exact beside. }
  destruct (save_status_effect r
              (Dict.set folder
                 {| hidden_path := vault;
                    locked_at := isoformat (clock w (S (ticks w)));
                    items_count := 0 + Z.of_nat (List.length es) |} r)
              (with_ticks (S (S (ticks w)))
                 (with_fs t1 (with_fs t0 (with_ticks (S (ticks w)) (with_stdin rest w)))))
              Hr1)
    as (t2 & Hsave & Hreg2 & Hbeside2 & Hbelow2).
  rewrite (bind_Ret _ _ _ _ _ Hsave).
  cbv beta iota delta [bind print ret].
  exists t2. rewrite Z.add_0_l in *.
  split; [reflexivity|].
  split.
  { rewrite (Hbeside2 _ (diverge_sym _ _ beside)). exact Hf1. }
  split.
  { unfold vault, vault_of, hidden_dir in *. rewrite <- app_assoc. simpl app.
    rewrite Hbelow2 by reflexivity.
    cbn [fs with_fs with_ticks]. rewrite <- app_assoc in Hv1. exact Hv1. }
  split; [exact Hreg2|].
  split.
  { apply credential_of_file. unfold user_hash_file in *.
    rewrite Hbelow2 by reflexivity. exact Hc1. }
  intros q d Hq Hpre Hne.
  apply (save_status_keeps_files _ _ _ Hsave q d); [|exact Hne].
  cbn [fs with_fs with_ticks]. apply Hfiles; [|exact Hpre].
  cbn [fs with_fs]. unfold t0. apply resolve_insert_file; [exact Hq|].
  apply Hnew. apply (resolve_exists _ _ _ Hq).
Qed.

Lemma rmdir_empty (parent : path) (v : name) (t : node) :
  resolve (parent ++ [v]) t = Ret (Dir []) ->
  rmdir (parent ++ [v]) t = Ret (remove (parent ++ [v]) t) /\
  exists_ (parent ++ [v]) (remove (parent ++ [v]) t) = false.
Proof.
  intros H. split.
  - unfold rmdir. rewrite H. destruct (parent ++ [v]) eqn:E; [|reflexivity].
    destruct parent; discriminate.
  - pose proof (resolve_parent_is_dir _ _ _ _ H) as Hd.
    destruct (is_dir_resolve _ _ Hd) as [es E].
    unfold exists_, remove. rewrite split_last_app.
    rewrite (resolve_child _ v _ _ (resolve_modify_dir_same _ _ _ _ E)).
    rewrite find_entry_remove_entry, String.eqb_refl. reflexivity.
Qed.

(** The unlock of a folder beside the configuration directory whose vault
    holds names that are free in the folder, from the tree [t0] that the
    [mkdir] of the folder leaves: every entry comes back, after the ones
    that are there, the vault is removed and the entry dropped. *)
Lemma unlock_folder_restores_from (w : world) (c : stored_data) (p : str)
      (rest : list str) (r : registry) (info : lock_info) (v : name)
      (es fes : entries) (t0 : node) :
  registry_is self (fs w) r ->
  Dict.get folder r = Some info ->
  hidden_path info = hidden_dir self ++ [v] ->
  exists_ (hidden_dir self ++ [v]) (fs w) = true ->
  user_credential_is self (fs w) c -> stdin w = p :: rest -> accepts c p ->
  mkdir true folder (fs w) = Ret t0 ->
  resolve (hidden_dir self ++ [v]) t0 = Ret (Dir es) ->
  NoDup (map fst es) ->
  resolve folder t0 = Ret (Dir fes) ->
  (forall x, In x (map fst es) -> find_entry x fes = None) ->
  exists t1,
    unlock_folder self folder w
    = (Ret true,
       with_out (out w ++ [UnlockedOk folder (Z.of_nat (List.length es))])
         (with_saved (saved w ++ [lock_status_file self])
            (with_fs t1 (with_stdin rest w)))) /\
    resolve folder t1 = Ret (Dir (fes ++ es)) /\
    exists_ (hidden_dir self ++ [v]) t1 = false /\
    registry_is self t1 (Dict.del folder r) /\
    user_credential_is self t1 c /\
    (forall q d, resolve q (fs w) = Ret (File d) ->
                 is_prefix (hidden_dir self ++ [v]) q = false ->
                 q <> lock_status_file self ->
                 resolve q t1 = Ret (File d)).
Proof.
  intros Hr Hg Hhp Hx0 Hc Hin Hacc Hmk Hv Hnd Hf Hfree.
  set (vault := hidden_dir self ++ [v]) in *.
  assert (Hx : exists_ (hidden_path info) (fs w) = true)
    by (rewrite Hhp; exact Hx0).
  rewrite (unlock_folder_reaches self folder w (with_stdin rest w) r info
             (authenticate_user_accepts self w c p rest Hc Hin Hacc) Hr Hg Hx).
  rewrite Hhp. unfold restore_and_commit.
  unfold bind at 1. unfold update at 1. cbn [fs with_stdin].
  rewrite Hmk. cbv beta iota.
  assert (Hr0 : resolve (lock_status_file self) t0 = Ret (File (StatusJson r)))
    by (apply (mkdir_keeps_file _ _ _ _ _ _ Hmk), registry_file; exact Hr).
  assert (Hc0 : resolve (user_hash_file self) t0 = Ret (File (CredJson c)))
    by (apply (mkdir_keeps_file _ _ _ _ _ _ Hmk), credential_file; exact Hc).
  unfold bind at 1. unfold try_ask at 1. cbn [fs with_fs].
  unfold iterdir at 1. rewrite Hv. cbv beta iota.
  assert (D : diverge vault folder) by (apply diverge_sym, beside_vault).
  unfold bind at 1.
  destruct (move_items_between CouldNotRestore vault folder es fes 0
              (with_fs t0 (with_stdin rest w)) D Hv Hnd Hf Hfree)
    as (t1 & Hrun & Hv1 & Hf1 & Hfiles & _).
  rewrite Hrun. cbv beta iota.
  (* the vault directory goes *)
  destruct (rmdir_empty _ _ _ Hv1) as [Hrm Hgone]. fold vault in Hrm, Hgone.
  unfold bind at 1. unfold catch, update. cbn [fs with_fs].
  rewrite Hrm. cbv beta iota.
  set (t2 := remove vault t1) in *.
  assert (Hr2 : registry_is self t2 r).
  { unfold registry_is, read_file, t2.
    rewrite (resolve_remove_file _ _ _ (StatusJson r)); [reflexivity| |].
    - apply Hfiles; [exact Hr0|]. apply registry_not_below_vault.
    - apply registry_not_below_vault. }
  assert (Hc2 : resolve (user_hash_file self) t2 = Ret (File (CredJson c))).
  { unfold t2. apply resolve_remove_file.
    - apply Hfiles; [exact Hc0|]. apply user_file_not_below_vault.
    - apply user_file_not_below_vault. }
  assert (Hf2 : resolve folder t2 = Ret (Dir (fes ++ es))).
  { unfold t2, vault, remove. rewrite split_last_app.
    rewrite (resolve_modify_dir_diverge _ _ _ _ (diverge_sym _ _ beside_hidden_dir)).
    exact Hf1. }
  destruct (save_status_effect r (Dict.del folder r)
              (with_fs t2 (with_fs t1 (with_fs t0 (with_stdin rest w)))) Hr2)
    as (t3 & Hsave & Hreg3 & Hbeside3 & Hbelow3).
  rewrite (bind_Ret _ _ _ _ _ Hsave).
  cbv beta iota delta [bind print ret].
  exists t3. rewrite Z.add_0_l.
  split; [reflexivity|].
  split.
  { rewrite (Hbeside3 _ (diverge_sym _ _ beside)). exact Hf2. }
  split.
  { unfold exists_ in *. unfold vault, hidden_dir in *.
    rewrite <- app_assoc. simpl app. rewrite Hbelow3 by reflexivity.
    cbn [fs with_fs]. rewrite <- app_assoc in Hgone. exact Hgone. }
  split; [exact Hreg3|].
  split.
  { apply credential_of_file. unfold user_hash_file in *.
    rewrite Hbelow3 by reflexivity. exact Hc2. }
  intros q d Hq Hpre Hne.
  apply (save_status_keeps_files _ _ _ Hsave q d); [|exact Hne].
  cbn [fs with_fs]. unfold t2. apply resolve_remove_file; [|exact Hpre].
  apply Hfiles; [|exact Hpre]. cbn [fs with_fs].
  apply (mkdir_keeps_file _ _ _ _ _ _ Hmk). exact Hq.
Qed.

(** The same when the folder is there. *)
Lemma unlock_folder_restores_run (w : world) (c : stored_data) (p : str)
      (rest : list str) (r : registry) (info : lock_info) (v : name)
      (es fes : entries) :
  registry_is self (fs w) r ->
  Dict.get folder r = Some info ->
  hidden_path info = hidden_dir self ++ [v] ->
  resolve (hidden_dir self ++ [v]) (fs w) = Ret (Dir es) ->
  NoDup (map fst es) ->
  resolve folder (fs w) = Ret (Dir fes) ->
  (forall x, In x (map fst es) -> find_entry x fes = None) ->
  user_credential_is self (fs w) c -> stdin w = p :: rest -> accepts c p ->
  exists t1,
    unlock_folder self folder w
    = (Ret true,
       with_out (out w ++ [UnlockedOk folder (Z.of_nat (List.length es))])
         (with_saved (saved w ++ [lock_status_file self])
            (with_fs t1 (with_stdin rest w)))) /\
    resolve folder t1 = Ret (Dir (fes ++ es)) /\
    exists_ (hidden_dir self ++ [v]) t1 = false /\
    registry_is self t1 (Dict.del folder r) /\
    user_credential_is self t1 c /\
    (forall q d, resolve q (fs w) = Ret (File d) ->
                 is_prefix (hidden_dir self ++ [v]) q = false ->
                 q <> lock_status_file self ->
                 resolve q t1 = Ret (File d)).
Proof.
  intros Hr Hg Hhp Hv Hnd Hf Hfree Hc Hin Hacc.
  assert (Hd : is_dir folder (fs w) = true) by (unfold is_dir; rewrite Hf; reflexivity).
  apply (unlock_folder_restores_from w c p rest r info v es fes (fs w)
           Hr Hg Hhp (resolve_exists _ _ _ Hv) Hc Hin Hacc
           (mkdir_existing_dir _ _ Hd) Hv Hnd Hf Hfree).
Qed.

(** An insertion beside a path does not show there. *)
Lemma resolve_insert_diverge (parent : path) (x : name) (n : node) (q : path) (t : node) :
  diverge (parent ++ [x]) q ->
  resolve q (insert (parent ++ [x]) n t) = resolve q t.
Proof.
  unfold insert. rewrite split_last_app.
  revert q t; induction parent as [|z parent IH]; intros q t [H1 H2].
  - destruct q as [|y q]; [discriminate|].
    destruct t as [c|es]; [reflexivity|]. cbn [app is_prefix] in H1.
    cbn [modify_dir resolve]. rewrite find_entry_put_entry.
    destruct (String.eqb y x) eqn:E; [|reflexivity].
    apply String.eqb_eq in E. subst y. rewrite String.eqb_refl in H1.
    destruct q; discriminate.
  - destruct q as [|y q]; [discriminate|].
    destruct t as [c|es]; [reflexivity|]. cbn [app is_prefix] in H1, H2.
    cbn [modify_dir resolve]. rewrite find_entry_map_entry.
    destruct (String.eqb y z) eqn:E; [|reflexivity].
    apply String.eqb_eq in E. subst y.
    rewrite ?String.eqb_refl in H1. rewrite ?String.eqb_refl in H2.
    cbn [andb] in H1, H2.
    destruct (find_entry z es) as [m|]; [|reflexivity]. cbn [option_map].
    apply IH. split; assumption.
Qed.

(** The unlock of a folder that is no longer there, in a directory that
    is: the folder is made again and the entries come back. *)
Lemma unlock_folder_recreates_run (w : world) (c : stored_data) (p : str)
      (rest : list str) (r : registry) (info : lock_info) (v : name)
      (es : entries) (parent : path) (x : name) :
  folder = parent ++ [x] ->
  is_dir parent (fs w) = true ->
  exists_ folder (fs w) = false ->
  registry_is self (fs w) r ->
  Dict.get folder r = Some info ->
  hidden_path info = hidden_dir self ++ [v] ->
  resolve (hidden_dir self ++ [v]) (fs w) = Ret (Dir es) ->
  NoDup (map fst es) ->
  user_credential_is self (fs w) c -> stdin w = p :: rest -> accepts c p ->
  exists t1,
    unlock_folder self folder w
    = (Ret true,
       with_out (out w ++ [UnlockedOk folder (Z.of_nat (List.length es))])
         (with_saved (saved w ++ [lock_status_file self])
            (with_fs t1 (with_stdin rest w)))) /\
    resolve folder t1 = Ret (Dir es) /\
    exists_ (hidden_dir self ++ [v]) t1 = false /\
    registry_is self t1 (Dict.del folder r) /\
    user_credential_is self t1 c /\
    (forall q d, resolve q (fs w) = Ret (File d) ->
                 is_prefix (hidden_dir self ++ [v]) q = false ->
                 q <> lock_status_file self ->
                 resolve q t1 = Ret (File d)).
Proof.
  intros Ef Hp Hx Hr Hg Hhp Hv Hnd Hc Hin Hacc.
  assert (Hmk : mkdir true folder (fs w) = Ret (insert folder (Dir []) (fs w))).
  { rewrite Ef in *. apply mkdir_fresh; assumption. }
  assert (Hv0 : resolve (hidden_dir self ++ [v]) (insert folder (Dir []) (fs w))
                = Ret (Dir es)).
  { pose proof (beside_vault v) as D. rewrite Ef in *.
    rewrite (resolve_insert_diverge _ _ _ _ _ D). exact Hv. }
  assert (Hf0 : resolve folder (insert folder (Dir []) (fs w)) = Ret (Dir [])).
  { rewrite Ef. apply resolve_insert_same. exact Hp. }
  apply (unlock_folder_restores_from w c p rest r info v es [] _
           Hr Hg Hhp (resolve_exists _ _ _ Hv) Hc Hin Hacc Hmk Hv0 Hnd Hf0
           (fun _ _ => eq_refl)).
Qed.

End RoundTrip.

(* ------------------------------------------------------------------ *)
(** ** What a lock that answers True has done *)

Section Sealing.

Variable self : FolderLock.t.

(** [authenticate_user] answers [True] only for a typed line that the
    stored user credential verifies. *)
Lemma authenticate_user_inv (w w' : world) :
  authenticate_user self w = (Ret true, w') ->
  exists c p rest,
    user_credential_is self (fs w) c /\ stdin w = p :: rest /\
    verify_password p c (with_stdin rest w) = (Ret true, with_stdin rest w) /\
    w' = with_stdin rest w.
Proof.
  unfold authenticate_user, load_credential, user_credential_is.
  cbv beta iota delta [bind ask try_ask getpass print ret raise].
  destruct (exists_ (user_hash_file self) (fs w)); cbv beta iota delta [negb].
  2:{ intros H. apply run_inj in H as [H _]. discriminate. }
  destruct (read_file (user_hash_file self) (fs w)) as [[c|reg|d]|e];
    cbv beta iota.
  3-4: intros H; apply run_inj in H as [H _]; discriminate.
  all: destruct (stdin w) as [|p rest]; cbv beta iota.
  1,3,4: intros H; apply run_inj in H as [H _]; discriminate.
  destruct (verify_password p c (with_stdin rest w)) as [[[|]|e] w2] eqn:E;
    pose proof (verify_password_world _ _ _ _ _ E) as Hw; subst w2; cbv beta iota;
    intros H; apply run_inj in H as [H <-]; try discriminate.
  exists c, p, rest. repeat split. exact E.
Qed.

(** The loop leaves its destination a directory. *)
Lemma move_items_keeps_dst (warn : name -> exn -> message) (items : list path)
      (dst : path) (n : Z) (w w' : world) (r : res Z) :
  move_items warn items dst n w = (r, w') ->
  is_dir dst (fs w) = true -> is_dir dst (fs w') = true.
Proof.
  revert n w; induction items as [|item rest IH]; intros n w H Hd.
  - cbn [move_items] in H. apply run_inj in H as [_ <-]. exact Hd.
  - cbn [move_items] in H. unfold bind at 1 in H. unfold catch, bind at 1, update in H.
    destruct (shutil_move item dst (fs w)) as [t'|e] eqn:Em.
    + cbv beta iota delta [ret] in H. apply (IH _ _ H). cbn [fs with_fs].
      apply (shutil_move_keeps_dst _ _ _ _ Hd Em).
    + cbv beta iota delta [print bind ret] in H. apply (IH _ _ H). exact Hd.
Qed.

(** A completed save of the registry leaves every directory a directory. *)
Lemma save_status_keeps_dirs (rnew : registry) (w w' : world) (d : path) :
  save_status self rnew w = (Ret tt, w') ->
  is_dir d (fs w) = true -> is_dir d (fs w') = true.
Proof.
  intros H Hd.
  apply save_status_inv in H as [(e & He & _)|(t1 & _ & Ho & ->)]; [discriminate|].
  assert (Hnp : is_prefix (lock_status_file self) d = false).
  { destruct (is_prefix (lock_status_file self) d) eqn:E; [|reflexivity].
    apply is_prefix_spec in E as [rest E]. subst d.
    unfold is_dir in Hd. rewrite resolve_app in Hd. unfold open_w in Ho.
    destruct (resolve (lock_status_file self) (fs w)) as [[c0|es]|e];
      try discriminate.
    destruct rest; discriminate. }
  apply open_w_inv in Ho as [-> _].
  cbn [fs with_saved with_fs]. unfold write_open.
  apply is_dir_insert; [|exact Hnp].
  apply is_dir_insert; assumption.
Qed.

(** The vault made by a lock that answers [True] is there afterwards. *)
Lemma seal_and_commit_vault (folder : path) (r : registry) (w1 w' : world) :
  seal_and_commit self folder r w1 = (Ret true, w') ->
  is_dir (hidden_dir self ++ [String.append (basename folder)
                                (String.append "_" (strftime_YmdHMS (clock w1 (ticks w1))))])
         (fs w') = true.
Proof.
  unfold seal_and_commit.
  unfold bind at 1. unfold datetime_now at 1.
  set (hidden := hidden_dir self ++ [String.append (basename folder)
                   (String.append "_" (strftime_YmdHMS (clock w1 (ticks w1))))]).
  unfold bind at 1. unfold update at 1. cbn [fs with_ticks].
  destruct (mkdir false hidden (fs w1)) as [t1|e] eqn:Em.
  2:{ intros H. apply run_inj in H as [H _]. discriminate. }
  pose proof (mkdir_makes_dir _ _ _ _ Em) as Hd1.
  unfold bind at 1. unfold try_ask at 1. cbn [fs with_fs].
  destruct (iterdir folder t1) as [items|e] eqn:Ei.
  2:{ intros H. apply run_inj in H as [H _]. discriminate. }
  unfold bind at 1.
  destruct (move_items CouldNotMove items hidden 0
              (with_fs t1 (with_ticks (S (ticks w1)) w1))) as [[n|e] w2] eqn:Emv.
  2:{ intros H. apply run_inj in H as [H _]. discriminate. }
  pose proof (move_items_keeps_dst _ _ _ _ _ _ _ Emv Hd1) as Hd2.
  unfold bind at 1. unfold datetime_now at 1.
  unfold bind at 1.
  match goal with
  | |- context [save_status self ?reg ?w] =>
      destruct (save_status self reg w) as [[[]|e] w3] eqn:Es
  end.
  2:{ intros H. apply run_inj in H as [H _]. discriminate. }
  pose proof (save_status_keeps_dirs _ _ _ hidden Es Hd2) as Hd3.
  cbv beta iota delta [bind print ret]. intros H.
  apply run_inj in H as [_ <-]. exact Hd3.
Qed.

End Sealing.

(** C6, as the code has it.  [lock_folder] stops at the first check
    that fails, printing what failed and answering [False], with the file
    tree (and the registry in it) untouched and nothing saved: a path that
    does not exist, a path that is no directory, a typed line that the
    stored user credential rejects, a folder already in the registry.
    With a registry file that holds a registry: whenever the call changes
    the tree, saves, or answers [True], the folder was a directory, the
    typed line was verified by the stored credential and the folder was
    not in the registry; and when it answers [True] the vault directory
    was made new and is there afterwards, the entry is inserted and the
    registry saved, once.  For a folder beside the configuration
    directory, with entries of distinct names and the vault name free, a
    lock whose three checks pass answers [True], leaves the folder empty
    and every entry in the vault, and records their number. *)
Theorem lock_folder_preconditions :
  forall (self : FolderLock.t) (folder : path) (w : world),
    (exists_ folder (fs w) = false ->
       lock_folder self folder w
       = (Ret false, with_out (out w ++ [FolderDoesNotExist folder]) w)) /\
    (exists_ folder (fs w) = true -> is_dir folder (fs w) = false ->
       lock_folder self folder w
       = (Ret false, with_out (out w ++ [NotAFolder folder]) w)) /\
    (forall c p rest,
       is_dir folder (fs w) = true ->
       user_credential_is self (fs w) c -> stdin w = p :: rest -> rejects c p ->
       lock_folder self folder w
       = (Ret false, with_out (out w ++ [AuthenticationFailed]) (with_stdin rest w))) /\
    (forall c p rest r,
       is_dir folder (fs w) = true ->
       user_credential_is self (fs w) c -> stdin w = p :: rest -> accepts c p ->
       registry_is self (fs w) r -> Dict.mem folder r = true ->
       lock_folder self folder w
       = (Ret false, with_out (out w ++ [AlreadyLocked]) (with_stdin rest w))) /\
    (registry_file_in_shape self (fs w) ->
     forall res w',
       lock_folder self folder w = (res, w') ->
       fs w' <> fs w \/ saved w' <> saved w \/ res = Ret true ->
       is_dir folder (fs w) = true /\
       (exists c p rest,
          user_credential_is self (fs w) c /\ stdin w = p :: rest /\
          verify_password p c (with_stdin rest w) = (Ret true, with_stdin rest w)) /\
       (exists r, registry_is self (fs w) r /\ Dict.mem folder r = false)) /\
    (registry_file_in_shape self (fs w) ->
     forall w',
       lock_folder self folder w = (Ret true, w') ->
       exists r info,
         registry_is self (fs w) r /\
         hidden_path info = vault_of self folder w /\
         exists_ (hidden_path info) (fs w) = false /\
         is_dir (hidden_path info) (fs w') = true /\
         0 <= items_count info /\
         registry_is self (fs w') (Dict.set folder info r) /\
         saved w' = saved w ++ [lock_status_file self]) /\
    (forall c p rest r es,
       diverge folder (config_dir self) ->
       resolve folder (fs w) = Ret (Dir es) -> NoDup (map fst es) ->
       is_dir (hidden_dir self) (fs w) = true ->
       exists_ (vault_of self folder w) (fs w) = false ->
       user_credential_is self (fs w) c -> stdin w = p :: rest -> accepts c p ->
       registry_is self (fs w) r -> Dict.mem folder r = false ->
       exists w' info,
         lock_folder self folder w = (Ret true, w') /\
         resolve folder (fs w') = Ret (Dir []) /\
         holds (vault_of self folder w) (fs w') es /\
         hidden_path info = vault_of self folder w /\
         items_count info = Z.of_nat (List.length es) /\
         registry_is self (fs w') (Dict.set folder info r) /\
         saved w' = saved w ++ [lock_status_file self] /\
         out w' = out w ++ [LockedOk folder (Z.of_nat (List.length es))]).
Proof.
  intros self folder w.
  split; [|split; [|split; [|split; [|split; [|split]]]]].
  - intros Hx. unfold lock_folder. unfold bind at 1. unfold ask at 1.
    rewrite Hx. reflexivity.
  - intros Hx Hd. unfold lock_folder. unfold bind at 1. unfold ask at 1.
    rewrite Hx. cbv beta iota delta [negb].
    unfold bind at 1. unfold ask at 1. rewrite Hd. reflexivity.
  - intros c p rest Hd Hc Hin Hrej. unfold lock_folder.
    unfold bind at 1. unfold ask at 1. rewrite (is_dir_exists _ _ Hd).
    cbv beta iota delta [negb].
    unfold bind at 1. unfold ask at 1. rewrite Hd.
    cbv beta iota delta [negb].
    rewrite (bind_Ret _ _ _ _ _ (authenticate_user_rejects self w c p rest Hc Hin Hrej)).
    reflexivity.
  - intros c p rest r Hd Hc Hin Hacc Hr Hm. unfold lock_folder.
    unfold bind at 1. unfold ask at 1. rewrite (is_dir_exists _ _ Hd).
    cbv beta iota delta [negb].
    unfold bind at 1. unfold ask at 1. rewrite Hd.
    cbv beta iota delta [negb].
    rewrite (bind_Ret _ _ _ _ _ (authenticate_user_accepts self w c p rest Hc Hin Hacc)).
    cbv beta iota delta [negb].
    assert (Hr1 : registry_is self (fs (with_stdin rest w)) r) by exact Hr.
    rewrite (bind_Ret _ _ _ _ _ (load_status_run self _ _ Hr1)).
    rewrite Hm. reflexivity.
  - intros _ res w' H Hchg.
    apply lock_folder_cases in H
      as [(Hfs & Hsv & Hres)|(Hd & w1 & r & Ha & Hr & Hm & _)].
    + destruct Hchg as [Hchg|[Hchg|Hchg]]; contradiction.
    + split; [exact Hd|]. split.
      * apply authenticate_user_inv in Ha as (c & p & rest & Hc & Hin & Hv & _).
        exists c, p, rest. repeat split; assumption.
      * exists r. split; assumption.
  - intros _ w' H.
    apply lock_folder_cases in H
      as [(_ & _ & Hres)|(_ & w1 & r & Ha & Hr & Hm & Hs)].
    + contradiction Hres. reflexivity.
    + destruct (authenticate_user_frame self _ _ _ Ha) as [Hfs Hsv].
      pose proof (seal_and_commit_vault self folder r w1 w' Hs) as Hvault.
      apply authenticate_user_inv in Ha as (c & p & rest & _ & _ & _ & Hw1).
      apply seal_and_commit_Ret in Hs
        as (info & msgs & Hhp & Hfresh & Hcount & Hreg & Hsaved & _).
      rewrite Hfs in Hfresh. rewrite Hsv in Hsaved.
      rewrite <- Hhp in Hvault.
      exists r, info. split; [exact Hr|]. split.
      { rewrite Hhp, Hw1. reflexivity. }
      repeat split; assumption.
  - intros c p rest r es D Hf Hnd Hh Hfresh Hc Hin Hacc Hr Hm.
    destruct (lock_folder_seals_run self folder D w c p rest r es
                Hf Hnd Hh Hfresh Hc Hin Hacc Hr Hm)
      as (t1 & Hrun & Hf1 & Hv1 & Hr1 & _).
    eexists. eexists. split; [exact Hrun|].
    cbn [fs saved out with_out with_saved with_fs].
    split; [exact Hf1|].
    split; [exists es; split; [exact Hv1 | apply Permutation_refl]|].
    split; [|split; [|split; [exact Hr1|split; reflexivity]]]; reflexivity.
Qed.

(** C6 on the scenario of the specification: [/tmp/x] with two files. *)
Lemma lock_folder_preconditions_witness :
  exists w' info,
    lock_folder tool ["tmp"; "x"]
      (world_of (installed admin0 user0 [] [] two_files) [secret1])
    = (Ret true, w') /\
    resolve ["tmp"; "x"] (fs w') = Ret (Dir []) /\
    holds vault_x (fs w') [a_txt; b_txt] /\
    items_count info = 2 /\
    registry_is tool (fs w') (Dict.set ["tmp"; "x"] info []).
Proof.
  assert (Hnd : NoDup (map fst [a_txt; b_txt])).
  { repeat constructor; simpl; intuition discriminate. }
  destruct (proj2 (proj2 (proj2 (proj2 (proj2 (proj2
              (lock_folder_preconditions tool ["tmp"; "x"]
                 (world_of (installed admin0 user0 [] [] two_files) [secret1])))))))
              user0 secret1 [] [] [a_txt; b_txt]
              (conj eq_refl eq_refl) eq_refl Hnd eq_refl eq_refl eq_refl eq_refl
              accepts_secret1 eq_refl eq_refl)
    as (w' & info & H1 & H2 & H3 & _ & H5 & H6 & _).
  exists w', info.
  exact (conj H1 (conj H2 (conj H3 (conj H5 H6)))).
Defined.

(** C6 as stated fails: a typed line that is not the password is not
    always turned down.  The password followed by a NUL character derives
    the same key, passes the authentication and locks the folder. *)
Lemma lock_folder_accepts_nul_suffix :
  secret1 ++ [0] <> secret1 /\
  user0 = credential_of secret1 zeros32 /\
  lock_folder tool ["tmp"; "x"]
    (world_of (installed admin0 user0 [] [] two_files) [secret1 ++ [0]])
  = (Ret true,
     world_at (installed admin0 user0 [entry_x ["tmp"; "x"] 2]
                 [("x_20240101_120000", Dir [a_txt; b_txt])]
                 [("x", Dir [])])
              [] 2 [LockedOk ["tmp"; "x"] 2] [lock_status_file tool]).
Proof.
  split; [discriminate|]. split; [reflexivity|].
  assert (Hacc : accepts user0 (secret1 ++ [0])).
  { intros w0.
    apply (verify_password_same_key_block (secret1 ++ [0]) (secret1 ++ [0]) secret1
             (hex zeros32) (hex zeros32) w0).
    - reflexivity.
    - apply encode_utf8_hex, zeros32_range.
    - apply key_block_zero_suffix. simpl. lia. }
  rewrite (lock_folder_reaches tool ["tmp"; "x"]
             (world_of (installed admin0 user0 [] [] two_files) [secret1 ++ [0]])
             (with_stdin [] (world_of (installed admin0 user0 [] [] two_files) [secret1 ++ [0]]))
             [] eq_refl
             (authenticate_user_accepts tool
                (world_of (installed admin0 user0 [] [] two_files) [secret1 ++ [0]])
                user0 (secret1 ++ [0]) [] eq_refl eq_refl Hacc)
             eq_refl eq_refl).
  lazy. reflexivity.
Qed.

(* ------------------------------------------------------------------ *)
(** ** Further properties of the code *)

(** X1.  Lock followed by unlock gives a folder back as it was.  For a
    directory beside the configuration directory (neither inside it nor
    above it) whose entries have distinct names, with the vault name free,
    the right user password typed twice and the folder not in the
    registry: [lock_folder] answers [True], empties the folder, puts every
    entry into the vault and records the count; the [unlock_folder] that
    follows answers [True] and leaves the folder holding exactly its
    original entries, the vault directory gone and the registry as it was
    before the lock.  (What a directory holds is stated whatever the order
    of its listing.) *)
Theorem lock_then_unlock_restores :
  forall (self : FolderLock.t) (folder : path) (w : world)
         (c : stored_data) (p1 p2 : str) (rest : list str)
         (r : registry) (es : entries),
    diverge folder (config_dir self) ->
    resolve folder (fs w) = Ret (Dir es) ->
    NoDup (map fst es) ->
    is_dir (hidden_dir self) (fs w) = true ->
    exists_ (vault_of self folder w) (fs w) = false ->
    user_credential_is self (fs w) c ->
    stdin w = p1 :: p2 :: rest -> accepts c p1 -> accepts c p2 ->
    registry_is self (fs w) r -> Dict.mem folder r = false ->
    exists w1 w2 info,
      lock_folder self folder w = (Ret true, w1) /\
      resolve folder (fs w1) = Ret (Dir []) /\
      holds (vault_of self folder w) (fs w1) es /\
      registry_is self (fs w1) (Dict.set folder info r) /\
      hidden_path info = vault_of self folder w /\
      items_count info = Z.of_nat (List.length es) /\
      unlock_folder self folder w1 = (Ret true, w2) /\
      holds folder (fs w2) es /\
      exists_ (vault_of self folder w) (fs w2) = false /\
      registry_is self (fs w2) r /\
      out w2 = out w ++ [LockedOk folder (Z.of_nat (List.length es));
                         UnlockedOk folder (Z.of_nat (List.length es))].
Proof.
  intros self folder w c p1 p2 rest r es D Hf Hnd Hh Hfresh Hc Hin Ha1 Ha2 Hr Hm.
  destruct (lock_folder_seals_run self folder D w c p1 (p2 :: rest) r es
              Hf Hnd Hh Hfresh Hc Hin Ha1 Hr Hm)
    as (t1 & Hlock & Hf1 & Hv1 & Hr1 & Hc1 & _).
  set (info := {| hidden_path := vault_of self folder w;
                  locked_at := isoformat (clock w (S (ticks w)));
                  items_count := Z.of_nat (List.length es) |}) in *.
  set (w1 := with_out (out w ++ [LockedOk folder (Z.of_nat (List.length es))])
               (with_saved (saved w ++ [lock_status_file self])
                  (with_fs t1 (with_ticks (S (S (ticks w))) (with_stdin (p2 :: rest) w))))) in *.
  destruct (unlock_folder_restores_run self folder D w1 c p2 rest
              (Dict.set folder info r) info _ es []
              Hr1 (get_set_same folder info r) eq_refl Hv1 Hnd Hf1
              (fun _ _ => eq_refl) Hc1 eq_refl Ha2)
    as (t2 & Hunlock & Hf2 & Hgone & Hr2 & _).
  rewrite (del_set_fresh folder info r Hm) in Hr2.
  eexists. eexists. exists info.
  split; [exact Hlock|]. split; [exact Hf1|].
  split; [exists es; split; [exact Hv1 | apply Permutation_refl]|].
  split; [exact Hr1|]. split; [reflexivity|]. split; [reflexivity|].
  split; [exact Hunlock|].
  split; [exists es; split; [exact Hf2 | apply Permutation_refl]|].
  split; [exact Hgone|].
  split; [exact Hr2|].
  cbn [out with_out with_saved with_fs with_stdin]. unfold w1.
  cbn [out with_out]. rewrite <- app_assoc. reflexivity.
Qed.

Lemma lock_then_unlock_restores_witness :
  exists w1 w2 info,
    lock_folder tool ["tmp"; "x"]
      (world_of (installed admin0 user0 [] [] two_files) [secret1; secret1])
    = (Ret true, w1) /\
    registry_is tool (fs w1) (Dict.set ["tmp"; "x"] info []) /\
    items_count info = 2 /\
    unlock_folder tool ["tmp"; "x"] w1 = (Ret true, w2) /\
    holds ["tmp"; "x"] (fs w2) [a_txt; b_txt] /\
    registry_is tool (fs w2) [].
Proof.
  assert (Hnd : NoDup (map fst [a_txt; b_txt])).
  { repeat constructor; simpl; intuition discriminate. }
  destruct (lock_then_unlock_restores tool ["tmp"; "x"]
              (world_of (installed admin0 user0 [] [] two_files) [secret1; secret1])
              user0 secret1 secret1 [] [] [a_txt; b_txt]
              (conj eq_refl eq_refl) eq_refl Hnd eq_refl eq_refl eq_refl eq_refl
              accepts_secret1 accepts_secret1 eq_refl eq_refl)
    as (w1 & w2 & info & H1 & _ & _ & H4 & _ & H6 & H7 & H8 & _ & H10 & _).
  exists w1, w2, info.
  exact (conj H1 (conj H4 (conj H6 (conj H7 (conj H8 H10))))).
Defined.

(** X2.  [unlock_folder] into a folder that is not empty.  For a folder
    beside the configuration directory that holds entries of its own, and a
    recorded vault under the hidden directory whose names are distinct and
    free in the folder, an unlock with the right user password answers
    [True], leaves the folder holding its own entries and those of the
    vault, removes the vault directory and drops the registry entry. *)
Theorem unlock_folder_merges :
  forall (self : FolderLock.t) (folder : path) (w : world)
         (c : stored_data) (p : str) (rest : list str)
         (r : registry) (info : lock_info) (v : name) (es fes : entries),
    diverge folder (config_dir self) ->
    registry_is self (fs w) r ->
    Dict.get folder r = Some info ->
    hidden_path info = hidden_dir self ++ [v] ->
    resolve (hidden_dir self ++ [v]) (fs w) = Ret (Dir es) ->
    NoDup (map fst es) ->
    resolve folder (fs w) = Ret (Dir fes) ->
    (forall x, In x (map fst es) -> find_entry x fes = None) ->
    user_credential_is self (fs w) c -> stdin w = p :: rest -> accepts c p ->
    exists w',
      unlock_folder self folder w = (Ret true, w') /\
      holds folder (fs w') (fes ++ es) /\
      exists_ (hidden_dir self ++ [v]) (fs w') = false /\
      registry_is self (fs w') (Dict.del folder r) /\
      Dict.mem folder (Dict.del folder r) = false /\
      out w' = out w ++ [UnlockedOk folder (Z.of_nat (List.length es))] /\
      saved w' = saved w ++ [lock_status_file self].
Proof.
  intros self folder w c p rest r info v es fes D Hr Hg Hhp Hv Hnd Hf Hfree Hc Hin Hacc.
  destruct (unlock_folder_restores_run self folder D w c p rest r info v es fes
              Hr Hg Hhp Hv Hnd Hf Hfree Hc Hin Hacc)
    as (t1 & Hrun & Hf1 & Hgone & Hr1 & _).
  eexists. split; [exact Hrun|].
  cbn [fs out saved with_out with_saved with_fs with_stdin].
  split; [exists (fes ++ es); split; [exact Hf1 | apply Permutation_refl]|].
  split; [exact Hgone|]. split; [exact Hr1|].
  split; [apply mem_del_same|]. split; reflexivity.
Qed.

Lemma unlock_folder_merges_witness :
  exists w',
    unlock_folder tool ["tmp"; "x"]
      (world_of (installed admin0 user0 [entry_x ["tmp"; "x"] 1]
                   [("x_20240101_120000", Dir [a_txt])]
                   [("x", Dir [b_txt])])
                [secret1])
    = (Ret true, w') /\
    holds ["tmp"; "x"] (fs w') ([b_txt] ++ [a_txt]).
Proof.
  assert (Hnd : NoDup (map fst [a_txt])).
  { repeat constructor; simpl; intuition discriminate. }
  assert (Hfree : forall x, In x (map fst [a_txt]) -> find_entry x [b_txt] = None).
  { intros x [<-|[]]. reflexivity. }
  destruct (unlock_folder_merges tool ["tmp"; "x"]
              (world_of (installed admin0 user0 [entry_x ["tmp"; "x"] 1]
                           [("x_20240101_120000", Dir [a_txt])]
                           [("x", Dir [b_txt])])
                        [secret1])
              user0 secret1 [] [entry_x ["tmp"; "x"] 1] (snd (entry_x ["tmp"; "x"] 1))
              "x_20240101_120000" [a_txt] [b_txt]
              (conj eq_refl eq_refl) eq_refl eq_refl eq_refl eq_refl Hnd eq_refl Hfree
              eq_refl eq_refl accepts_secret1)
    as (w' & H1 & H2 & _).
  exists w'. exact (conj H1 H2).
Defined.

(* ------------------------------------------------------------------ *)
(** ** Choosing a new password *)

Section NewPassword.

Lemma new_password_loop_sound (n : nat) :
  forall lines, (List.length lines <= n)%nat ->
    match new_password_loop lines with
    | (Ret p, rest, msgs) =>
        exists rejected,
          lines = rejected ++ p :: p :: rest /\
          rejected_pairs rejected msgs /\ 6 <= len p
    | (Raise e, rest, msgs) => e = EOFError /\ rest = []
    end.
Proof.
  induction n as [|n IH]; intros lines Hn.
  - destruct lines; [simpl; split; reflexivity | simpl in Hn; lia].
  - destruct lines as [|p [|q rest]]; try (simpl; split; reflexivity).
    cbn [new_password_loop].
    assert (Hrest : (List.length rest <= n)%nat) by (simpl in Hn; lia).
    specialize (IH rest Hrest).
    destruct (str_eqb p q) eqn:E; cbn [negb].
    + apply str_eqb_eq in E. subst q.
      destruct (len p <? 6) eqn:L.
      * apply Z.ltb_lt in L.
        destruct (new_password_loop rest) as [[[p'|e] rest'] msgs]; [|exact IH].
        destruct IH as (rej & -> & Hrej & Hlen).
        exists (p :: p :: rej). split; [reflexivity|].
        split; [apply rejected_short; assumption | exact Hlen].
      * apply Z.ltb_ge in L. exists []. split; [reflexivity|].
        split; [constructor | exact L].
    + assert (Hne : p <> q).
      { intros ->. rewrite str_eqb_refl in E. discriminate. }
      destruct (new_password_loop rest) as [[[p'|e] rest'] msgs]; [|exact IH].
      destruct IH as (rej & -> & Hrej & Hlen).
      exists (p :: q :: rej). split; [reflexivity|].
      split; [apply rejected_mismatch; assumption | exact Hlen].
Qed.

Lemma new_password_loop_complete (rejected : list str) (msgs : list message)
      (p : str) (rest : list str) :
  rejected_pairs rejected msgs -> 6 <= len p ->
  new_password_loop (rejected ++ p :: p :: rest) = (Ret p, rest, msgs).
Proof.
  intros Hrej Hlen. induction Hrej as [|a b l msgs Hne _ IH|a l msgs Hshort _ IH].
  - cbn [app new_password_loop]. rewrite str_eqb_refl. cbn [negb].
    destruct (len p <? 6) eqn:L; [apply Z.ltb_lt in L; lia | reflexivity].
  - cbn [app new_password_loop].
    destruct (str_eqb a b) eqn:E; [apply str_eqb_eq in E; contradiction|].
    cbn [negb]. rewrite IH. reflexivity.
  - cbn [app new_password_loop]. rewrite str_eqb_refl. cbn [negb].
    destruct (len a <? 6) eqn:L; [|apply Z.ltb_ge in L; lia].
    rewrite IH. reflexivity.
Qed.

End NewPassword.

(** X3.  The loop that asks for a new password (in [initial_setup],
    [change_user_password] and [change_admin_password]).  It reads the
    typed lines two at a time; a pair that differs is turned down with
    "Passwords don't match", a matching pair of fewer than six characters
    with "Password too short", and the first matching pair of six
    characters or more is the password.  So the password it returns was
    typed twice in a row and has at least six characters, every pair
    before it was turned down for one of the two reasons, and the only way
    it fails is [EOFError] when the input runs out.  It does not touch the
    file tree. *)
Theorem ask_new_password_spec :
  forall (w : world),
    (forall rejected msgs p rest,
       stdin w = rejected ++ p :: p :: rest ->
       rejected_pairs rejected msgs -> 6 <= len p ->
       ask_new_password w
       = (Ret p, with_out (out w ++ msgs) (with_stdin rest w))) /\
    (forall p w',
       ask_new_password w = (Ret p, w') ->
       exists rejected msgs,
         stdin w = rejected ++ p :: p :: stdin w' /\
         rejected_pairs rejected msgs /\ 6 <= len p /\
         out w' = out w ++ msgs /\ fs w' = fs w /\ saved w' = saved w) /\
    (forall e w',
       ask_new_password w = (Raise e, w') ->
       e = EOFError /\ stdin w' = [] /\ fs w' = fs w /\ saved w' = saved w).
Proof.
  intros w. split; [|split].
  - intros rejected msgs p rest Hin Hrej Hlen.
    apply ask_new_password_run. rewrite Hin.
    apply new_password_loop_complete; assumption.
  - intros p w' H. unfold ask_new_password in H.
    pose proof (new_password_loop_sound _ (stdin w) (le_n _)) as S.
    destruct (new_password_loop (stdin w)) as [[[q|e] rest] msgs].
    + apply run_Ret_inj in H as [-> <-].
      destruct S as (rej & S1 & S2 & S3).
      exists rej, msgs. repeat split; assumption.
    + apply run_inj in H as [H _]. discriminate.
  - intros e w' H. unfold ask_new_password in H.
    pose proof (new_password_loop_sound _ (stdin w) (le_n _)) as S.
    destruct (new_password_loop (stdin w)) as [[[q|e'] rest] msgs].
    + apply run_inj in H as [H _]. discriminate.
    + apply run_inj in H as [H <-]. apply Ret_inj_raise in H.
      destruct S as [-> ->]. subst e. repeat split.
Qed.

Lemma ask_new_password_spec_witness :
  ask_new_password
    (world_of (Dir []) [str_of_string "abc"; str_of_string "abd";
                        str_of_string "abc"; str_of_string "abc";
                        secret1; secret1; adminpw])
  = (Ret secret1,
     world_at (Dir []) [adminpw] 0 [PasswordsDontMatch; PasswordTooShort] []).
Proof.
  apply (proj1 (ask_new_password_spec
                  (world_of (Dir []) [str_of_string "abc"; str_of_string "abd";
                                      str_of_string "abc"; str_of_string "abc";
                                      secret1; secret1; adminpw]))
               [str_of_string "abc"; str_of_string "abd";
                str_of_string "abc"; str_of_string "abc"]
               [PasswordsDontMatch; PasswordTooShort] secret1 [adminpw]).
  - reflexivity.
  - apply rejected_mismatch; [discriminate|].
    apply rejected_short; [reflexivity | constructor].
  - discriminate.
Defined.

(* ------------------------------------------------------------------ *)
(** ** Changing a password *)

Section ChangePassword.

(** A credential written into a directory that is there: what the file
    holds afterwards, and what the write leaves alone. *)
Lemma save_credential_effect (parent : path) (x : name) (password : str)
      (pw : bytes) (w : world) :
  is_dir parent (fs w) = true ->
  is_dir (parent ++ [x]) (fs w) = false ->
  encode_utf8 password = Some pw ->
  exists t',
    save_credential (parent ++ [x]) password w
    = (Ret tt, with_saved (saved w ++ [parent ++ [x]])
                 (with_fs t' (with_drawn (drawn w + 32) w))) /\
    read_file (parent ++ [x]) t'
    = Ret (CredJson (credential_of pw (random_bytes 32 w))) /\
    (forall q c, resolve q (fs w) = Ret (File c) ->
                 is_prefix (parent ++ [x]) q = false ->
                 resolve q t' = Ret (File c)) /\
    (forall d, is_dir d (fs w) = true -> is_prefix (parent ++ [x]) d = false ->
               is_dir d t' = true).
Proof.
  intros Hd Hf He.
  exists (insert (parent ++ [x])
            (File (CredJson (credential_of pw (random_bytes 32 w))))
            (insert (parent ++ [x]) (File (Raw [])) (fs w))).
  split; [|split; [|split]].
  - unfold save_credential.
    unfold bind at 1. unfold update at 1. rewrite (open_w_in_dir _ _ _ Hd Hf).
    rewrite (bind_Ret _ _ _ _ _ (hash_password_fresh password pw _ He)).
    reflexivity.
  - unfold read_file. rewrite resolve_insert_same; [reflexivity|].
    apply is_dir_insert_parent. exact Hd.
  - intros q c Hq Hp. apply resolve_insert_file; [|exact Hp].
    apply resolve_insert_file; assumption.
  - intros d Hdd Hp. apply is_dir_insert; [|exact Hp].
    apply is_dir_insert; assumption.
Qed.

Variable self : FolderLock.t.

Lemma change_password_run (banner done : message) (x : name) (w : world)
      (p : str) (pw : bytes) (rest : list str) (msgs : list message) :
  is_dir (config_dir self) (fs w) = true ->
  is_dir (config_dir self ++ [x]) (fs w) = false ->
  new_password_loop (stdin w) = (Ret p, rest, msgs) ->
  encode_utf8 p = Some pw ->
  exists t',
    (print banner ;;
     new_pass <- ask_new_password ;;
     save_credential (config_dir self ++ [x]) new_pass ;;
     print done) w
    = (Ret tt,
       with_out (out w ++ [banner] ++ msgs ++ [done])
         (with_saved (saved w ++ [config_dir self ++ [x]])
            (with_fs t' (with_drawn (drawn w + 32) (with_stdin rest w))))) /\
    read_file (config_dir self ++ [x]) t'
    = Ret (CredJson (credential_of pw (random_bytes 32 w))) /\
    (forall q c, resolve q (fs w) = Ret (File c) ->
                 is_prefix (config_dir self ++ [x]) q = false ->
                 resolve q t' = Ret (File c)) /\
    (forall d, is_dir d (fs w) = true ->
               is_prefix (config_dir self ++ [x]) d = false ->
               is_dir d t' = true).
Proof.
  intros Hd Hf Hloop He.
  unfold bind at 1. unfold print at 1.
  set (w0 := with_out (out w ++ [banner]) w).
  assert (Hloop0 : new_password_loop (stdin w0) = (Ret p, rest, msgs)) by exact Hloop.
  rewrite (bind_Ret _ _ _ _ _ (ask_new_password_run _ _ _ _ Hloop0)).
  set (w1 := with_out (out w0 ++ msgs) (with_stdin rest w0)).
  destruct (save_credential_effect (config_dir self) x p pw w1 Hd Hf He)
    as (t' & Hrun & Hread & Hfiles & Hdirs).
  exists t'. rewrite (bind_Ret _ _ _ _ _ Hrun).
  split; [|split; [exact Hread | split; [exact Hfiles | exact Hdirs]]].
  unfold print, w1, w0.
  cbn [out saved drawn fs stdin with_out with_saved with_fs with_drawn with_stdin].
  rewrite <- !app_assoc. reflexivity.
Qed.

End ChangePassword.

(** X4.  [change_user_password] and [change_admin_password] with an
    accepted pair typed.  Where the configuration directory is there and
    the credential path is no directory, the call asks for nothing but the
    new password (no old password is asked), replaces that one credential
    file by a credential with a fresh salt (the next 32 bytes of
    [os.urandom], in hexadecimal) which accepts the new password, and
    leaves every other file with its content: the other credential and
    the registry in particular. *)
Theorem change_password_replaces_credential :
  forall (self : FolderLock.t) (w : world) (p : str) (pw : bytes)
         (rest : list str) (msgs : list message),
    is_dir (config_dir self) (fs w) = true ->
    new_password_loop (stdin w) = (Ret p, rest, msgs) ->
    encode_utf8 p = Some pw ->
    (is_dir (user_hash_file self) (fs w) = false ->
     exists w' c,
       change_user_password self w = (Ret tt, w') /\
       user_credential_is self (fs w') c /\
       salt c = hex (random_bytes 32 w) /\ accepts c p /\
       stdin w' = rest /\ saved w' = saved w ++ [user_hash_file self] /\
       out w' = out w ++ [UserPasswordBanner] ++ msgs ++ [UserPasswordChanged] /\
       (forall a, admin_credential_is self (fs w) a ->
                  admin_credential_is self (fs w') a) /\
       (forall r, registry_is self (fs w) r -> registry_is self (fs w') r) /\
       (forall q d, resolve q (fs w) = Ret (File d) ->
                    is_prefix (user_hash_file self) q = false ->
                    resolve q (fs w') = Ret (File d))) /\
    (is_dir (admin_hash_file self) (fs w) = false ->
     exists w' c,
       change_admin_password self w = (Ret tt, w') /\
       admin_credential_is self (fs w') c /\
       salt c = hex (random_bytes 32 w) /\ accepts c p /\
       stdin w' = rest /\ saved w' = saved w ++ [admin_hash_file self] /\
       out w' = out w ++ [AdminPasswordBanner] ++ msgs ++ [AdminPasswordChanged] /\
       (forall u, user_credential_is self (fs w) u ->
                  user_credential_is self (fs w') u) /\
       (forall r, registry_is self (fs w) r -> registry_is self (fs w') r) /\
       (forall q d, resolve q (fs w) = Ret (File d) ->
                    is_prefix (admin_hash_file self) q = false ->
                    resolve q (fs w') = Ret (File d))).
Proof.
  intros self w p pw rest msgs Hd Hloop He.
  assert (Hacc : accepts (credential_of pw (random_bytes 32 w)) p)
    by (apply accepts_credential_of; [exact He | apply random_bytes_range]).
  assert (Keep : forall (x y : name) (t' : node),
             String.eqb x y = false ->
             (forall q c, resolve q (fs w) = Ret (File c) ->
                          is_prefix (config_dir self ++ [x]) q = false ->
                          resolve q t' = Ret (File c)) ->
             forall c, read_file (config_dir self ++ [y]) (fs w) = Ret c ->
                       read_file (config_dir self ++ [y]) t' = Ret c).
  { intros x y t' Hxy Hfiles c Hr. unfold read_file in *.
    destruct (resolve (config_dir self ++ [y]) (fs w)) as [[c'|es]|e] eqn:E;
      try discriminate.
    rewrite (Hfiles _ _ E); [exact Hr|].
    clear - Hxy. induction (config_dir self) as [|z l IH]; simpl.
    - rewrite Hxy. reflexivity.
    - rewrite String.eqb_refl. exact IH. }
  split; intros Hf.
  - destruct (change_password_run self UserPasswordBanner UserPasswordChanged
                "user_hash.json" w p pw rest msgs Hd Hf Hloop He)
      as (t' & Hrun & Hread & Hfiles & _).
    eexists. exists (credential_of pw (random_bytes 32 w)).
    split; [exact Hrun|].
    cbn [fs stdin saved out with_out with_saved with_fs with_drawn with_stdin].
    split; [exact Hread|]. split; [reflexivity|]. split; [exact Hacc|].
    split; [reflexivity|]. split; [reflexivity|]. split; [reflexivity|].
    split; [|split].
    + intros a Ha. apply (Keep "user_hash.json" "admin_hash.json" t' eq_refl Hfiles _ Ha).
    + intros r Hr. apply (Keep "user_hash.json" "lock_status.json" t' eq_refl Hfiles _ Hr).
    + exact Hfiles.
  - destruct (change_password_run self AdminPasswordBanner AdminPasswordChanged
                "admin_hash.json" w p pw rest msgs Hd Hf Hloop He)
      as (t' & Hrun & Hread & Hfiles & _).
    eexists. exists (credential_of pw (random_bytes 32 w)).
    split; [exact Hrun|].
    cbn [fs stdin saved out with_out with_saved with_fs with_drawn with_stdin].
    split; [exact Hread|]. split; [reflexivity|]. split; [exact Hacc|].
    split; [reflexivity|]. split; [reflexivity|]. split; [reflexivity|].
    split; [|split].
    + intros u Hu. apply (Keep "admin_hash.json" "user_hash.json" t' eq_refl Hfiles _ Hu).
    + intros r Hr. apply (Keep "admin_hash.json" "lock_status.json" t' eq_refl Hfiles _ Hr).
    + exact Hfiles.
Qed.

Lemma change_password_replaces_credential_witness :
  exists w' c,
    change_user_password tool
      (world_of (installed admin0 user0 [] [] []) [adminpw; adminpw])
    = (Ret tt, w') /\
    user_credential_is tool (fs w') c /\ accepts c adminpw /\
    admin_credential_is tool (fs w') admin0.
Proof.
  destruct (proj1 (change_password_replaces_credential tool
                     (world_of (installed admin0 user0 [] [] []) [adminpw; adminpw])
                     adminpw adminpw [] [] eq_refl eq_refl eq_refl) eq_refl)
    as (w' & c & H1 & H2 & _ & H4 & _ & _ & _ & H8 & _).
  exists w', c.
  exact (conj H1 (conj H2 (conj H4 (H8 admin0 eq_refl)))).
Defined.

(** X5.  A new password that has no UTF-8 encoding (a lone surrogate)
    destroys the credential it was to replace: [change_user_password]
    opens the credential file for writing before it hashes, the hashing
    raises [UnicodeEncodeError], nothing is written, and the file is left
    empty.  From then on [authenticate_user] raises [JSONDecodeError]
    before it asks for a password. *)
Theorem change_user_password_unencodable :
  forall (self : FolderLock.t) (w : world) (c0 : stored_data) (p : str)
         (rest : list str) (msgs : list message),
    user_credential_is self (fs w) c0 ->
    new_password_loop (stdin w) = (Ret p, rest, msgs) ->
    encode_utf8 p = None ->
    exists w',
      change_user_password self w = (Raise UnicodeEncodeError, w') /\
      read_file (user_hash_file self) (fs w') = Ret (Raw []) /\
      saved w' = saved w /\
      (forall w2, fs w2 = fs w' ->
                  authenticate_user self w2 = (Raise JSONDecodeError, w2)).
Proof.
  intros self w c0 p rest msgs Hc Hloop He.
  assert (Hf : resolve (user_hash_file self) (fs w) = Ret (File (CredJson c0))).
  { unfold user_credential_is, read_file in Hc.
    destruct (resolve (user_hash_file self) (fs w)) as [[c|es]|e]; try discriminate.
    apply Ret_inj in Hc. subst c. reflexivity. }
  pose proof (resolve_parent_is_dir _ _ _ _ Hf) as Hd.
  unfold change_user_password.
  unfold bind at 1. unfold print at 1.
  set (w0 := with_out (out w ++ [UserPasswordBanner]) w).
  assert (Hloop0 : new_password_loop (stdin w0) = (Ret p, rest, msgs)) by exact Hloop.
  rewrite (bind_Ret _ _ _ _ _ (ask_new_password_run _ _ _ _ Hloop0)).
  set (w1 := with_out (out w0 ++ msgs) (with_stdin rest w0)).
  unfold bind at 1. unfold save_credential.
  unfold bind at 1. unfold update at 1.
  change (fs w1) with (fs w). rewrite (open_w_file _ _ _ Hf).
  unfold hash_password, generate_salt, os_urandom, encode.
  cbv beta iota delta [bind ret raise]. rewrite He.
  eexists. split; [reflexivity|].
  cbn [fs saved with_drawn with_fs with_out with_stdin].
  assert (Hread : read_file (user_hash_file self)
                    (insert (user_hash_file self) (File (Raw [])) (fs w))
                  = Ret (Raw [])).
  { unfold read_file, user_hash_file.
    rewrite (resolve_insert_same _ _ _ _ Hd). reflexivity. }
  split; [exact Hread|]. split; [reflexivity|].
  intros w2 Hw2. unfold authenticate_user.
  unfold bind at 1. unfold ask at 1. rewrite Hw2.
  rewrite (read_file_exists _ _ _ Hread). cbn [negb].
  unfold bind at 1. unfold load_credential, bind, try_ask.
  rewrite Hw2, Hread. reflexivity.
Qed.

Lemma change_user_password_unencodable_witness :
  exists w',
    change_user_password tool
      (world_of (installed admin0 user0 [] [] []) [surrogates; surrogates])
    = (Raise UnicodeEncodeError, w') /\
    read_file (user_hash_file tool) (fs w') = Ret (Raw []).
Proof.
  destruct (change_user_password_unencodable tool
              (world_of (installed admin0 user0 [] [] []) [surrogates; surrogates])
              user0 surrogates [] [] eq_refl eq_refl eq_refl)
    as (w' & H1 & H2 & _).
  exists w'. exact (conj H1 H2).
Defined.

(* ------------------------------------------------------------------ *)
(** ** The shape of a credential *)

Section CredentialShape.

Lemma hex_digit_chars (d : Z) :
  0 <= d < 16 ->
  48 <= hex_digit d <= 57 \/ 97 <= hex_digit d <= 102.
Proof. intros H. unfold hex_digit. destruct (d <? 10) eqn:E; lia. Qed.

Lemma hex_chars (bs : bytes) :
  Forall byte_range bs ->
  Forall (fun c => 48 <= c <= 57 \/ 97 <= c <= 102) (hex bs).
Proof.
  induction 1 as [|b bs Hb _ IH]; simpl; [constructor|].
  constructor; [apply hex_digit_chars, high_nibble; exact Hb|].
  constructor; [apply hex_digit_chars, low_nibble | exact IH].
Qed.

Lemma len_hex (bs : bytes) : len (hex bs) = 2 * Z.of_nat (List.length bs).
Proof. unfold len. rewrite hex_length. lia. Qed.

(** A stored hash of another length than 64 matches no derived key. *)
Lemma verify_password_wrong_length (p : str) (c : stored_data) (w w' : world) :
  len (hash c) <> 64 -> verify_password p c w <> (Ret true, w').
Proof.
  intros Hlen H.
  destruct (encode_utf8 p) as [pb|] eqn:Ep.
  - destruct (encode_utf8 (salt c)) as [sb|] eqn:Es.
    + rewrite (verify_password_run p c pb sb w Ep Es) in H.
      apply run_Ret_inj in H as [H _]. apply str_eqb_eq in H.
      apply Hlen. rewrite <- H, len_hex, pbkdf2_length. reflexivity.
    + unfold verify_password, hash_password, bind, ret, encode, raise in H.
      rewrite Ep, Es in H. apply run_inj in H as [H _]. discriminate.
  - unfold verify_password in H.
    rewrite (bind_Raise _ _ _ _ _ (hash_password_unencodable p (salt c) w Ep)) in H.
    apply run_inj in H as [H _]. discriminate.
Qed.

Lemma rejects_wrong_length (p : str) (c : stored_data) (pb sb : bytes) :
  encode_utf8 p = Some pb -> encode_utf8 (salt c) = Some sb ->
  len (hash c) <> 64 -> rejects c p.
Proof.
  intros Ep Es Hlen w. rewrite (verify_password_run p c pb sb w Ep Es).
  destruct (str_eqb (hex (Pbkdf2.pbkdf2_hmac_sha256 pb sb iterations)) (hash c)) eqn:E;
    [|reflexivity].
  apply str_eqb_eq in E. contradiction Hlen.
  rewrite <- E, len_hex, pbkdf2_length. reflexivity.
Qed.

End CredentialShape.

Lemma rejects_no_hash (p : str) (pb : bytes) :
  encode_utf8 p = Some pb -> rejects no_hash p.
Proof.
  intros Ep. apply (rejects_wrong_length p no_hash pb [] Ep eq_refl). discriminate.
Qed.

(** X6.  What [hash_password] stores.  A credential made with a fresh
    salt has a salt of 64 and a hash of 64 characters, all of them digits
    or the lower-case letters a to f; with a salt that is given, the salt
    is kept as given and the hash has the same shape.  And a stored hash
    that is not 64 characters long verifies for no password at all. *)
Theorem credential_shape :
  forall (password : str) (w w' : world) (d : stored_data),
    (hash_password password None w = (Ret d, w') ->
       len (salt d) = 64 /\ len (hash d) = 64 /\
       Forall (fun c => 48 <= c <= 57 \/ 97 <= c <= 102) (salt d) /\
       Forall (fun c => 48 <= c <= 57 \/ 97 <= c <= 102) (hash d)) /\
    (forall s, hash_password password (Some s) w = (Ret d, w') ->
       salt d = s /\ len (hash d) = 64 /\
       Forall (fun c => 48 <= c <= 57 \/ 97 <= c <= 102) (hash d) /\ w' = w) /\
    (len (hash d) <> 64 -> verify_password password d w <> (Ret true, w')).
Proof.
  intros password w w' d. split; [|split].
  - intros H. apply hash_password_fresh_inv in H as (pw & _ & -> & _).
    cbn [salt hash]. rewrite !len_hex, pbkdf2_length, random_bytes_length.
    repeat split; try reflexivity.
    + apply hex_chars, random_bytes_range.
    + apply hex_chars, pbkdf2_range.
  - intros s H.
    destruct (encode_utf8 password) as [pb|] eqn:Ep.
    + destruct (encode_utf8 s) as [sb|] eqn:Es.
      * rewrite (hash_password_salted password s pb sb w Ep Es) in H.
        apply run_Ret_inj in H as [<- <-]. cbn [salt hash].
        rewrite len_hex, pbkdf2_length.
        repeat split; try reflexivity. apply hex_chars, pbkdf2_range.
      * unfold hash_password, bind, ret, encode, raise in H.
        rewrite Ep, Es in H. apply run_inj in H as [H _]. discriminate.
    + rewrite (hash_password_unencodable password s w Ep) in H.
      apply run_inj in H as [H _]. discriminate.
  - apply verify_password_wrong_length.
Qed.

Lemma credential_shape_witness :
  len (salt (credential_of secret1 zeros32)) = 64 /\
  len (hash (credential_of secret1 zeros32)) = 64.
Proof.
  destruct (proj1 (credential_shape secret1
                     (world_of (Dir []) []) (with_drawn 32 (world_of (Dir []) []))
                     (credential_of secret1 zeros32))
                  (hash_password_fresh secret1 secret1 (world_of (Dir []) []) eq_refl))
    as (H1 & H2 & _).
  exact (conj H1 H2).
Defined.

(* ------------------------------------------------------------------ *)
(** ** The admin commands *)

Section Admin.

Variable self : FolderLock.t.

Lemma authenticate_admin_accepts (w : world) (c : stored_data) (p : str) (rest : list str) :
  admin_credential_is self (fs w) c ->
  stdin w = p :: rest ->
  accepts c p ->
  authenticate_admin self w
  = (Ret true, with_out (out w ++ [AdminModeActivated]) (with_stdin rest w)).
Proof.
  intros Hc Hin Hv. unfold authenticate_admin.
  unfold bind at 1. unfold ask at 1.
  rewrite (read_file_exists _ _ _ Hc). cbn [negb].
  rewrite (bind_Ret _ _ _ _ _ (load_credential_run _ _ _ Hc)).
  unfold bind at 1. unfold getpass at 1. rewrite Hin. cbv beta iota.
  rewrite (bind_Ret _ _ _ _ _ (Hv (with_stdin rest w))). reflexivity.
Qed.

Lemma authenticate_admin_rejects (w : world) (c : stored_data) (p : str) (rest : list str) :
  admin_credential_is self (fs w) c ->
  stdin w = p :: rest ->
  rejects c p ->
  authenticate_admin self w
  = (Ret false, with_out (out w ++ [AdminAuthenticationFailed]) (with_stdin rest w)).
Proof.
  intros Hc Hin Hv. unfold authenticate_admin.
  unfold bind at 1. unfold ask at 1.
  rewrite (read_file_exists _ _ _ Hc). cbn [negb].
  rewrite (bind_Ret _ _ _ _ _ (load_credential_run _ _ _ Hc)).
  unfold bind at 1. unfold getpass at 1. rewrite Hin. cbv beta iota.
  rewrite (bind_Ret _ _ _ _ _ (Hv (with_stdin rest w))). reflexivity.
Qed.

(** Whatever [authenticate_admin] answers, it leaves the file tree and the
    log of writes alone; and it answers [True] only for a typed line that
    the stored admin credential verifies. *)
Lemma authenticate_admin_inv (w w' : world) (r : res bool) :
  authenticate_admin self w = (r, w') ->
  fs w' = fs w /\ saved w' = saved w /\
  (r = Ret true ->
   exists c p rest,
     admin_credential_is self (fs w) c /\ stdin w = p :: rest /\
     verify_password p c (with_stdin rest w) = (Ret true, with_stdin rest w) /\
     w' = with_out (out w ++ [AdminModeActivated]) (with_stdin rest w)).
Proof.
  unfold authenticate_admin, load_credential, admin_credential_is.
  cbv beta iota delta [bind ask try_ask getpass print ret raise].
  destruct (exists_ (admin_hash_file self) (fs w)); cbv beta iota delta [negb].
  2:{ intros H. apply run_inj in H as [<- <-]. repeat split. discriminate. }
  destruct (read_file (admin_hash_file self) (fs w)) as [[c|reg|d]|e];
    cbv beta iota.
  3-4: intros H; apply run_inj in H as [<- <-]; repeat split; discriminate.
  all: destruct (stdin w) as [|p rest]; cbv beta iota.
  1,3,4: intros H; apply run_inj in H as [<- <-]; repeat split; discriminate.
  destruct (verify_password p c (with_stdin rest w)) as [[[|]|e] w2] eqn:E;
    pose proof (verify_password_world _ _ _ _ _ E) as Hw; subst w2; cbv beta iota;
    intros H; apply run_inj in H as [<- <-]; repeat split; try discriminate.
  intros _. exists c, p, rest. repeat split. exact E.
Qed.

End Admin.

(** X7.  [admin_mode] is closed without the admin password.  Whatever
    the sub-command: with no admin credential file it prints that the
    system is not configured, and with a typed line the admin credential
    rejects it prints that the authentication failed; in both cases it
    returns with the file tree untouched and reads nothing more.  And
    whenever a call of [admin_mode] changes the file tree or saves a file,
    the line typed first was verified by the stored admin credential. *)
Theorem admin_mode_gate :
  forall (self : FolderLock.t) (admin_cmd : option admin_command) (w : world),
    (exists_ (admin_hash_file self) (fs w) = false ->
       admin_mode self admin_cmd w
       = (Ret tt, with_out (out w ++ [NotConfigured]) w)) /\
    (forall c p rest,
       admin_credential_is self (fs w) c -> stdin w = p :: rest -> rejects c p ->
       admin_mode self admin_cmd w
       = (Ret tt, with_out (out w ++ [AdminAuthenticationFailed]) (with_stdin rest w))) /\
    (forall r w',
       admin_mode self admin_cmd w = (r, w') ->
       fs w' <> fs w \/ saved w' <> saved w ->
       exists c p rest,
         admin_credential_is self (fs w) c /\ stdin w = p :: rest /\
         verify_password p c (with_stdin rest w) = (Ret true, with_stdin rest w)).
Proof.
  intros self admin_cmd w. split; [|split].
  - intros Hx. unfold admin_mode, authenticate_admin.
    unfold bind at 1. unfold bind at 1. unfold ask at 1. rewrite Hx. reflexivity.
  - intros c p rest Hc Hin Hrej. unfold admin_mode.
    rewrite (bind_Ret _ _ _ _ _ (authenticate_admin_rejects self w c p rest Hc Hin Hrej)).
    reflexivity.
  - intros r w' H Hchg. unfold admin_mode in H. unfold bind at 1 in H.
    destruct (authenticate_admin self w) as [[[|]|e] w1] eqn:Ea;
      destruct (authenticate_admin_inv self _ _ _ Ea) as (Hfs & Hsv & Htrue).
    + destruct (Htrue eq_refl) as (c & p & rest & Hc & Hin & Hv & _).
      exists c, p, rest. repeat split; assumption.
    + cbv beta iota delta [negb ret] in H. apply run_inj in H as [_ <-].
      destruct Hchg as [Hchg|Hchg]; contradiction.
    + apply run_inj in H as [_ <-].
      destruct Hchg as [Hchg|Hchg]; contradiction.
Qed.

Lemma admin_mode_gate_witness :
  admin_mode tool (Some UnlockAll)
    (world_of (installed no_hash user0 [entry_x ["tmp"; "x"] 1]
                 [("x_20240101_120000", Dir [a_txt])] [("x", Dir [])])
              [secret1; yes])
  = (Ret tt,
     world_at (installed no_hash user0 [entry_x ["tmp"; "x"] 1]
                 [("x_20240101_120000", Dir [a_txt])] [("x", Dir [])])
              [yes] 0 [AdminAuthenticationFailed] []).
Proof.
  exact (proj1 (proj2 (admin_mode_gate tool (Some UnlockAll)
                  (world_of (installed no_hash user0 [entry_x ["tmp"; "x"] 1]
                     [("x_20240101_120000", Dir [a_txt])] [("x", Dir [])])
                     [secret1; yes])))
               no_hash secret1 [yes] eq_refl eq_refl
               (rejects_no_hash secret1 secret1 eq_refl)).
Defined.

(* ------------------------------------------------------------------ *)
(** ** The confirmation of unlock-all *)

Section Confirmation.

Lemma lower_char_y (a : Z) :
  (if (65 <=? a) && (a <=? 90) then a + 32 else a) = 121 <-> (a = 121 \/ a = 89).
Proof.
  destruct (65 <=? a) eqn:E1; destruct (a <=? 90) eqn:E2; cbn [andb];
    rewrite ?Z.leb_le, ?Z.leb_gt in *; lia.
Qed.

Lemma lower_char_e (a : Z) :
  (if (65 <=? a) && (a <=? 90) then a + 32 else a) = 101 <-> (a = 101 \/ a = 69).
Proof.
  destruct (65 <=? a) eqn:E1; destruct (a <=? 90) eqn:E2; cbn [andb];
    rewrite ?Z.leb_le, ?Z.leb_gt in *; lia.
Qed.

Lemma lower_char_s (a : Z) :
  (if (65 <=? a) && (a <=? 90) then a + 32 else a) = 115 <-> (a = 115 \/ a = 83).
Proof.
  destruct (65 <=? a) eqn:E1; destruct (a <=? 90) eqn:E2; cbn [andb];
    rewrite ?Z.leb_le, ?Z.leb_gt in *; lia.
Qed.

Lemma lower_yes (s : str) :
  str_eqb (lower s) (str_of_string "yes") = true <-> says_yes s.
Proof.
  rewrite str_eqb_eq. unfold says_yes, lower. split.
  - destruct s as [|a [|b [|c [|d s]]]]; cbn [map str_of_string];
      intros H; try discriminate.
    injection H as Ha Hb Hc.
    exists a, b, c. split; [reflexivity|].
    split; [apply lower_char_y; exact Ha|].
    split; [apply lower_char_e; exact Hb | apply lower_char_s; exact Hc].
  - intros (a & b & c & -> & Ha & Hb & Hc). cbn [map].
    apply lower_char_y in Ha. apply lower_char_e in Hb. apply lower_char_s in Hc.
    rewrite Ha, Hb, Hc. reflexivity.
Qed.

End Confirmation.

(** X8.  [unlock_all_folders] goes on only for a yes.  Any answer other
    than the three letters y, e, s, each in either case, cancels: the call
    prints that the operation is cancelled and returns without reading the
    registry, with the file tree untouched and nothing saved.  With no
    answer to read it raises [EOFError].  After a yes it reads the
    registry: on an empty registry it writes the empty registry back and
    reports that 0 folders were unlocked. *)
Theorem unlock_all_folders_confirmation :
  forall (self : FolderLock.t) (w : world),
    (stdin w = [] ->
       unlock_all_folders self w
       = (Raise EOFError, with_out (out w ++ [EmergencyBanner]) w)) /\
    (forall answer rest,
       stdin w = answer :: rest -> ~ says_yes answer ->
       unlock_all_folders self w
       = (Ret tt, with_out (out w ++ [EmergencyBanner; OperationCancelled])
                    (with_stdin rest w))) /\
    (forall answer rest,
       stdin w = answer :: rest -> says_yes answer ->
       registry_is self (fs w) [] ->
       exists w',
         unlock_all_folders self w = (Ret tt, w') /\
         registry_is self (fs w') [] /\
         saved w' = saved w ++ [lock_status_file self] /\
         out w' = out w ++ [EmergencyBanner; UnlockedCount 0] /\
         stdin w' = rest).
Proof.
  intros self w. split; [|split].
  - intros Hin. unfold unlock_all_folders.
    unfold bind at 1. unfold print at 1.
    unfold bind at 1. unfold getpass at 1. cbn [stdin with_out]. rewrite Hin.
    reflexivity.
  - intros answer rest Hin Hno. unfold unlock_all_folders.
    unfold bind at 1. unfold print at 1.
    unfold bind at 1. unfold getpass at 1. cbn [stdin with_out]. rewrite Hin.
    destruct (str_eqb (lower answer) (str_of_string "yes")) eqn:E.
    + apply lower_yes in E. contradiction.
    + cbn [negb]. unfold print, with_out, with_stdin.
      cbn [out fs stdin entropy drawn clock ticks saved].
      rewrite <- app_assoc. reflexivity.
  - intros answer rest Hin Hyes Hr. unfold unlock_all_folders.
    unfold bind at 1. unfold print at 1.
    unfold bind at 1. unfold getpass at 1. cbn [stdin with_out]. rewrite Hin.
    apply lower_yes in Hyes. rewrite Hyes. cbn [negb].
    set (w1 := with_stdin rest (with_out (out w ++ [EmergencyBanner]) w)).
    assert (Hr1 : registry_is self (fs w1) []) by exact Hr.
    rewrite (bind_Ret _ _ _ _ _ (load_status_run self _ _ Hr1)).
    cbn [unlock_entries]. unfold bind at 1. unfold ret at 1. cbn [fst snd].
    destruct (save_status_effect self [] [] w1 Hr1) as (t' & Hsave & Hreg & _).
    rewrite (bind_Ret _ _ _ _ _ Hsave).
    eexists. split; [reflexivity|].
    cbn [fs saved out stdin with_out with_saved with_fs with_stdin].
    split; [exact Hreg|]. split; [reflexivity|].
    unfold w1. cbn [out stdin with_out with_stdin].
    split; [rewrite <- app_assoc; reflexivity | reflexivity].
Qed.

Lemma unlock_all_folders_confirmation_witness :
  unlock_all_folders tool
    (world_of (installed admin0 user0 [entry_x ["tmp"; "x"] 1]
                 [("x_20240101_120000", Dir [a_txt])] [("x", Dir [])])
              [str_of_string "y"])
  = (Ret tt,
     world_at (installed admin0 user0 [entry_x ["tmp"; "x"] 1]
                 [("x_20240101_120000", Dir [a_txt])] [("x", Dir [])])
              [] 0 [EmergencyBanner; OperationCancelled] []).
Proof.
  apply (proj1 (proj2 (unlock_all_folders_confirmation tool
                  (world_of (installed admin0 user0 [entry_x ["tmp"; "x"] 1]
                     [("x_20240101_120000", Dir [a_txt])] [("x", Dir [])])
                     [str_of_string "y"])))
               (str_of_string "y") [] eq_refl).
  intros (a & b & c & H & _). discriminate H.
Defined.

(* ------------------------------------------------------------------ *)
(** ** The constructor, and the exit status of the script *)

Section Init.

Variable self : FolderLock.t.

Lemma with_fs_same (w : world) : with_fs (fs w) w = w.
Proof. destruct w; reflexivity. Qed.

(** With both directories there, the constructor changes nothing. *)
Lemma init_noop (w : world) :
  is_dir (config_dir self) (fs w) = true ->
  is_dir (hidden_dir self) (fs w) = true ->
  __init__ self w = (Ret tt, w).
Proof.
  intros Hc Hh. unfold __init__, bind, update.
  rewrite (mkdir_existing_dir _ _ Hc). cbn [fs with_fs].
  rewrite (mkdir_existing_dir _ _ Hh). destruct w; reflexivity.
Qed.

Lemma init_inv (w w' : world) :
  __init__ self w = (Ret tt, w') ->
  exists t1 t2,
    mkdir true (config_dir self) (fs w) = Ret t1 /\
    mkdir true (hidden_dir self) t1 = Ret t2 /\
    w' = with_fs t2 w.
Proof.
  unfold __init__, bind, update.
  destruct (mkdir true (config_dir self) (fs w)) as [t1|e] eqn:E1.
  2:{ intros H. apply run_inj in H as [H _]. discriminate. }
  cbn [fs with_fs].
  destruct (mkdir true (hidden_dir self) t1) as [t2|e] eqn:E2.
  2:{ intros H. apply run_inj in H as [H _]. discriminate. }
  intros H. apply run_inj in H as [_ <-].
  exists t1, t2. split; [reflexivity|]. split; [exact E2 | reflexivity].
Qed.

End Init.

(** X9.  The constructor [__init__].  Whenever it returns, the
    configuration directory and the hidden directory below it are
    directories, every file that was there has kept its content and every
    directory is still one, and a second run changes nothing.  Where the
    script directory is there and holds no [.config], it returns, and the
    new configuration directory holds the empty hidden directory and
    nothing else.  Where [.config] is a file it raises [FileExistsError]
    and leaves the tree alone. *)
Theorem init_directories :
  forall (self : FolderLock.t) (w : world),
    (forall w',
       __init__ self w = (Ret tt, w') ->
       is_dir (config_dir self) (fs w') = true /\
       is_dir (hidden_dir self) (fs w') = true /\
       (forall q c, resolve q (fs w) = Ret (File c) -> resolve q (fs w') = Ret (File c)) /\
       (forall d, is_dir d (fs w) = true -> is_dir d (fs w') = true) /\
       stdin w' = stdin w /\ out w' = out w /\ saved w' = saved w /\
       __init__ self w' = (Ret tt, w')) /\
    (is_dir (script_dir self) (fs w) = true ->
     exists_ (config_dir self) (fs w) = false ->
     exists w',
       __init__ self w = (Ret tt, w') /\
       resolve (config_dir self) (fs w') = Ret (Dir [(".locked_data", Dir [])])) /\
    (forall c,
       resolve (config_dir self) (fs w) = Ret (File c) ->
       __init__ self w = (Raise FileExistsError, w)).
Proof.
  intros self w. split; [|split].
  - intros w' H. apply init_inv in H as (t1 & t2 & H1 & H2 & ->).
    cbn [fs stdin out saved with_fs].
    assert (Hh : is_dir (hidden_dir self) t2 = true)
      by (apply (mkdir_makes_dir _ _ _ _ H2)).
    assert (Hc : is_dir (config_dir self) t2 = true).
    { apply (mkdir_keeps_dir _ _ _ _ _ H2). apply (mkdir_makes_dir _ _ _ _ H1). }
    split; [exact Hc|]. split; [exact Hh|].
    split; [|split].
    + intros q c Hq. apply (mkdir_keeps_file _ _ _ _ _ _ H2).
      apply (mkdir_keeps_file _ _ _ _ _ _ H1). exact Hq.
    + intros d Hd. apply (mkdir_keeps_dir _ _ _ _ _ H2).
      apply (mkdir_keeps_dir _ _ _ _ _ H1). exact Hd.
    + repeat split. apply init_noop; assumption.
  - intros Hs Hx. unfold __init__, bind, update.
    unfold config_dir in *. rewrite (mkdir_fresh true _ _ _ Hs Hx).
    cbn [fs with_fs].
    set (t1 := insert (script_dir self ++ [".config"]) (Dir []) (fs w)).
    assert (Hc1 : resolve (script_dir self ++ [".config"]) t1 = Ret (Dir []))
      by (apply resolve_insert_same; exact Hs).
    assert (Hd1 : is_dir (script_dir self ++ [".config"]) t1 = true)
      by (unfold is_dir; rewrite Hc1; reflexivity).
    assert (Hx1 : exists_ (hidden_dir self) t1 = false).
    { unfold exists_, hidden_dir, config_dir.
      rewrite (resolve_child _ ".locked_data" _ _ Hc1). reflexivity. }
    unfold hidden_dir, config_dir in *.
    rewrite (mkdir_fresh true _ _ _ Hd1 Hx1).
    eexists. split; [reflexivity|]. cbn [fs with_fs].
    unfold insert at 1. rewrite split_last_app.
    rewrite (resolve_modify_dir_same _ _ _ _ Hc1). reflexivity.
  - intros c Hc. unfold __init__, bind, update, mkdir, os_mkdir, is_dir.
    rewrite Hc. reflexivity.
Qed.

Lemma init_directories_witness :
  exists w',
    __init__ tool (world_of (Dir [("opt", Dir [("tool", Dir [])])]) []) = (Ret tt, w') /\
    resolve (config_dir tool) (fs w') = Ret (Dir [(".locked_data", Dir [])]).
Proof.
  exact (proj1 (proj2 (init_directories tool
                  (world_of (Dir [("opt", Dir [("tool", Dir [])])]) [])))
               eq_refl eq_refl).
Defined.

(** X10.  The exit status of the script says whether an exception
    escaped, not whether the command did its work.  With the two
    directories in place, for each of the commands: when the method
    returns, [True] or [False] alike, the status is 0 and nothing more is
    printed; when it raises, the error is printed and the status is 1. *)
Theorem main_exit_status :
  forall (script : path) (w : world),
    is_dir (config_dir {| script_dir := script |}) (fs w) = true ->
    is_dir (hidden_dir {| script_dir := script |}) (fs w) = true ->
    (forall folder b w',
       lock_folder {| script_dir := script |} folder w = (Ret b, w') ->
       main script (Lock folder) w = (Ret 0, w')) /\
    (forall folder b w',
       unlock_folder {| script_dir := script |} folder w = (Ret b, w') ->
       main script (Unlock folder) w = (Ret 0, w')) /\
    (forall b w',
       initial_setup {| script_dir := script |} w = (Ret b, w') ->
       main script Setup w = (Ret 0, w')) /\
    (forall c w',
       admin_mode {| script_dir := script |} c w = (Ret tt, w') ->
       main script (Admin c) w = (Ret 0, w')) /\
    (forall folder e w',
       lock_folder {| script_dir := script |} folder w = (Raise e, w') ->
       main script (Lock folder) w
       = (Ret 1, with_out (out w' ++ [TopLevelError e]) w')) /\
    (forall folder e w',
       unlock_folder {| script_dir := script |} folder w = (Raise e, w') ->
       main script (Unlock folder) w
       = (Ret 1, with_out (out w' ++ [TopLevelError e]) w')) /\
    (forall e w',
       initial_setup {| script_dir := script |} w = (Raise e, w') ->
       main script Setup w = (Ret 1, with_out (out w' ++ [TopLevelError e]) w')) /\
    (forall c e w',
       admin_mode {| script_dir := script |} c w = (Raise e, w') ->
       main script (Admin c) w = (Ret 1, with_out (out w' ++ [TopLevelError e]) w')).
Proof.
  intros script w Hc Hh.
  pose proof (init_noop _ w Hc Hh) as Hi.
  repeat split; intros; unfold main, catch;
    rewrite (bind_Ret _ _ _ _ _ Hi);
    first [ rewrite (bind_Ret _ _ _ _ _ H); reflexivity
          | rewrite (bind_Raise _ _ _ _ _ H); reflexivity ].
Qed.

Lemma main_exit_status_witness :
  main ["opt"; "tool"] (Lock ["tmp"; "x"])
    (world_of (installed admin0 no_hash [] [] two_files) [secret1])
  = (Ret 0,
     world_at (installed admin0 no_hash [] [] two_files) [] 0 [AuthenticationFailed] []).
Proof.
  apply (proj1 (main_exit_status ["opt"; "tool"]
                  (world_of (installed admin0 no_hash [] [] two_files) [secret1])
                  eq_refl eq_refl) ["tmp"; "x"] false).
  unfold lock_folder.
  unfold bind at 1. unfold ask at 1. cbn [negb].
  change (exists_ ["tmp"; "x"]
            (fs (world_of (installed admin0 no_hash [] [] two_files) [secret1])))
    with true. cbv beta iota delta [negb].
  unfold bind at 1. unfold ask at 1.
  change (is_dir ["tmp"; "x"]
            (fs (world_of (installed admin0 no_hash [] [] two_files) [secret1])))
    with true. cbv beta iota delta [negb].
  rewrite (bind_Ret _ _ _ _ _
             (authenticate_user_rejects tool
                (world_of (installed admin0 no_hash [] [] two_files) [secret1])
                no_hash secret1 [] eq_refl eq_refl
                (rejects_no_hash secret1 secret1 eq_refl))).
  reflexivity.
Defined.

(* ------------------------------------------------------------------ *)
(** ** The moving loop, item by item *)

Section MovingLoop.

Lemma remove_entry_mid (x : name) (n : node) (stay rem : entries) :
  find_entry x stay = None -> find_entry x rem = None ->
  remove_entry x (stay ++ (x, n) :: rem) = stay ++ rem.
Proof.
  intros Hs Hr. unfold remove_entry. rewrite filter_app. cbn [filter fst].
  rewrite String.eqb_refl. cbn [negb].
  fold (remove_entry x stay). fold (remove_entry x rem).
  rewrite (remove_entry_absent _ _ Hs), (remove_entry_absent _ _ Hr). reflexivity.
Qed.

(** One item, anywhere in the listing of [p], goes to the directory [q]
    beside it when its name is free there. *)
Lemma shutil_move_free (p q : path) (x : name) (n : node)
      (stay rem d : entries) (t : node) :
  diverge p q ->
  resolve p t = Ret (Dir (stay ++ (x, n) :: rem)) ->
  find_entry x stay = None -> find_entry x rem = None ->
  resolve q t = Ret (Dir d) ->
  find_entry x d = None ->
  exists t',
    shutil_move (p ++ [x]) q t = Ret t' /\
    resolve p t' = Ret (Dir (stay ++ rem)) /\
    resolve q t' = Ret (Dir (d ++ [(x, n)])).
Proof.
  intros D Hp Hstay Hrem Hq Hdst. pose proof D as [D1 D2].
  assert (Hd : is_dir q t = true) by (unfold is_dir; rewrite Hq; reflexivity).
  assert (Hne : path_eqb (p ++ [x]) q = false).
  { apply path_eqb_neq. intros E. rewrite <- E in D1.
    rewrite is_prefix_app in D1. discriminate. }
  assert (Hpre : is_prefix (p ++ [x]) q = false)
    by (apply is_prefix_child_false; exact D1).
  exists (rename (p ++ [x]) (q ++ [x]) n t).
  split.
  - unfold shutil_move. rewrite Hd, Hne, basename_app.
    unfold exists_. rewrite (resolve_child _ x _ _ Hq), Hdst.
    rewrite (resolve_child _ x _ _ Hp), find_entry_app, Hstay.
    cbn [find_entry]. rewrite String.eqb_refl.
    rewrite Hpre. reflexivity.
  - unfold rename, insert, remove. rewrite !split_last_app.
    assert (Hp1 : resolve p (modify_dir p (remove_entry x) t) = Ret (Dir (stay ++ rem))).
    { rewrite (resolve_modify_dir_same _ _ _ _ Hp).
      rewrite (remove_entry_mid _ _ _ _ Hstay Hrem). reflexivity. }
    assert (Hq1 : resolve q (modify_dir p (remove_entry x) t) = Ret (Dir d))
      by (rewrite (resolve_modify_dir_diverge _ _ _ _ D); exact Hq).
    split.
    + rewrite (resolve_modify_dir_diverge _ _ _ _ (diverge_sym _ _ D)). exact Hp1.
    + rewrite (resolve_modify_dir_same _ _ _ _ Hq1).
      rewrite (put_entry_absent _ _ _ Hdst). reflexivity.
Qed.

(** ... and is refused, with the tree as it was, when the name is taken. *)
Lemma shutil_move_taken (p q : path) (x : name) (m : node) (d : entries) (t : node) :
  diverge p q ->
  resolve q t = Ret (Dir d) ->
  find_entry x d = Some m ->
  shutil_move (p ++ [x]) q t = Raise ShutilError.
Proof.
  intros [D1 _] Hq Hdst.
  assert (Hd : is_dir q t = true) by (unfold is_dir; rewrite Hq; reflexivity).
  assert (Hne : path_eqb (p ++ [x]) q = false).
  { apply path_eqb_neq. intros E. rewrite <- E in D1.
    rewrite is_prefix_app in D1. discriminate. }
  unfold shutil_move. rewrite Hd, Hne, basename_app.
  unfold exists_. rewrite (resolve_child _ x _ _ Hq), Hdst. reflexivity.
Qed.

Lemma name_free_grown (d : entries) (x : name) (n : node) (e : name * node) :
  fst e <> x -> name_free (d ++ [(x, n)]) e = name_free d e.
Proof.
  intros Hne. unfold name_free. rewrite find_entry_app.
  destruct (find_entry (fst e) d); [reflexivity|].
  cbn [find_entry]. destruct (String.eqb (fst e) x) eqn:E; [|reflexivity].
  apply String.eqb_eq in E. contradiction.
Qed.

(** The loop over the listing of [p], with the entries [stay] that it has
    passed and left behind: the entries whose names are free in [q] go
    there, the others stay and are reported. *)
Lemma move_items_split (warn : name -> exn -> message) (p q : path) :
  diverge p q ->
  forall (todo stay d : entries) (count : Z) (w : world),
    resolve p (fs w) = Ret (Dir (stay ++ todo)) ->
    NoDup (map fst (stay ++ todo)) ->
    resolve q (fs w) = Ret (Dir d) ->
    exists t',
      move_items warn (map (fun e => p ++ [fst e]) todo) q count w
      = (Ret (count + Z.of_nat (List.length (filter (name_free d) todo))),
         with_out (out w ++ map (fun e => warn (fst e) ShutilError)
                              (filter (fun e => negb (name_free d e)) todo))
           (with_fs t' w)) /\
      resolve p t' = Ret (Dir (stay ++ filter (fun e => negb (name_free d e)) todo)) /\
      resolve q t' = Ret (Dir (d ++ filter (name_free d) todo)).
Proof.
  intros D. induction todo as [|[x n] todo IH]; intros stay d count w Hp Hnd Hq.
  - exists (fs w). cbn [map filter List.length move_items].
    rewrite !app_nil_r, Z.add_0_r in *.
    split; [destruct w; reflexivity|]. split; assumption.
  - rewrite map_app in Hnd. cbn [map fst] in Hnd.
    pose proof (NoDup_remove_2 _ _ _ Hnd) as Hx.
    pose proof (NoDup_remove_1 _ _ _ Hnd) as Hnd'.
    rewrite <- map_app in Hnd'.
    assert (Hstay : find_entry x stay = None)
      by (apply find_entry_not_in; intros H; apply Hx, in_or_app; left; exact H).
    assert (Hrem : find_entry x todo = None)
      by (apply find_entry_not_in; intros H; apply Hx, in_or_app; right; exact H).
    assert (Hother : forall e, In e todo -> fst e <> x).
    { intros e He E. apply Hx, in_or_app. right. rewrite <- E.
      apply in_map. exact He. }
    cbn [map fst move_items filter].
    destruct (find_entry x d) as [m|] eqn:Ed.
    + (* the name is taken *)
      assert (Hnf : name_free d (x, n) = false)
        by (unfold name_free; cbn [fst]; rewrite Ed; reflexivity).
      rewrite Hnf. cbn [negb].
      unfold bind at 1. unfold catch, bind at 1, update.
      rewrite (shutil_move_taken p q x m d (fs w) D Hq Ed).
      cbv beta iota delta [print bind ret]. rewrite basename_app.
      destruct (IH (stay ++ [(x, n)]) d count
                   (with_out (out w ++ [warn x ShutilError]) w))
        as (t' & Hrun & Hp' & Hq').
      { cbn [fs with_out]. rewrite <- app_assoc. exact Hp. }
      { rewrite <- app_assoc. cbn [app]. rewrite map_app. exact Hnd. }
      { exact Hq. }
      exists t'. rewrite Hrun. cbn [out with_out map fst].
      split; [|split; [|exact Hq']].
      * f_equal. unfold with_out, with_fs.
        cbn [fs stdin entropy drawn clock ticks out saved].
        rewrite <- app_assoc. reflexivity.
      * rewrite Hp', <- app_assoc. reflexivity.
    + (* the name is free *)
      assert (Hnf : name_free d (x, n) = true)
        by (unfold name_free; cbn [fst]; rewrite Ed; reflexivity).
      rewrite Hnf. cbn [negb].
      destruct (shutil_move_free p q x n stay todo d (fs w) D Hp Hstay Hrem Hq Ed)
        as (t1 & Hm & Hp1 & Hq1).
      unfold bind at 1. unfold catch, bind at 1, update.
      rewrite Hm. cbv beta iota delta [ret].
      destruct (IH stay (d ++ [(x, n)]) (count + 1) (with_fs t1 w) Hp1 Hnd' Hq1)
        as (t' & Hrun & Hp' & Hq').
      assert (Efree : filter (name_free (d ++ [(x, n)])) todo = filter (name_free d) todo).
      { apply filter_ext_in. intros e He. apply name_free_grown, Hother, He. }
      assert (Etaken : filter (fun e => negb (name_free (d ++ [(x, n)]) e)) todo
                       = filter (fun e => negb (name_free d e)) todo).
      { apply filter_ext_in. intros e He.
        rewrite (name_free_grown d x n e (Hother e He)). reflexivity. }
      rewrite Efree, Etaken in *.
      exists t'. rewrite Hrun. cbn [List.length].
      split; [|split; [exact Hp'|]].
      * replace (count + Z.of_nat (S (List.length (filter (name_free d) todo))))
          with (count + 1 + Z.of_nat (List.length (filter (name_free d) todo)))
          by lia.
        reflexivity.
      * rewrite Hq', <- app_assoc. reflexivity.
Qed.

End MovingLoop.

(** X11.  The loop that moves the items ([lock_folder] into the vault,
    [unlock_folder] back into the folder).  It always runs to its end,
    reads no input, does not read the clock and saves nothing, and the
    count it returns has grown by at most the number of items.  When the
    items are the listing of a directory and the destination is a
    directory beside it: an item whose name is free in the destination is
    moved there; an item whose name is taken there stays where it is and
    is reported by one warning that names it, with the error of
    [shutil.move]; the warnings come in the order of the listing; and the
    count returned (the [items_count] of the registry for a lock) has
    grown by the number of items moved. *)
Theorem move_items_accounting :
  forall (warn : name -> exn -> message) (items : list path) (dst : path)
         (count : Z) (w : world),
    (exists count' w',
       move_items warn items dst count w = (Ret count', w') /\
       count <= count' <= count + Z.of_nat (List.length items) /\
       stdin w' = stdin w /\ saved w' = saved w /\ ticks w' = ticks w) /\
    (forall (p : path) (es d : entries),
       items = map (fun e => p ++ [fst e]) es ->
       diverge p dst ->
       resolve p (fs w) = Ret (Dir es) -> NoDup (map fst es) ->
       resolve dst (fs w) = Ret (Dir d) ->
       exists w',
         move_items warn items dst count w
         = (Ret (count + Z.of_nat (List.length (filter (name_free d) es))), w') /\
         holds p (fs w') (filter (fun e => negb (name_free d e)) es) /\
         holds dst (fs w') (d ++ filter (name_free d) es) /\
         out w' = out w ++ map (fun e => warn (fst e) ShutilError)
                             (filter (fun e => negb (name_free d e)) es)).
Proof.
  intros warn items dst count w. split.
  - destruct (move_items_total warn items dst count w)
      as (n' & w' & Hrun & Hs & Hi & _ & Ht & _ & Hn).
    exists n', w'. repeat split; try assumption; lia.
  - intros p es d -> D Hp Hnd Hq.
    destruct (move_items_split warn p dst D es [] d count w Hp Hnd Hq)
      as (t' & Hrun & Hp' & Hq').
    eexists. split; [exact Hrun|].
    cbn [fs out with_out with_fs].
    split; [eexists; split; [exact Hp' | apply Permutation_refl]|].
    split; [eexists; split; [exact Hq' | apply Permutation_refl]|].
    reflexivity.
Qed.

Lemma move_items_accounting_witness :
  exists w',
    move_items CouldNotRestore [["tmp"; "x"; "a.txt"]; ["tmp"; "x"; "b.txt"]]
      ["tmp"; "y"] 0
      (world_of (Dir [("tmp", Dir [("x", Dir [a_txt; b_txt]);
                                   ("y", Dir [("a.txt", File (Raw [1]))])])]) [])
    = (Ret 1, w') /\
    holds ["tmp"; "x"] (fs w') [a_txt] /\
    holds ["tmp"; "y"] (fs w') [("a.txt", File (Raw [1])); b_txt] /\
    out w' = [CouldNotRestore "a.txt" ShutilError].
Proof.
  assert (Hnd : NoDup (map fst [a_txt; b_txt])).
  { repeat constructor; simpl; intuition discriminate. }
  exact (proj2 (move_items_accounting CouldNotRestore
                  [["tmp"; "x"; "a.txt"]; ["tmp"; "x"; "b.txt"]] ["tmp"; "y"] 0
                  (world_of (Dir [("tmp", Dir [("x", Dir [a_txt; b_txt]);
                                               ("y", Dir [("a.txt", File (Raw [1]))])])]) []))
               ["tmp"; "x"] [a_txt; b_txt] [("a.txt", File (Raw [1]))]
               eq_refl (conj eq_refl eq_refl) eq_refl Hnd eq_refl).
Defined.

(* ------------------------------------------------------------------ *)
(** ** What unlock_folder and lock_folder refuse *)

(** X12.  [unlock_folder] stops at the first check that fails and
    answers [False] with the file tree, and the registry in it, untouched
    and nothing saved: no user credential file, a user password the
    stored credential rejects, a folder that is not in the registry.
    Whenever it changes the tree, saves, or answers [True], the typed line
    was verified by the stored user credential, the registry held an
    entry for the folder and the vault that the entry records was
    there. *)
Theorem unlock_folder_refusals :
  forall (self : FolderLock.t) (folder : path) (w : world),
    (exists_ (user_hash_file self) (fs w) = false ->
       unlock_folder self folder w
       = (Ret false, with_out (out w ++ [NotConfigured]) w)) /\
    (forall c p rest,
       user_credential_is self (fs w) c -> stdin w = p :: rest -> rejects c p ->
       unlock_folder self folder w
       = (Ret false, with_out (out w ++ [AuthenticationFailed]) (with_stdin rest w))) /\
    (forall c p rest r,
       user_credential_is self (fs w) c -> stdin w = p :: rest -> accepts c p ->
       registry_is self (fs w) r -> Dict.get folder r = None ->
       unlock_folder self folder w
       = (Ret false, with_out (out w ++ [NotLocked]) (with_stdin rest w))) /\
    (forall res w',
       unlock_folder self folder w = (res, w') ->
       fs w' <> fs w \/ saved w' <> saved w \/ res = Ret true ->
       (exists w1, authenticate_user self w = (Ret true, w1)) /\
       (exists r info,
          registry_is self (fs w) r /\ Dict.get folder r = Some info /\
          exists_ (hidden_path info) (fs w) = true)).
Proof.
  intros self folder w. split; [|split; [|split]].
  - intros Hx. unfold unlock_folder.
    rewrite (bind_Ret _ _ _ _ _ (authenticate_user_not_configured self w Hx)).
    reflexivity.
  - intros c p rest Hc Hin Hrej. unfold unlock_folder.
    rewrite (bind_Ret _ _ _ _ _ (authenticate_user_rejects self w c p rest Hc Hin Hrej)).
    reflexivity.
  - intros c p rest r Hc Hin Hacc Hr Hg. unfold unlock_folder.
    rewrite (bind_Ret _ _ _ _ _ (authenticate_user_accepts self w c p rest Hc Hin Hacc)).
    cbv beta iota delta [negb].
    assert (Hr1 : registry_is self (fs (with_stdin rest w)) r) by exact Hr.
    rewrite (bind_Ret _ _ _ _ _ (load_status_run self _ _ Hr1)).
    rewrite Hg. reflexivity.
  - intros res w' H Hchg.
    apply unlock_folder_cases in H
      as [(Hfs & Hsv & Hres)|(w1 & r & info & Ha & Hr & Hg & Hx & _)].
    + destruct Hchg as [Hchg|[Hchg|Hchg]]; contradiction.
    + split; [exists w1; exact Ha|]. exists r, info. repeat split; assumption.
Qed.

Lemma unlock_folder_refusals_witness :
  unlock_folder tool ["tmp"; "x"]
    (world_of (installed admin0 user0 [] [] two_files) [secret1])
  = (Ret false,
     world_at (installed admin0 user0 [] [] two_files) [] 0 [NotLocked] []).
Proof.
  exact (proj1 (proj2 (proj2 (unlock_folder_refusals tool ["tmp"; "x"]
                  (world_of (installed admin0 user0 [] [] two_files) [secret1]))))
               user0 secret1 [] [] eq_refl eq_refl accepts_secret1 eq_refl eq_refl).
Defined.

(** X13.  A vault name that is taken.  [lock_folder] names the vault
    after the folder's last component and the second of the clock; when
    that name exists under the hidden directory (a folder of the same name
    locked within the same second, say), the [mkdir] of the vault raises
    [FileExistsError] after the password was accepted.  Nothing has been
    moved and nothing saved: the file tree is as it was. *)
Theorem lock_folder_vault_name_taken :
  forall (self : FolderLock.t) (folder : path) (w : world)
         (c : stored_data) (p : str) (rest : list str) (r : registry),
    is_dir folder (fs w) = true ->
    user_credential_is self (fs w) c -> stdin w = p :: rest -> accepts c p ->
    registry_is self (fs w) r -> Dict.mem folder r = false ->
    exists_ (vault_of self folder w) (fs w) = true ->
    lock_folder self folder w
    = (Raise FileExistsError, with_ticks (S (ticks w)) (with_stdin rest w)).
Proof.
  intros self folder w c p rest r Hd Hc Hin Hacc Hr Hm Hx.
  rewrite (lock_folder_reaches self folder w (with_stdin rest w) r Hd
             (authenticate_user_accepts self w c p rest Hc Hin Hacc) Hr Hm).
  unfold seal_and_commit.
  unfold bind at 1. unfold datetime_now at 1. cbv beta iota.
  cbn [clock ticks with_stdin].
  fold (vault_of self folder w).
  unfold bind at 1. unfold update at 1. cbn [fs with_ticks with_stdin].
  unfold mkdir, os_mkdir. unfold exists_ in Hx.
  destruct (resolve (vault_of self folder w) (fs w)) as [n|e]; [|discriminate].
  reflexivity.
Qed.

Lemma lock_folder_vault_name_taken_witness :
  lock_folder tool ["tmp"; "x"]
    (world_of (installed admin0 user0 [entry_x ["home"; "x"] 0]
                 [("x_20240101_120000", Dir [])] two_files)
              [secret1])
  = (Raise FileExistsError,
     world_at (installed admin0 user0 [entry_x ["home"; "x"] 0]
                 [("x_20240101_120000", Dir [])] two_files)
              [] 1 [] []).
Proof.
  exact (lock_folder_vault_name_taken tool ["tmp"; "x"]
           (world_of (installed admin0 user0 [entry_x ["home"; "x"] 0]
                        [("x_20240101_120000", Dir [])] two_files)
                     [secret1])
           user0 secret1 [] [entry_x ["home"; "x"] 0]
           eq_refl eq_refl eq_refl accepts_secret1 eq_refl eq_refl eq_refl).
Defined.

(** X14.  [unlock_folder] makes the folder again when it is gone.  For a
    locked folder beside the configuration directory that no longer
    exists, in a directory that does, with the recorded vault under the
    hidden directory holding entries of distinct names: an unlock with the
    right user password answers [True], the folder is there again and
    holds exactly the entries of the vault (whatever the order of its
    listing), the vault directory is gone and the registry entry
    dropped. *)
Theorem unlock_folder_recreates_folder :
  forall (self : FolderLock.t) (parent : path) (x : name) (w : world)
         (c : stored_data) (p : str) (rest : list str)
         (r : registry) (info : lock_info) (v : name) (es : entries),
    diverge (parent ++ [x]) (config_dir self) ->
    is_dir parent (fs w) = true ->
    exists_ (parent ++ [x]) (fs w) = false ->
    registry_is self (fs w) r ->
    Dict.get (parent ++ [x]) r = Some info ->
    hidden_path info = hidden_dir self ++ [v] ->
    resolve (hidden_dir self ++ [v]) (fs w) = Ret (Dir es) ->
    NoDup (map fst es) ->
    user_credential_is self (fs w) c -> stdin w = p :: rest -> accepts c p ->
    exists w',
      unlock_folder self (parent ++ [x]) w = (Ret true, w') /\
      holds (parent ++ [x]) (fs w') es /\
      exists_ (hidden_dir self ++ [v]) (fs w') = false /\
      registry_is self (fs w') (Dict.del (parent ++ [x]) r) /\
      out w' = out w ++ [UnlockedOk (parent ++ [x]) (Z.of_nat (List.length es))].
Proof.
  intros self parent x w c p rest r info v es D Hp Hx Hr Hg Hhp Hv Hnd Hc Hin Hacc.
  destruct (unlock_folder_recreates_run self (parent ++ [x]) D w c p rest r info v es
              parent x eq_refl Hp Hx Hr Hg Hhp Hv Hnd Hc Hin Hacc)
    as (t1 & Hrun & Hf & Hgone & Hreg & _).
  eexists. split; [exact Hrun|].
  cbn [fs out with_out with_saved with_fs].
  split; [exists es; split; [exact Hf | apply Permutation_refl]|].
  split; [exact Hgone|]. split; [exact Hreg | reflexivity].
Qed.

Lemma unlock_folder_recreates_folder_witness :
  exists w',
    unlock_folder tool ["tmp"; "x"]
      (world_of (installed admin0 user0 [entry_x ["tmp"; "x"] 1]
                   [("x_20240101_120000", Dir [a_txt])] [])
                [secret1])
    = (Ret true, w') /\
    holds ["tmp"; "x"] (fs w') [a_txt].
Proof.
  assert (Hnd : NoDup (map fst [a_txt])).
  { repeat constructor; simpl; intuition discriminate. }
  destruct (unlock_folder_recreates_folder tool ["tmp"] "x"
              (world_of (installed admin0 user0 [entry_x ["tmp"; "x"] 1]
                           [("x_20240101_120000", Dir [a_txt])] [])
                        [secret1])
              user0 secret1 [] [entry_x ["tmp"; "x"] 1]
              (snd (entry_x ["tmp"; "x"] 1)) "x_20240101_120000" [a_txt]
              (conj eq_refl eq_refl) eq_refl eq_refl eq_refl eq_refl eq_refl eq_refl
              Hnd eq_refl eq_refl accepts_secret1)
    as (w' & H1 & H2 & _).
  exists w'. exact (conj H1 H2).
Defined.

(* ------------------------------------------------------------------ *)
(** ** After the setup *)

Section AfterSetup.

Variable self : FolderLock.t.

(** A run of [initial_setup] on a tree with no admin credential file. *)
Lemma initial_setup_run (w : world)
      (admin_pass user_pass : str) (ab ub : bytes)
      (rest1 rest2 : list str) (msgs1 msgs2 : list message) :
  exists_ (admin_hash_file self) (fs w) = false ->
  is_dir (config_dir self) (fs w) = true ->
  is_dir (user_hash_file self) (fs w) = false ->
  is_dir (lock_status_file self) (fs w) = false ->
  new_password_loop (stdin w) = (Ret admin_pass, rest1, msgs1) ->
  new_password_loop rest1 = (Ret user_pass, rest2, msgs2) ->
  encode_utf8 admin_pass = Some ab ->
  encode_utf8 user_pass = Some ub ->
  exists w',
    initial_setup self w = (Ret true, w') /\
    admin_credential_is self (fs w') (credential_of ab (random_bytes 32 w)) /\
    user_credential_is self (fs w')
      (credential_of ub (random_bytes 32 (with_drawn (drawn w + 32) w))) /\
    registry_is self (fs w') [] /\
    out w' = out w ++ [SetupBanner] ++ msgs1 ++ msgs2 ++ [SetupComplete] /\
    stdin w' = rest2.
Proof.
  intros Hx Hd Hu Hl Ha Hb Hea Heu.
  unfold initial_setup.
  unfold bind at 1. unfold print at 1.
  unfold bind at 1. unfold ask at 1. cbn [fs with_out]. rewrite Hx.
  set (w0 := with_out (out w ++ [SetupBanner]) w).
  assert (Ha0 : new_password_loop (stdin w0) = (Ret admin_pass, rest1, msgs1)) by exact Ha.
  rewrite (bind_Ret _ _ _ _ _ (ask_new_password_run _ _ _ _ Ha0)).
  set (w1 := with_out (out w0 ++ msgs1) (with_stdin rest1 w0)).
  assert (Hb1 : new_password_loop (stdin w1) = (Ret user_pass, rest2, msgs2)) by exact Hb.
  rewrite (bind_Ret _ _ _ _ _ (ask_new_password_run _ _ _ _ Hb1)).
  set (w2 := with_out (out w1 ++ msgs2) (with_stdin rest2 w1)).
  assert (Hx2 : is_dir (admin_hash_file self) (fs w2) = false).
  { change (fs w2) with (fs w). unfold is_dir. unfold exists_ in Hx.
    destruct (resolve (admin_hash_file self) (fs w)); [discriminate | reflexivity]. }
  destruct (save_credential_run (config_dir self) "admin_hash.json" admin_pass ab w2
              Hd Hx2 Hea) as (w3 & R3 & F3 & S3 & D3 & E3 & I3 & O3).
  change (config_dir self ++ ["admin_hash.json"]) with (admin_hash_file self) in *.
  rewrite (bind_Ret _ _ _ _ _ R3).
  assert (Hd3 : is_dir (config_dir self) (fs w3) = true).
  { rewrite F3. unfold admin_hash_file.
    apply is_dir_insert_parent, is_dir_insert_parent. exact Hd. }
  assert (Hu3 : is_dir (user_hash_file self) (fs w3) = false).
  { rewrite F3. unfold user_hash_file, admin_hash_file.
    apply is_dir_insert_file_sibling; [apply is_dir_insert_parent; exact Hd|].
    apply is_dir_insert_file_sibling; [exact Hd | exact Hu]. }
  assert (Hl3 : is_dir (lock_status_file self) (fs w3) = false).
  { rewrite F3. unfold lock_status_file, admin_hash_file.
    apply is_dir_insert_file_sibling; [apply is_dir_insert_parent; exact Hd|].
    apply is_dir_insert_file_sibling; [exact Hd | exact Hl]. }
  assert (Ha3 : admin_credential_is self (fs w3) (credential_of ab (random_bytes 32 w))).
  { unfold admin_credential_is, read_file. rewrite F3. unfold admin_hash_file.
    rewrite resolve_insert_same; [reflexivity|].
    apply is_dir_insert_parent. exact Hd. }
  destruct (save_credential_run (config_dir self) "user_hash.json" user_pass ub w3
              Hd3 Hu3 Heu) as (w4 & R4 & F4 & S4 & D4 & E4 & I4 & O4).
  change (config_dir self ++ ["user_hash.json"]) with (user_hash_file self) in *.
  rewrite (bind_Ret _ _ _ _ _ R4).
  assert (Hd4 : is_dir (config_dir self) (fs w4) = true).
  { rewrite F4. unfold user_hash_file.
    apply is_dir_insert_parent, is_dir_insert_parent. exact Hd3. }
  assert (Hl4 : is_dir (lock_status_file self) (fs w4) = false).
  { rewrite F4. unfold lock_status_file, user_hash_file.
    apply is_dir_insert_file_sibling; [apply is_dir_insert_parent; exact Hd3|].
    apply is_dir_insert_file_sibling; [exact Hd3 | exact Hl3]. }
  unfold bind at 1. unfold update at 1.
  unfold lock_status_file in *. eexists.
  rewrite (open_w_in_dir _ _ _ Hd4 Hl4).
  cbv beta iota delta [bind json_dump print ret].
  split; [reflexivity|].
  cbn [fs saved stdin out with_fs with_saved with_out].
  assert (Hd5 : is_dir (config_dir self)
                  (insert (config_dir self ++ ["lock_status.json"]) (File (Raw [])) (fs w4)) = true)
    by (apply is_dir_insert_parent; exact Hd4).
  split; [|split; [|split; [|split]]].
  - unfold admin_credential_is, read_file, write_open, lock_status_file, admin_hash_file.
    rewrite (resolve_insert_sibling _ _ _ _ _ Hd5).
    rewrite (resolve_insert_sibling _ _ _ _ _ Hd4).
    rewrite F4. unfold user_hash_file.
    rewrite (resolve_insert_sibling _ _ _ _ _ (is_dir_insert_parent _ _ _ _ Hd3)).
    rewrite (resolve_insert_sibling _ _ _ _ _ Hd3).
    cbn [String.eqb Ascii.eqb Bool.eqb].
    unfold admin_credential_is, read_file, admin_hash_file in Ha3.
    destruct (resolve (config_dir self ++ ["admin_hash.json"]) (fs w3)) as [[c|es]|e];
      try discriminate.
    exact Ha3.
  - unfold user_credential_is, read_file, write_open, lock_status_file, user_hash_file.
    rewrite (resolve_insert_sibling _ _ _ _ _ Hd5).
    rewrite (resolve_insert_sibling _ _ _ _ _ Hd4).
    rewrite F4. unfold user_hash_file.
    rewrite (resolve_insert_sibling _ _ _ _ _ (is_dir_insert_parent _ _ _ _ Hd3)).
    cbn [String.eqb Ascii.eqb Bool.eqb].
    replace (random_bytes 32 w3) with (random_bytes 32 (with_drawn (drawn w + 32) w));
      [reflexivity|].
    unfold random_bytes. rewrite D3, E3. reflexivity.
  - unfold registry_is, read_file, write_open, lock_status_file.
    rewrite (resolve_insert_sibling _ _ _ _ _ Hd5).
    rewrite String.eqb_refl. reflexivity.
  - rewrite O4, O3. unfold w2, w1, w0. cbn [out with_out with_stdin].
    rewrite <- !app_assoc. reflexivity.
  - rewrite I4, I3. reflexivity.
Qed.

End AfterSetup.

(** X15.  What the setup leaves works.  After an [initial_setup] that
    ran on a tree without admin credential file (two accepted pairs typed,
    the configuration directory in place): [authenticate_user] answers
    [True] for the user password that was typed and [authenticate_admin]
    for the admin password; a second [initial_setup] prints that the
    system is configured and answers [False] without reading a line or
    changing the tree; and [unlock_folder] on any folder finds an empty
    registry and answers [False], not locked. *)
Theorem setup_then_use :
  forall (self : FolderLock.t) (w : world)
         (admin_pass user_pass : str) (ab ub : bytes)
         (rest1 rest2 : list str) (msgs1 msgs2 : list message),
    exists_ (admin_hash_file self) (fs w) = false ->
    is_dir (config_dir self) (fs w) = true ->
    is_dir (user_hash_file self) (fs w) = false ->
    is_dir (lock_status_file self) (fs w) = false ->
    new_password_loop (stdin w) = (Ret admin_pass, rest1, msgs1) ->
    new_password_loop rest1 = (Ret user_pass, rest2, msgs2) ->
    encode_utf8 admin_pass = Some ab ->
    encode_utf8 user_pass = Some ub ->
    exists w',
      initial_setup self w = (Ret true, w') /\
      out w' = out w ++ [SetupBanner] ++ msgs1 ++ msgs2 ++ [SetupComplete] /\
      (forall w2 rest, fs w2 = fs w' -> stdin w2 = user_pass :: rest ->
         authenticate_user self w2 = (Ret true, with_stdin rest w2)) /\
      (forall w2 rest, fs w2 = fs w' -> stdin w2 = admin_pass :: rest ->
         authenticate_admin self w2
         = (Ret true, with_out (out w2 ++ [AdminModeActivated]) (with_stdin rest w2))) /\
      (forall w2, fs w2 = fs w' ->
         initial_setup self w2
         = (Ret false, with_out (out w2 ++ [SetupBanner; AlreadyConfigured]) w2)) /\
      (forall w2 rest folder, fs w2 = fs w' -> stdin w2 = user_pass :: rest ->
         unlock_folder self folder w2
         = (Ret false, with_out (out w2 ++ [NotLocked]) (with_stdin rest w2))).
Proof.
  intros self w admin_pass user_pass ab ub rest1 rest2 msgs1 msgs2
         Hx Hd Hu Hl Ha Hb Hea Heu.
  destruct (initial_setup_run self w admin_pass user_pass ab ub rest1 rest2 msgs1 msgs2
              Hx Hd Hu Hl Ha Hb Hea Heu)
    as (w' & Hrun & Hadm & Husr & Hreg & Hout & _).
  assert (Hacc_u : accepts (credential_of ub (random_bytes 32 (with_drawn (drawn w + 32) w)))
                     user_pass)
    by (apply accepts_credential_of; [exact Heu | apply random_bytes_range]).
  assert (Hacc_a : accepts (credential_of ab (random_bytes 32 w)) admin_pass)
    by (apply accepts_credential_of; [exact Hea | apply random_bytes_range]).
  exists w'. split; [exact Hrun|]. split; [exact Hout|].
  split; [|split; [|split]].
  - intros w2 rest Hfs Hin. rewrite <- Hfs in Husr.
    apply (authenticate_user_accepts self w2 _ user_pass rest Husr Hin Hacc_u).
  - intros w2 rest Hfs Hin. rewrite <- Hfs in Hadm.
    apply (authenticate_admin_accepts self w2 _ admin_pass rest Hadm Hin Hacc_a).
  - intros w2 Hfs. unfold initial_setup.
    unfold bind at 1. unfold print at 1.
    unfold bind at 1. unfold ask at 1. cbn [fs with_out]. rewrite Hfs.
    rewrite (read_file_exists _ _ _ Hadm).
    unfold bind, print, ret, with_out.
    cbn [out fs stdin entropy drawn clock ticks saved].
    rewrite <- app_assoc. reflexivity.
  - intros w2 rest folder Hfs Hin. rewrite <- Hfs in Husr, Hreg.
    unfold unlock_folder.
    rewrite (bind_Ret _ _ _ _ _
               (authenticate_user_accepts self w2 _ user_pass rest Husr Hin Hacc_u)).
    cbv beta iota delta [negb].
    assert (Hr1 : registry_is self (fs (with_stdin rest w2)) []) by exact Hreg.
    rewrite (bind_Ret _ _ _ _ _ (load_status_run self _ _ Hr1)).
    reflexivity.
Qed.

Lemma setup_then_use_witness :
  exists w',
    initial_setup tool
      (world_of (Dir [("opt", Dir [("tool", Dir [(".config", Dir [(".locked_data", Dir [])])])])])
                [adminpw; adminpw; secret1; secret1])
    = (Ret true, w') /\
    authenticate_user tool (with_stdin [secret1] w') = (Ret true, with_stdin [] w').
Proof.
  destruct (setup_then_use tool
              (world_of (Dir [("opt", Dir [("tool", Dir [(".config", Dir [(".locked_data", Dir [])])])])])
                        [adminpw; adminpw; secret1; secret1])
              adminpw secret1 adminpw secret1 [secret1; secret1] [] [] []
              eq_refl eq_refl eq_refl eq_refl eq_refl eq_refl eq_refl eq_refl)
    as (w' & H1 & _ & H3 & _).
  exists w'. split; [exact H1|].
  exact (H3 (with_stdin [secret1] w') [] eq_refl eq_refl).
Defined.

(* ------------------------------------------------------------------ *)
(** ** The emergency unlock of one folder *)

Section EmergencyUnlock.

(** The loop of [unlock_all_folders] between two directories that lie
    beside each other, when no name is taken at the destination. *)
Lemma move_each_between (p q : path) (es dst_es : entries) (w : world) :
  diverge p q ->
  resolve p (fs w) = Ret (Dir es) ->
  NoDup (map fst es) ->
  resolve q (fs w) = Ret (Dir dst_es) ->
  (forall x, In x (map fst es) -> find_entry x dst_es = None) ->
  exists t',
    move_each (map (fun e => p ++ [fst e]) es) q w = (Ret tt, with_fs t' w) /\
    resolve p t' = Ret (Dir []) /\
    resolve q t' = Ret (Dir (dst_es ++ es)) /\
    (forall r c, resolve r (fs w) = Ret (File c) -> is_prefix p r = false ->
                 resolve r t' = Ret (File c)).
Proof.
  intros D. revert dst_es w.
  induction es as [|[x n] rem IH]; intros dst_es w Hp Hnd Hq Hfree.
  - exists (fs w). simpl. rewrite app_nil_r.
    split; [destruct w; reflexivity|]. repeat split; try assumption.
    intros r c H _. exact H.
  - simpl in Hnd. apply NoDup_cons_iff in Hnd as [Hx Hnd].
    pose proof (find_entry_not_in _ _ Hx) as Hrem.
    assert (Hdst : find_entry x dst_es = None) by (apply Hfree; left; reflexivity).
    destruct (shutil_move_between p q x n rem dst_es (fs w) D Hp Hrem Hq Hdst)
      as (t1 & Hm & Hp1 & Hq1).
    assert (Hdq : is_dir q (fs w) = true) by (unfold is_dir; rewrite Hq; reflexivity).
    destruct (IH (dst_es ++ [(x, n)]) (with_fs t1 w) Hp1 Hnd Hq1)
      as (t' & Hrun & Hp' & Hq' & Hfiles).
    { intros y Hy. rewrite find_entry_app, (Hfree y (or_intror Hy)). simpl.
      destruct (String.eqb y x) eqn:E; [|reflexivity].
      apply String.eqb_eq in E. subst y. contradiction. }
    exists t'. split; [|split; [exact Hp'|split]].
    + cbn [map fst move_each]. unfold bind at 1. unfold update at 1.
      rewrite Hm. rewrite Hrun. reflexivity.
    + rewrite Hq'. rewrite <- app_assoc. reflexivity.
    + intros r c Hr Hpr. apply Hfiles; [|exact Hpr]. cbn [fs with_fs].
      apply (shutil_move_keeps_file _ _ _ _ _ _ Hdq Hm Hr).
      apply is_prefix_child_false. exact Hpr.
Qed.

End EmergencyUnlock.

(** X16.  The emergency unlock gives a locked folder back without the
    user password.  With one folder in the registry, beside the
    configuration directory, its recorded vault under the hidden directory
    holding entries of distinct names that are free in the folder:
    [unlock_all_folders], once the answer is a yes, leaves the folder
    holding its own entries and those of the vault (whatever the order of
    its listing), removes the vault directory, writes the empty registry
    and reports one folder unlocked.  It reads the answer and nothing
    else. *)
Theorem unlock_all_folders_restores :
  forall (self : FolderLock.t) (folder : path) (w : world)
         (answer : str) (rest : list str)
         (info : lock_info) (v : name) (es fes : entries),
    diverge folder (config_dir self) ->
    stdin w = answer :: rest -> says_yes answer ->
    registry_is self (fs w) [(folder, info)] ->
    hidden_path info = hidden_dir self ++ [v] ->
    resolve (hidden_dir self ++ [v]) (fs w) = Ret (Dir es) ->
    NoDup (map fst es) ->
    resolve folder (fs w) = Ret (Dir fes) ->
    (forall x, In x (map fst es) -> find_entry x fes = None) ->
    exists w',
      unlock_all_folders self w = (Ret tt, w') /\
      holds folder (fs w') (fes ++ es) /\
      exists_ (hidden_dir self ++ [v]) (fs w') = false /\
      registry_is self (fs w') [] /\
      out w' = out w ++ [EmergencyBanner; UnlockedOne folder; UnlockedCount 1] /\
      stdin w' = rest /\
      saved w' = saved w ++ [lock_status_file self].
Proof.
  intros self folder w answer rest info v es fes beside Hin Hyes Hr Hhp Hv Hnd Hf Hfree.
  set (vault := hidden_dir self ++ [v]) in *.
  unfold unlock_all_folders.
  unfold bind at 1. unfold print at 1.
  unfold bind at 1. unfold getpass at 1. cbn [stdin with_out]. rewrite Hin.
  apply lower_yes in Hyes. rewrite Hyes. cbn [negb].
  set (w1 := with_stdin rest (with_out (out w ++ [EmergencyBanner]) w)).
  assert (Hr1 : registry_is self (fs w1) [(folder, info)]) by exact Hr.
  rewrite (bind_Ret _ _ _ _ _ (load_status_run self _ _ Hr1)).
  (* the one entry *)
  assert (Hd : is_dir folder (fs w1) = true)
    by (unfold is_dir; change (fs w1) with (fs w); rewrite Hf; reflexivity).
  assert (D : diverge vault folder)
    by (apply diverge_sym, (beside_vault self folder beside v)).
  destruct (move_each_between vault folder es fes (with_fs (fs w1) w1) D Hv Hnd Hf Hfree)
    as (t1 & Hrun & Hv1 & Hf1 & Hfiles).
  destruct (rmdir_empty _ _ _ Hv1) as [Hrm Hgone]. fold vault in Hrm, Hgone.
  set (t2 := remove vault t1) in *.
  assert (Hrestore : restore_vault (hidden_path info) folder w1
                     = (Ret tt, with_fs t2 w1)).
  { rewrite Hhp. fold vault. unfold restore_vault.
    unfold bind at 1. unfold update at 1. rewrite (mkdir_existing_dir _ _ Hd).
    unfold bind at 1. unfold try_ask at 1. cbn [fs with_fs].
    unfold iterdir at 1. change (fs w1) with (fs w). rewrite Hv. cbv beta iota.
    unfold bind at 1. change (fs w) with (fs w1) at 1. rewrite Hrun.
    unfold update. cbn [fs with_fs]. rewrite Hrm. reflexivity. }
  assert (Hx : exists_ (hidden_path info) (fs w1) = true)
    by (rewrite Hhp; apply (resolve_exists _ _ _ Hv)).
  cbn [unlock_entries]. unfold bind at 1.
  rewrite (bind_Ret _ _ _ _ _
             (unlock_entry_restored folder info [(folder, info)] 0 w1 _ Hx Hrestore)).
  unfold ret at 1. cbv beta iota. cbn [fst snd].
  assert (Hdel : Dict.del folder [(folder, info)] = [])
    by (unfold Dict.del; cbn [filter fst]; rewrite path_eqb_refl; reflexivity).
  rewrite Hdel.
  set (w2 := with_out (out (with_fs t2 w1) ++ [UnlockedOne folder]) (with_fs t2 w1)).
  assert (Hr2 : registry_is self (fs w2) [(folder, info)]).
  { unfold registry_is, read_file. cbn [fs w2 with_out with_fs]. unfold t2.
    rewrite (resolve_remove_file _ _ _ (StatusJson [(folder, info)])); [reflexivity| |].
    - apply Hfiles; [exact (registry_file self _ _ Hr)|].
      apply registry_not_below_vault.
    - apply registry_not_below_vault. }
  assert (Hf2 : resolve folder t2 = Ret (Dir (fes ++ es))).
  { unfold t2, vault, remove. rewrite split_last_app.
    rewrite (resolve_modify_dir_diverge _ _ _ _
               (diverge_sym _ _ (beside_hidden_dir self folder beside))).
    exact Hf1. }
  destruct (save_status_effect self [(folder, info)] [] w2 Hr2)
    as (t3 & Hsave & Hreg3 & Hbeside3 & Hbelow3).
  rewrite (bind_Ret _ _ _ _ _ Hsave).
  eexists. split; [reflexivity|].
  cbn [fs saved out stdin with_out with_saved with_fs with_stdin].
  split.
  { exists (fes ++ es). split; [|apply Permutation_refl].
    rewrite (Hbeside3 _ (diverge_sym _ _ beside)). exact Hf2. }
  split.
  { unfold exists_ in *. unfold vault, hidden_dir in *.
    rewrite <- app_assoc. simpl app. rewrite Hbelow3 by reflexivity.
    cbn [fs w2 with_out with_fs]. rewrite <- app_assoc in Hgone. exact Hgone. }
  split; [exact Hreg3|].
  unfold w2, w1. cbn [out saved stdin with_out with_fs with_stdin].
  split; [rewrite <- !app_assoc; reflexivity|]. split; reflexivity.
Qed.

Lemma unlock_all_folders_restores_witness :
  exists w',
    unlock_all_folders tool
      (world_of (installed admin0 user0 [entry_x ["tmp"; "x"] 1]
                   [("x_20240101_120000", Dir [a_txt])] [("x", Dir [b_txt])])
                [str_of_string "YES"])
    = (Ret tt, w') /\
    holds ["tmp"; "x"] (fs w') ([b_txt] ++ [a_txt]) /\
    registry_is tool (fs w') [].
Proof.
  assert (Hnd : NoDup (map fst [a_txt])).
  { repeat constructor; simpl; intuition discriminate. }
  assert (Hfree : forall x, In x (map fst [a_txt]) -> find_entry x [b_txt] = None).
  { intros x [<-|[]]. reflexivity. }
  assert (Hyes : says_yes (str_of_string "YES")).
  { exists 89, 69, 83. split; [reflexivity|]. repeat split; right; reflexivity. }
  destruct (unlock_all_folders_restores tool ["tmp"; "x"]
              (world_of (installed admin0 user0 [entry_x ["tmp"; "x"] 1]
                           [("x_20240101_120000", Dir [a_txt])] [("x", Dir [b_txt])])
                        [str_of_string "YES"])
              (str_of_string "YES") [] (snd (entry_x ["tmp"; "x"] 1))
              "x_20240101_120000" [a_txt] [b_txt]
              (conj eq_refl eq_refl) eq_refl Hyes eq_refl eq_refl eq_refl Hnd eq_refl Hfree)
    as (w' & H1 & H2 & _ & H4 & _).
  exists w'. exact (conj H1 (conj H2 H4)).
Defined.

(* ------------------------------------------------------------------ *)
(** ** What a lock and an unlock leave alone *)

(** X17.  A lock and an unlock keep to their folder.  For a folder
    beside the configuration directory: a [lock_folder] that seals it
    leaves every file that is not below the folder, other than the
    registry file, with its content; and an [unlock_folder] that restores
    it leaves every file that is not below its vault, other than the
    registry file, with its content.  The credentials, the files of the
    other vaults and everything else in the tree are among them. *)
Theorem lock_and_unlock_keep_other_files :
  forall (self : FolderLock.t) (folder : path) (w : world)
         (c : stored_data) (p : str) (rest : list str) (r : registry),
    diverge folder (config_dir self) ->
    registry_is self (fs w) r ->
    user_credential_is self (fs w) c -> stdin w = p :: rest -> accepts c p ->
    (forall es,
       resolve folder (fs w) = Ret (Dir es) -> NoDup (map fst es) ->
       is_dir (hidden_dir self) (fs w) = true ->
       exists_ (vault_of self folder w) (fs w) = false ->
       Dict.mem folder r = false ->
       exists w',
         lock_folder self folder w = (Ret true, w') /\
         (forall q d, resolve q (fs w) = Ret (File d) ->
                      is_prefix folder q = false -> q <> lock_status_file self ->
                      resolve q (fs w') = Ret (File d))) /\
    (forall info v es fes,
       Dict.get folder r = Some info ->
       hidden_path info = hidden_dir self ++ [v] ->
       resolve (hidden_dir self ++ [v]) (fs w) = Ret (Dir es) -> NoDup (map fst es) ->
       resolve folder (fs w) = Ret (Dir fes) ->
       (forall x, In x (map fst es) -> find_entry x fes = None) ->
       exists w',
         unlock_folder self folder w = (Ret true, w') /\
         (forall q d, resolve q (fs w) = Ret (File d) ->
                      is_prefix (hidden_dir self ++ [v]) q = false ->
                      q <> lock_status_file self ->
                      resolve q (fs w') = Ret (File d))).
Proof.
  intros self folder w c p rest r D Hr Hc Hin Hacc. split.
  - intros es Hf Hnd Hh Hfresh Hm.
    destruct (lock_folder_seals_run self folder D w c p rest r es
                Hf Hnd Hh Hfresh Hc Hin Hacc Hr Hm)
      as (t1 & Hrun & _ & _ & _ & _ & Hkeep).
    eexists. split; [exact Hrun | exact Hkeep].
  - intros info v es fes Hg Hhp Hv Hnd Hf Hfree.
    destruct (unlock_folder_restores_run self folder D w c p rest r info v es fes
                Hr Hg Hhp Hv Hnd Hf Hfree Hc Hin Hacc)
      as (t1 & Hrun & _ & _ & _ & _ & Hkeep).
    eexists. split; [exact Hrun | exact Hkeep].
Qed.

Lemma lock_and_unlock_keep_other_files_witness :
  exists w',
    lock_folder tool ["tmp"; "x"]
      (world_of (installed admin0 user0 [] [] two_files) [secret1])
    = (Ret true, w') /\
    resolve (admin_hash_file tool) (fs w') = Ret (File (CredJson admin0)).
Proof.
  assert (Hnd : NoDup (map fst [a_txt; b_txt])).
  { repeat constructor; simpl; intuition discriminate. }
  destruct (proj1 (lock_and_unlock_keep_other_files tool ["tmp"; "x"]
                     (world_of (installed admin0 user0 [] [] two_files) [secret1])
                     user0 secret1 [] []
                     (conj eq_refl eq_refl) eq_refl eq_refl eq_refl accepts_secret1)
                  [a_txt; b_txt] eq_refl Hnd eq_refl eq_refl eq_refl)
    as (w' & H1 & H2).
  exists w'. split; [exact H1|].
  apply (H2 (admin_hash_file tool) (CredJson admin0) eq_refl eq_refl).
  discriminate.
Defined.
